(** * Story-generation proxy: task orchestration, stream reconciliation
      and content parsing

    A shallow embedding of the three API routes of the repository
    (submit [/api/suna/generate], status [/api/suna/status], result
    [/api/suna/result]), of the [ProxyDatabase] helper class they share
    and of the [parseStoryContent] helper, followed by the properties
    the specification states about them.

    Conventions.
    - Text that the code inspects character by character (stream chunks,
      accumulated content, titles, page fields) is a JavaScript string,
      i.e. a sequence of UTF-16 code units ([jsstring]).
    - Identifiers and labels that the code only compares for equality
      (task ids, user ids, endpoint names, status labels, error messages)
      are plain [string]s.
    - A table is the list of its rows in insertion order; a query is a
      [filter] over it.
    - What the outside world answers to a request (identity provider,
      external generation service, storage errors that the code inspects)
      is an explicit input of the handler. *)

From Stdlib Require Import List NArith ZArith Bool Ascii String DecimalString Lia.
Import ListNotations.
Open Scope string_scope.
Open Scope list_scope.

Set Implicit Arguments.

(** ** JavaScript strings *)

Module Js.

(** A JavaScript string: its UTF-16 code units. *)
Definition jsstring := list N.

Definition eqb (a b : jsstring) : bool :=
  if list_eq_dec N.eq_dec a b then true else false.

(** Truthiness of a string value: the empty string is falsy. *)
Definition truthy (s : jsstring) : bool :=
  match s with [] => false | _ :: _ => true end.

(** Code units of a source literal, read from its UTF-8 bytes. *)
Fixpoint utf16_of_utf8 (bs : list N) : jsstring :=
  match bs with
  | [] => []
  | b0 :: r0 =>
    if (b0 <? 128)%N then b0 :: utf16_of_utf8 r0 else
    match r0 with
    | [] => [65533%N]
    | b1 :: r1 =>
      if (b0 <? 224)%N
      then ((b0 - 192) * 64 + (b1 - 128))%N :: utf16_of_utf8 r1 else
      match r1 with
      | [] => [65533%N]
      | b2 :: r2 =>
        if (b0 <? 240)%N
        then ((b0 - 224) * 4096 + (b1 - 128) * 64 + (b2 - 128))%N
               :: utf16_of_utf8 r2 else
        match r2 with
        | [] => [65533%N]
        | b3 :: r3 =>
          let cp := ((b0 - 240) * 262144 + (b1 - 128) * 4096
                     + (b2 - 128) * 64 + (b3 - 128))%N in
          let v := (cp - 65536)%N in
          (55296 + v / 1024)%N :: (56320 + v mod 1024)%N :: utf16_of_utf8 r3
        end
      end
    end
  end.

Definition lit (s : string) : jsstring :=
  utf16_of_utf8 (map (fun a => N_of_ascii a) (list_ascii_of_string s)).

(** [WhiteSpace] and [LineTerminator] code units, the ones [trim] strips. *)
Definition is_space (c : N) : bool :=
  ((9 <=? c) && (c <=? 13) || (c =? 32) || (c =? 160) || (c =? 5760)
   || (8192 <=? c) && (c <=? 8202)
   || (c =? 8232) || (c =? 8233) || (c =? 8239) || (c =? 8287)
   || (c =? 12288) || (c =? 65279))%N.

Fixpoint trimStart (s : jsstring) : jsstring :=
  match s with
  | [] => []
  | c :: r => if is_space c then trimStart r else s
  end.

Definition trimEnd (s : jsstring) : jsstring := rev (trimStart (rev s)).

Definition trim (s : jsstring) : jsstring := trimEnd (trimStart s).

(** [s.split(sep)] for a one-unit separator; the empty string splits into
    one empty piece. *)
Fixpoint split (sep : N) (s : jsstring) : list jsstring :=
  match s with
  | [] => [[]]
  | c :: r =>
    if (c =? sep)%N then [] :: split sep r
    else match split sep r with
         | l :: ls => (c :: l) :: ls
         | [] => [[c]]
         end
  end.

Fixpoint startsWith (s p : jsstring) : bool :=
  match p, s with
  | [], _ => true
  | _ :: _, [] => false
  | x :: p', c :: s' => (c =? x)%N && startsWith s' p'
  end.

(** [s.slice(n)] for a non-negative [n]. *)
Definition slice (n : nat) (s : jsstring) : jsstring := skipn n s.

(** [s.replace(pat, '')] for a string pattern: the first occurrence of
    [pat] is removed. *)
Fixpoint remove_first (pat s : jsstring) : jsstring :=
  if startsWith s pat then skipn (List.length pat) s
  else match s with
       | [] => []
       | c :: r => c :: remove_first pat r
       end.

(** [\d] of a regular expression without the unicode-sets flag. *)
Definition is_digit (c : N) : bool := ((48 <=? c) && (c <=? 57))%N.

Fixpoint skip_digits (s : jsstring) : jsstring :=
  match s with
  | [] => []
  | c :: r => if is_digit c then skip_digits r else s
  end.

End Js.

Abbreviation jsstring := Js.jsstring.
Definition js (s : string) : jsstring := Js.lit s.

(** A literal in which every apostrophe stands for a double quote, to
    write JSON text. *)
Definition jsq (s : string) : jsstring :=
  map (fun c => if (c =? 39)%N then 34%N else c) (js s).

Definition NL : N := 10%N.

(** ** Content parser ([parseStoryContent], result route) *)

Module Parser.

Record Page := { text : jsstring; image : jsstring }.

Record StoryData := { title : jsstring; pages : list Page }.

Definition TITLE_MARK : jsstring := js "标题：".
Definition TEXT_MARK : jsstring := js "文字：".
Definition IMAGE_MARK : jsstring := js "图片：".

(** [line.match(/^第\d+页：?$/)] *)
Definition is_page_header (line : jsstring) : bool :=
  match line with
  | c :: r =>
    (c =? 31532)%N &&
    match r with
    | d :: _ =>
      Js.is_digit d &&
      match Js.skip_digits r with
      | p :: tl =>
        (p =? 39029)%N &&
        match tl with
        | [] => true
        | [q] => (q =? 65306)%N
        | _ => false
        end
      | [] => false
      end
    | [] => false
    end
  | [] => false
  end.

(** A line [第N页] or [第N页：] with numeral [digits]. *)
Definition page_header (digits : jsstring) (colon : bool) : jsstring :=
  [31532%N] ++ digits ++ 39029%N :: (if colon then [65306%N] else []).

(** [currentPage && currentPage.text && currentPage.image] *)
Definition page_complete (p : Page) : bool :=
  Js.truthy (text p) && Js.truthy (image p).

Definition push_if_complete (pages : list Page) (cur : option Page) : list Page :=
  match cur with
  | Some p => if page_complete p then pages ++ [p] else pages
  | None => pages
  end.

(** The three variables of the loop. *)
Record State := {
  st_title : jsstring;
  st_pages : list Page;
  currentPage : option Page
}.

Definition init : State :=
  {| st_title := []; st_pages := []; currentPage := None |}.

(** One iteration of [for (const line of lines)]. *)
Definition step (st : State) (line : jsstring) : State :=
  if Js.startsWith line TITLE_MARK then
    {| st_title := Js.trim (Js.remove_first TITLE_MARK line);
       st_pages := st_pages st;
       currentPage := currentPage st |}
  else if is_page_header line then
    {| st_title := st_title st;
       st_pages := push_if_complete (st_pages st) (currentPage st);
       currentPage := Some {| text := []; image := [] |} |}
  else if Js.startsWith line TEXT_MARK then
    match currentPage st with
    | Some p =>
      {| st_title := st_title st;
         st_pages := st_pages st;
         currentPage :=
           Some {| text := Js.trim (Js.remove_first TEXT_MARK line);
                   image := image p |} |}
    | None => st
    end
  else if Js.startsWith line IMAGE_MARK then
    match currentPage st with
    | Some p =>
      {| st_title := st_title st;
         st_pages := st_pages st;
         currentPage :=
           Some {| text := text p;
                   image := Js.trim (Js.remove_first IMAGE_MARK line) |} |}
    | None => st
    end
  else st.

(** [content.split('\n').map(line => line.trim()).filter(line => line.length > 0)] *)
Definition content_lines (content : jsstring) : list jsstring :=
  filter (fun line => (0 <? List.length line)%nat)
         (map Js.trim (Js.split NL content)).

Definition parse_lines (lines : list jsstring) : StoryData :=
  let st := fold_left step lines init in
  {| title := st_title st;
     pages := push_if_complete (st_pages st) (currentPage st) |}.

Definition parseStoryContent (content : jsstring) : StoryData :=
  parse_lines (content_lines content).

(** Specification side: the page under construction after a line, as
    the component design words it (a header opens an empty page, a text
    line sets the text field, an image line sets the image field). *)
Definition cursor_after (cur : option Page) (line : jsstring) : option Page :=
  if Js.startsWith line TITLE_MARK then cur
  else if is_page_header line then Some {| text := []; image := [] |}
  else if Js.startsWith line TEXT_MARK then
    option_map (fun p => {| text := Js.trim (Js.remove_first TEXT_MARK line);
                            image := image p |}) cur
  else if Js.startsWith line IMAGE_MARK then
    option_map (fun p => {| text := text p;
                            image := Js.trim (Js.remove_first IMAGE_MARK line) |}) cur
  else cur.

Definition option_list {A} (o : option A) : list A :=
  match o with Some a => [a] | None => [] end.

(** Specification side: every page at the moment it is closed, by the
    next page-header line or by the end of the input, in order. *)
Fixpoint closed_pages_from (cur : option Page) (lines : list jsstring) : list Page :=
  match lines with
  | [] => option_list cur
  | line :: rest =>
    (if negb (Js.startsWith line TITLE_MARK) && is_page_header line
     then option_list cur else [])
    ++ closed_pages_from (cursor_after cur line) rest
  end.

Definition closed_pages (content : jsstring) : list Page :=
  closed_pages_from None (content_lines content).

(** Specification side: two lines that are equal, or are page headers
    that differ in their numeral only. *)
Inductive renumbered : jsstring -> jsstring -> Prop :=
| renumbered_same (line : jsstring) : renumbered line line
| renumbered_header (n1 n2 : jsstring) (colon : bool) :
    n1 <> [] -> n2 <> [] ->
    forallb Js.is_digit n1 = true -> forallb Js.is_digit n2 = true ->
    renumbered (page_header n1 colon) (page_header n2 colon).

End Parser.

(** ** JSON values, as far as the result route looks at them *)

Module Json.

(** A Number value, by the two observations the route makes of it. *)
Record number := { is_zero : bool; shown : jsstring }.

(** The value [JSON.parse] returns. An object lists its own properties;
    where a key occurs twice the later member is the property. *)
#[warnings="-register-all"] Inductive value :=
| Null
| Bool (b : bool)
| Num (n : number)
| Str (s : jsstring)
| Arr (items : list value)
| Obj (members : list (jsstring * value)).

(** The result of reading a property: [None] is [undefined]. No
    prototype of a parsed value has a property [type], [content] or
    [role], so only own properties of objects are found. Reading a
    property of [null] throws; the caller treats [Null] before calling. *)
Fixpoint lookup (k : jsstring) (members : list (jsstring * value)) : option value :=
  match members with
  | [] => None
  | (k', v) :: rest =>
    match lookup k rest with
    | Some w => Some w
    | None => if Js.eqb k k' then Some v else None
    end
  end.

Definition get (v : value) (k : jsstring) : option value :=
  match v with
  | Obj members => lookup k members
  | _ => None
  end.

(** [x === s] for a string literal [s]. *)
Definition is_string (x : option value) (s : jsstring) : bool :=
  match x with
  | Some (Str t) => Js.eqb t s
  | _ => false
  end.

Definition truthy (x : option value) : bool :=
  match x with
  | None => false
  | Some Null => false
  | Some (Bool b) => b
  | Some (Num n) => negb (is_zero n)
  | Some (Str s) => Js.truthy s
  | Some (Arr _) => true
  | Some (Obj _) => true
  end.

(** The string that [result += v] appends; [None] when the conversion
    throws a [TypeError] (an object whose own [toString] member shadows
    the inherited method with a value that cannot be called). *)
Fixpoint to_string (v : value) : option jsstring :=
  match v with
  | Null => Some (js "null")
  | Bool true => Some (js "true")
  | Bool false => Some (js "false")
  | Num n => Some (shown n)
  | Str s => Some s
  | Arr items =>
    (fix join (l : list value) : option jsstring :=
       match l with
       | [] => Some []
       | x :: r =>
         match match x with Null => Some [] | _ => to_string x end, join r with
         | Some sx, Some sr =>
           Some (sx ++ match r with [] => [] | _ :: _ => [44%N] end ++ sr)
         | _, _ => None
         end
       end) items
  | Obj members =>
    match lookup (js "toString") members with
    | Some _ => None
    | None => Some (js "[object Object]")
    end
  end.

(** A decoder for one fragment of JSON, used to run the route on
    concrete streams: a single object whose members are string literals,
    with no escape other than the two-character ones, written without
    white space. On that fragment it returns what [JSON.parse] returns;
    texts outside the fragment are not covered. *)
Definition unescape (c : N) : option N :=
  if (c =? 34)%N then Some 34%N          (* quotation mark *)
  else if (c =? 92)%N then Some 92%N     (* reverse solidus *)
  else if (c =? 47)%N then Some 47%N     (* solidus *)
  else if (c =? 98)%N then Some 8%N      (* b *)
  else if (c =? 102)%N then Some 12%N    (* f *)
  else if (c =? 110)%N then Some 10%N    (* n *)
  else if (c =? 114)%N then Some 13%N    (* r *)
  else if (c =? 116)%N then Some 9%N     (* t *)
  else None.

Fixpoint scan_string (s : jsstring) : option (jsstring * jsstring) :=
  match s with
  | [] => None
  | c :: r =>
    if (c =? 34)%N then Some ([], r)
    else if (c <? 32)%N then None
    else if (c =? 92)%N then
      match r with
      | e :: r' =>
        match unescape e, scan_string r' with
        | Some u, Some (str, rest) => Some (u :: str, rest)
        | _, _ => None
        end
      | [] => None
      end
    else match scan_string r with
         | Some (str, rest) => Some (c :: str, rest)
         | None => None
         end
  end.

Definition string_literal (s : jsstring) : option (jsstring * jsstring) :=
  match s with
  | 34%N :: r => scan_string r
  | _ => None
  end.

Fixpoint members_from (fuel : nat) (s : jsstring) : option (list (jsstring * value)) :=
  match fuel with
  | O => None
  | S fuel' =>
    match string_literal s with
    | Some (k, 58%N :: r) =>
      match string_literal r with
      | Some (v, [125%N]) => Some [(k, Str v)]
      | Some (v, 44%N :: r') =>
        match members_from fuel' r' with
        | Some ms => Some ((k, Str v) :: ms)
        | None => None
        end
      | _ => None
      end
    | _ => None
    end
  end.

Definition parse_flat_object (s : jsstring) : option value :=
  match s with
  | [123%N; 125%N] => Some (Obj [])
  | 123%N :: r =>
    match members_from (List.length r) r with
    | Some ms => Some (Obj ms)
    | None => None
    end
  | _ => None
  end.

End Json.

(** ** Stream reconciler (the read loop of the result route) *)

Module Reconciler.

Record Acc := { result : jsstring; messages : list Json.value }.

Definition empty : Acc := {| result := []; messages := [] |}.

Section Loop.

(** [JSON.parse]: [None] when it throws a [SyntaxError]. *)
Variable JSON_parse : jsstring -> option Json.value.

(** The body of [for (const line of lines)]; every exception raised
    inside the [try] is swallowed by its [catch]. *)
Definition on_line (acc : Acc) (line : jsstring) : Acc :=
  if Js.startsWith line (js "data: ") then
    match JSON_parse (Js.slice 6 line) with
    | None => acc
    | Some Json.Null => acc
    | Some data =>
      if Json.is_string (Json.get data (js "type")) (js "message")
         && Json.truthy (Json.get data (js "content"))
      then
        let pushed := messages acc ++ [data] in
        if Json.is_string (Json.get data (js "role")) (js "assistant") then
          match Json.get data (js "content") with
          | Some c =>
            match Json.to_string c with
            | Some text => {| result := result acc ++ text; messages := pushed |}
            | None => {| result := result acc; messages := pushed |}
            end
          | None => {| result := result acc; messages := pushed |}
          end
        else {| result := result acc; messages := pushed |}
      else acc
    end
  else acc.

(** One iteration of the [while (true)] loop, after [decoder.decode]:
    [chunk] is the text of one read. *)
Definition on_chunk (acc : Acc) (chunk : jsstring) : Acc :=
  fold_left on_line (Js.split NL chunk) acc.

(** The whole loop, over the texts of the successive reads. *)
Definition read_all (reads : list jsstring) : Acc :=
  fold_left on_chunk reads empty.

End Loop.

(** A read whose text is empty or ends with a newline. *)
Definition line_aligned (chunk : jsstring) : bool :=
  match rev chunk with
  | [] => true
  | c :: _ => (c =? NL)%N
  end.

End Reconciler.

(** ** Tables *)

Module Db.

(** [story_generation_tasks]; columns that the routes only echo
    ([progress], [created_at], [updated_at]) are left out. *)
Record Task := {
  id : string;
  user_id : string;
  story_description : string;
  tags : list string;
  custom_tags : option (list string);
  status : string;
  error_message : option string;
  completed_at : option Z;
  suna_thread_id : option string;
  suna_agent_run_id : option string
}.

(** A member of a JSON answer, or a key of an update: absent
    ([undefined], which the serialisation of an update drops), [null],
    or a string. *)
Inductive member (A : Type) :=
| Absent
| Nulled
| Given (a : A).

Arguments Absent {A}.
Arguments Nulled {A}.
Arguments Given {A} a.

(** A column after [.update({ key })] with that member as the key: an
    absent key leaves the column, [null] empties it. *)
Definition assign {A} (key : member A) (old : option A) : option A :=
  match key with
  | Absent => old
  | Nulled => None
  | Given a => Some a
  end.

(** The member where a string or nothing is read: [null] and
    [undefined] both show no string. *)
Definition value_of {A} (x : member A) : option A :=
  match x with
  | Given a => Some a
  | _ => None
  end.

(** What the external service answers, by the members the routes read.
    [sd_status] is the status when it is a string: the routes only
    compare it with string literals. *)
Record SunaData := {
  sd_thread_id : member string;
  sd_agent_run_id : member string;
  sd_status : option string;
  sd_error : member string
}.

(** The body of a submit request. *)
Record RequestData := {
  rq_story_description : string;
  rq_tags : list string;
  rq_custom_tags : option (list string)
}.

(** [suna_task_mapping] *)
Record SunaTaskMapping := {
  local_task_id : string;
  m_user_id : string;
  m_suna_thread_id : option string;
  m_suna_agent_run_id : option string;
  m_status : string;
  request_data : option RequestData;
  response_data : option SunaData;
  m_error_message : option string;
  retry_count : Z;
  max_retries : Z;
  m_updated_at : Z
}.

(** [api_rate_limits]; times are milliseconds since the epoch. The
    columns that no code reads or writes ([window_duration_minutes],
    [created_at]) are left out. *)
Record ApiRateLimit := {
  rl_id : nat;
  rl_user_id : string;
  rl_endpoint : string;
  request_count : Z;
  window_start : Z;
  max_requests : Z;
  rl_updated_at : Z
}.

(** [storybooks] *)
Record Storybook := {
  sb_id : nat;
  sb_title : jsstring;
  sb_description : string;
  generation_task_id : string;
  sb_created_at : Z
}.

(** [storybook_pages] *)
Record StorybookPage := {
  storybook_id : nat;
  page_number : nat;
  content : jsstring;
  image_description : jsstring;
  pg_created_at : Z
}.

(** [user_storybooks] *)
Record UserStorybook := { us_user_id : string; us_storybook_id : nat }.

(** [error_logs] *)
Record ErrorLog := {
  el_user_id : option string;
  el_endpoint : string;
  error_type : string;
  el_error_message : string;
  severity : string
}.

(** [proxy_requests] *)
Record ProxyRequest := {
  pr_user_id : string;
  pr_endpoint : string;
  method : string;
  status_code : nat
}.

(** A request sent to the external generation service. *)
Inductive ExtCall :=
| CallInitiate (jwt : string)
| CallPoll (agent_run_id : string)
| CallStream (agent_run_id : string).

(** The two databases, the id generator of the storage service and the
    log of requests sent to the external service. *)
Record World := {
  story_generation_tasks : list Task;
  storybooks : list Storybook;
  storybook_pages : list StorybookPage;
  user_storybooks : list UserStorybook;
  api_rate_limits : list ApiRateLimit;
  suna_task_mapping : list SunaTaskMapping;
  error_logs : list ErrorLog;
  proxy_requests : list ProxyRequest;
  system_metrics : list string;
  next_id : nat;
  ext_calls : list ExtCall
}.

Definition empty : World :=
  {| story_generation_tasks := []; storybooks := []; storybook_pages := [];
     user_storybooks := []; api_rate_limits := []; suna_task_mapping := [];
     error_logs := []; proxy_requests := []; system_metrics := [];
     next_id := 0; ext_calls := [] |}.

Definition with_tasks (x : list Task) (w : World) : World :=
  {| story_generation_tasks := x; storybooks := storybooks w;
     storybook_pages := storybook_pages w; user_storybooks := user_storybooks w;
     api_rate_limits := api_rate_limits w; suna_task_mapping := suna_task_mapping w;
     error_logs := error_logs w; proxy_requests := proxy_requests w;
     system_metrics := system_metrics w; next_id := next_id w;
     ext_calls := ext_calls w |}.

Definition with_storybooks (x : list Storybook) (n : nat) (w : World) : World :=
  {| story_generation_tasks := story_generation_tasks w; storybooks := x;
     storybook_pages := storybook_pages w; user_storybooks := user_storybooks w;
     api_rate_limits := api_rate_limits w; suna_task_mapping := suna_task_mapping w;
     error_logs := error_logs w; proxy_requests := proxy_requests w;
     system_metrics := system_metrics w; next_id := n;
     ext_calls := ext_calls w |}.

Definition with_pages (x : list StorybookPage) (w : World) : World :=
  {| story_generation_tasks := story_generation_tasks w; storybooks := storybooks w;
     storybook_pages := x; user_storybooks := user_storybooks w;
     api_rate_limits := api_rate_limits w; suna_task_mapping := suna_task_mapping w;
     error_logs := error_logs w; proxy_requests := proxy_requests w;
     system_metrics := system_metrics w; next_id := next_id w;
     ext_calls := ext_calls w |}.

Definition with_user_storybooks (x : list UserStorybook) (w : World) : World :=
  {| story_generation_tasks := story_generation_tasks w; storybooks := storybooks w;
     storybook_pages := storybook_pages w; user_storybooks := x;
     api_rate_limits := api_rate_limits w; suna_task_mapping := suna_task_mapping w;
     error_logs := error_logs w; proxy_requests := proxy_requests w;
     system_metrics := system_metrics w; next_id := next_id w;
     ext_calls := ext_calls w |}.

Definition with_rate_limits (x : list ApiRateLimit) (n : nat) (w : World) : World :=
  {| story_generation_tasks := story_generation_tasks w; storybooks := storybooks w;
     storybook_pages := storybook_pages w; user_storybooks := user_storybooks w;
     api_rate_limits := x; suna_task_mapping := suna_task_mapping w;
     error_logs := error_logs w; proxy_requests := proxy_requests w;
     system_metrics := system_metrics w; next_id := n;
     ext_calls := ext_calls w |}.

Definition with_mappings (x : list SunaTaskMapping) (w : World) : World :=
  {| story_generation_tasks := story_generation_tasks w; storybooks := storybooks w;
     storybook_pages := storybook_pages w; user_storybooks := user_storybooks w;
     api_rate_limits := api_rate_limits w; suna_task_mapping := x;
     error_logs := error_logs w; proxy_requests := proxy_requests w;
     system_metrics := system_metrics w; next_id := next_id w;
     ext_calls := ext_calls w |}.

Definition with_error_logs (x : list ErrorLog) (w : World) : World :=
  {| story_generation_tasks := story_generation_tasks w; storybooks := storybooks w;
     storybook_pages := storybook_pages w; user_storybooks := user_storybooks w;
     api_rate_limits := api_rate_limits w; suna_task_mapping := suna_task_mapping w;
     error_logs := x; proxy_requests := proxy_requests w;
     system_metrics := system_metrics w; next_id := next_id w;
     ext_calls := ext_calls w |}.

Definition with_proxy_requests (x : list ProxyRequest) (w : World) : World :=
  {| story_generation_tasks := story_generation_tasks w; storybooks := storybooks w;
     storybook_pages := storybook_pages w; user_storybooks := user_storybooks w;
     api_rate_limits := api_rate_limits w; suna_task_mapping := suna_task_mapping w;
     error_logs := error_logs w; proxy_requests := x;
     system_metrics := system_metrics w; next_id := next_id w;
     ext_calls := ext_calls w |}.

Definition with_metrics (x : list string) (w : World) : World :=
  {| story_generation_tasks := story_generation_tasks w; storybooks := storybooks w;
     storybook_pages := storybook_pages w; user_storybooks := user_storybooks w;
     api_rate_limits := api_rate_limits w; suna_task_mapping := suna_task_mapping w;
     error_logs := error_logs w; proxy_requests := proxy_requests w;
     system_metrics := x; next_id := next_id w;
     ext_calls := ext_calls w |}.

Definition with_call (c : ExtCall) (w : World) : World :=
  {| story_generation_tasks := story_generation_tasks w; storybooks := storybooks w;
     storybook_pages := storybook_pages w; user_storybooks := user_storybooks w;
     api_rate_limits := api_rate_limits w; suna_task_mapping := suna_task_mapping w;
     error_logs := error_logs w; proxy_requests := proxy_requests w;
     system_metrics := system_metrics w; next_id := next_id w;
     ext_calls := ext_calls w ++ [c] |}.

(** [.single()]: the row when the query selects exactly one, otherwise
    no data (and an error of code PGRST116). *)
Definition single {A} (rows : list A) : option A :=
  match rows with
  | [r] => Some r
  | _ => None
  end.

(** Storage errors that the code inspects, one field per place where
    it does; [None] is an operation that went through. A rejected
    operation is one that the storage refuses for any reason, a broken
    connection as well as a violated key or uniqueness constraint. The
    rate-limit field holds the error code, the others the error
    message. The error of the storybook lookup is the one the code does
    not read: the result route takes only the data of that answer. *)
Record Faults := {
  rate_limit_select : option string;
  task_insert : option string;
  task_select : option string;
  mapping_insert : option string;
  mapping_update : option string;
  mapping_select : option string;
  storybook_select : option string;
  storybook_insert : option string;
  pages_insert : option string
}.

Definition no_faults : Faults :=
  {| rate_limit_select := None; task_insert := None; task_select := None;
     mapping_insert := None; mapping_update := None; mapping_select := None;
     storybook_select := None; storybook_insert := None;
     pages_insert := None |}.

(** The result of a call that may throw. *)
Inductive outcome (A : Type) :=
| Ok (a : A)
| Throw (message : string).

Arguments Ok {A} a.
Arguments Throw {A} message.

End Db.

(** ** The [ProxyDatabase] class *)

Module ProxyDatabase.
Import Db.

Definition logRequest (data : ProxyRequest) (w : World) : World :=
  with_proxy_requests (proxy_requests w ++ [data]) w.

Definition logError (data : ErrorLog) (w : World) : World :=
  with_error_logs (error_logs w ++ [data]) w.

Definition recordMetric (metricName : string) (w : World) : World :=
  with_metrics (system_metrics w ++ [metricName]) w.

(** The rows of the trailing window:
    [.eq('user_id', userId).eq('endpoint', endpoint).gte('window_start', windowStart)] *)
Definition in_window (userId endpoint : string) (windowStart : Z)
    (r : ApiRateLimit) : bool :=
  String.eqb (rl_user_id r) userId && String.eqb (rl_endpoint r) endpoint
  && (windowStart <=? window_start r)%Z.

(** The effect on a row of
    [.update({ request_count: existing.request_count + 1, updated_at }).eq('id', existing.id)] *)
Definition count_request (existing : ApiRateLimit) (now : Z) (r : ApiRateLimit)
    : ApiRateLimit :=
  if Nat.eqb (rl_id r) (rl_id existing)
  then {| rl_id := rl_id r; rl_user_id := rl_user_id r;
          rl_endpoint := rl_endpoint r;
          request_count := (request_count existing + 1)%Z;
          window_start := window_start r;
          max_requests := max_requests r;
          rl_updated_at := now |}
  else r.

(** The time zone of the process, as [Date] consults it: the offset of
    local time from UTC at an instant, and the offset with which a local
    time is read back as an instant (at a change of offset a local time
    that occurs twice, or not at all, is read with the offset before the
    change). Both in milliseconds. *)
Record Zone := {
  offset_at : Z -> Z;
  offset_of_local : Z -> Z
}.

Definition UTC : Zone :=
  {| offset_at := fun _ => 0%Z; offset_of_local := fun _ => 0%Z |}.

(** The sixty minutes that [checkRateLimit] takes from the minutes of
    the clock, in milliseconds. *)
Definition WINDOW : Z := 60 * 60000.

(** [windowStart]: [new Date()] after
    [setMinutes(getMinutes() - 60)]. The minutes are those of local
    time: the instant is taken to local time, sixty minutes are taken
    from it, and that local time is read back as an instant. *)
Definition windowStart (zone : Zone) (now : Z) : Z :=
  let local := (now + offset_at zone now - WINDOW)%Z in
  (local - offset_of_local zone local)%Z.

(** A zone in which the start of the window is always one hour before
    the clock: one whose offset does not change, such as UTC. *)
Definition steady (zone : Zone) : Prop :=
  forall t : Z, windowStart zone t = (t - WINDOW)%Z.

(** [checkRateLimit]. [fetchError] is the error code the storage answers
    the select with, if it fails; [now] is the clock, read once for the
    call. A select that finds no row, or several, answers PGRST116. The
    source does not read the result of the update or of the insert: the
    storage is taken to accept them. (The table refuses a second row
    with the same user, operation and start; requests that arrive one
    after the other at different clock readings never insert one.) *)
Definition checkRateLimit (fetchError : option string) (zone : Zone) (now : Z)
    (userId endpoint : string) (maxRequests : Z) (w : World) : bool * World :=
  let windowStart := windowStart zone now in
  let '(existing, error) :=
    match fetchError with
    | Some code => (None, Some code)
    | None =>
      match single (filter (in_window userId endpoint windowStart)
                           (api_rate_limits w)) with
      | Some r => (Some r, None)
      | None => (None, Some "PGRST116")
      end
    end in
  if match error with
     | Some code => negb (String.eqb code "PGRST116")
     | None => false
     end
  then (true, w)
  else
    match existing with
    | Some existing =>
      if (maxRequests <=? request_count existing)%Z then (false, w)
      else
        (true,
         with_rate_limits
           (map (count_request existing now) (api_rate_limits w))
           (next_id w) w)
    | None =>
      (true,
       with_rate_limits
         (api_rate_limits w ++
          [{| rl_id := next_id w; rl_user_id := userId; rl_endpoint := endpoint;
              request_count := 1; window_start := now;
              max_requests := maxRequests; rl_updated_at := now |}])
         (S (next_id w)) w)
    end.

(** [createSunaTaskMapping]: throws when the insert fails. *)
Definition createSunaTaskMapping (error : option string)
    (data : SunaTaskMapping) (w : World) : outcome World :=
  match error with
  | Some message => Throw message
  | None => Ok (with_mappings (suna_task_mapping w ++ [data]) w)
  end.

(** The [updates] argument of [updateSunaTaskStatus]. A key that is
    not given is [Absent] ([None] for [status] and [response_data],
    which the callers give a value or leave out). *)
Record Updates := {
  u_suna_thread_id : member string;
  u_suna_agent_run_id : member string;
  u_status : option string;
  u_response_data : option SunaData;
  u_error_message : member string
}.

Definition apply_updates (now : Z) (u : Updates) (m : SunaTaskMapping)
    : SunaTaskMapping :=
  {| local_task_id := local_task_id m;
     m_user_id := m_user_id m;
     m_suna_thread_id := assign (u_suna_thread_id u) (m_suna_thread_id m);
     m_suna_agent_run_id := assign (u_suna_agent_run_id u) (m_suna_agent_run_id m);
     m_status := match u_status u with Some s => s | None => m_status m end;
     request_data := request_data m;
     response_data := match u_response_data u with
                      | Some d => Some d
                      | None => response_data m
                      end;
     m_error_message := assign (u_error_message u) (m_error_message m);
     retry_count := retry_count m;
     max_retries := max_retries m;
     m_updated_at := now |}.

(** [updateSunaTaskStatus]: throws when the update fails. *)
Definition updateSunaTaskStatus (error : option string) (now : Z)
    (localTaskId : string) (updates : Updates) (w : World) : outcome World :=
  match error with
  | Some message => Throw message
  | None =>
    Ok (with_mappings
          (map (fun m => if String.eqb (local_task_id m) localTaskId
                         then apply_updates now updates m else m)
               (suna_task_mapping w))
          w)
  end.

(** [getSunaTaskMapping]: [null] when no row (or more than one) is
    found, throws on any other error. *)
Definition getSunaTaskMapping (error : option string) (localTaskId : string)
    (w : World) : outcome (option SunaTaskMapping) :=
  match error with
  | Some message => Throw message
  | None =>
    Ok (single (filter (fun m => String.eqb (local_task_id m) localTaskId)
                       (suna_task_mapping w)))
  end.

End ProxyDatabase.

(** ** What the routes share *)

Module Http.
Import Db.

Record Response (B : Type) := { http_status : nat; body : B }.

(** The answer to a [fetch] of a JSON resource: the call throws, or the
    response is not [ok], or reading its JSON body throws, or the body
    is read. *)
Inductive Reply :=
| NetworkError (message : string)
| NotOk (status : nat) (text : string)
| BadJson (message : string)
| Data (sunaData : SunaData).

(** [`${n}`] for a status code. *)
Definition decimal (n : nat) : string :=
  NilEmpty.string_of_uint (Nat.to_uint n).

(** Truthiness of a value that is a string or missing. *)
Definition truthy (o : option string) : bool :=
  match o with
  | Some s => negb (String.eqb s EmptyString)
  | None => false
  end.

(** [.from('story_generation_tasks').select('*').eq('id', taskId)
     .eq('user_id', userId).single()], as [taskError || !task] reads it. *)
Definition select_task (error : option string) (taskId userId : string)
    (w : World) : option Task :=
  match error with
  | Some _ => None
  | None =>
    single (filter (fun t => String.eqb (id t) taskId
                             && String.eqb (user_id t) userId)
                   (story_generation_tasks w))
  end.

(** [.from('story_generation_tasks').update(...).eq('id', taskId)] *)
Definition update_tasks (taskId : string) (f : Task -> Task) (w : World) : World :=
  with_tasks (map (fun t => if String.eqb (id t) taskId then f t else t)
                  (story_generation_tasks w)) w.

End Http.

(** ** Status route: [GET /api/suna/status] *)

Module StatusRoute.
Import Db ProxyDatabase Http.

Record Env := {
  task_id_param : option string;   (* searchParams.get('task_id') *)
  auth_user : option string;       (* user.id, when getUser succeeds *)
  now : Z;
  zone : Zone;                     (* the time zone of the process *)
  faults : Faults;
  session_jwt : option string;     (* session?.access_token *)
  poll : Reply                     (* the answer of GET /agent-run/:id *)
}.

(** The JSON bodies of the route: [{ error }], [{ task_id, status,
    error: 'Task mapping not found' }] and the state of the task. *)
Inductive Body :=
| Error (error : string)
| MappingNotFound (task_id status : string)
| TaskState (task_id status : string) (completed_at : option Z)
            (error_message suna_thread_id suna_agent_run_id : option string).

Definition ENDPOINT : string := "/api/suna/status".

Definition respond (code : nat) (b : Body) (w : World) : Response Body * World :=
  ({| http_status := code; body := b |}, w).

(** The outer [catch (error)]. *)
Definition internal_error (userId message : string) (w : World)
    : Response Body * World :=
  let w := if truthy (Some userId)
           then logRequest {| pr_user_id := userId; pr_endpoint := ENDPOINT;
                              method := "GET"; status_code := 500 |} w
           else w in
  let w := logError {| el_user_id := Some userId; el_endpoint := ENDPOINT;
                       error_type := "INTERNAL_ERROR";
                       el_error_message := message; severity := "error" |} w in
  respond 500 (Error "Internal server error") w.

Definition check_failed (userId message : string) (w : World) : World :=
  logError {| el_user_id := Some userId; el_endpoint := ENDPOINT;
              error_type := "SUNA_STATUS_CHECK_FAILED";
              el_error_message := message; severity := "warning" |} w.

(** The block under [if (task.status === 'processing' &&
    sunaMapping.suna_agent_run_id)]: the local [task] variable and the
    stores after it. *)
Definition poll_and_update (env : Env) (taskId userId runId : string)
    (task : Task) (w : World) : Task * World :=
  if truthy (session_jwt env) then
    let w := with_call (CallPoll runId) w in
    match poll env with
    | NetworkError message => (task, check_failed userId message w)
    | BadJson message => (task, check_failed userId message w)
    | NotOk _ _ => (task, w)
    | Data sunaData =>
      match sd_status sunaData with
      | Some s =>
        if String.eqb s "completed" || String.eqb s "failed" then
          let newStatus := if String.eqb s "completed"
                           then "completed" else "failed" in
          let w1 :=
            update_tasks taskId
              (fun t => {| id := id t; user_id := user_id t;
                           story_description := story_description t;
                           tags := tags t; custom_tags := custom_tags t;
                           status := newStatus;
                           error_message :=
                             assign (sd_error sunaData) (error_message t);
                           completed_at := Some (now env);
                           suna_thread_id := suna_thread_id t;
                           suna_agent_run_id := suna_agent_run_id t |}) w in
          match updateSunaTaskStatus (mapping_update (faults env)) (now env) taskId
                  {| u_suna_thread_id := Absent; u_suna_agent_run_id := Absent;
                     u_status := Some newStatus;
                     u_response_data := Some sunaData;
                     u_error_message := sd_error sunaData |} w1 with
          | Throw message => (task, check_failed userId message w1)
          | Ok w2 =>
            ({| id := id task; user_id := user_id task;
                story_description := story_description task;
                tags := tags task; custom_tags := custom_tags task;
                status := newStatus;
                error_message := value_of (sd_error sunaData);
                completed_at := Some (now env);
                suna_thread_id := suna_thread_id task;
                suna_agent_run_id := suna_agent_run_id task |}, w2)
          end
        else (task, w)
      | None => (task, w)
      end
    end
  else (task, w).

Definition GET (env : Env) (w : World) : Response Body * World :=
  if negb (truthy (task_id_param env)) then
    respond 400 (Error "Task ID is required") w
  else
  let taskId := match task_id_param env with Some s => s | None => EmptyString end in
  match auth_user env with
  | None =>
    respond 401 (Error "Unauthorized")
      (logError {| el_user_id := None; el_endpoint := ENDPOINT;
                   error_type := "AUTH_ERROR";
                   el_error_message := "Unauthorized access attempt";
                   severity := "warning" |} w)
  | Some userId =>
    let '(rateLimitOk, w) :=
      checkRateLimit (rate_limit_select (faults env)) (zone env) (now env)
                     userId ENDPOINT 200 w in
    if negb rateLimitOk then
      respond 429 (Error "Rate limit exceeded. Please try again later.") w
    else
    match select_task (task_select (faults env)) taskId userId w with
    | None =>
      respond 404 (Error "Task not found")
        (logError {| el_user_id := Some userId; el_endpoint := ENDPOINT;
                     error_type := "TASK_NOT_FOUND";
                     el_error_message := String.append "Task not found: " taskId;
                     severity := "warning" |} w)
    | Some task =>
      match getSunaTaskMapping (mapping_select (faults env)) taskId w with
      | Throw message => internal_error userId message w
      | Ok None =>
        respond 200 (MappingNotFound taskId (status task))
          (logError {| el_user_id := Some userId; el_endpoint := ENDPOINT;
                       error_type := "MAPPING_NOT_FOUND";
                       el_error_message :=
                         String.append "Suna task mapping not found: " taskId;
                       severity := "warning" |} w)
      | Ok (Some sunaMapping) =>
        let '(task, w) :=
          if String.eqb (status task) "processing"
             && truthy (m_suna_agent_run_id sunaMapping)
          then poll_and_update env taskId userId
                 (match m_suna_agent_run_id sunaMapping with
                  | Some r => r | None => EmptyString end) task w
          else (task, w) in
        let w := logRequest {| pr_user_id := userId; pr_endpoint := ENDPOINT;
                               method := "GET"; status_code := 200 |} w in
        respond 200
          (TaskState taskId (status task) (completed_at task)
                     (error_message task)
                     (m_suna_thread_id sunaMapping)
                     (m_suna_agent_run_id sunaMapping)) w
      end
    end
  end.

End StatusRoute.

(** ** Result route: [GET /api/suna/result] *)

Module ResultRoute.
Import Db ProxyDatabase Http.

(** The answer to the [fetch] of the result stream. [reads] are the
    texts [decoder.decode(value)] of the successive reads of the body
    ([None]: the response has no body); [read_error] is the error with
    which the read after the last of them rejects, if it does. *)
Inductive StreamReply :=
| StreamNetworkError (message : string)
| StreamNotOk (status : nat)
| StreamBody (reads : option (list jsstring)) (read_error : option string).

Record Env := {
  task_id_param : option string;
  auth_user : option string;
  now : Z;
  zone : Zone;                     (* the time zone of the process *)
  faults : Faults;
  session_jwt : option string;
  stream : StreamReply
}.

(** The same request answered with another stream. *)
Definition with_stream (reply : StreamReply) (env : Env) : Env :=
  {| task_id_param := task_id_param env; auth_user := auth_user env;
     now := now env; zone := zone env; faults := faults env;
     session_jwt := session_jwt env;
     stream := reply |}.

(** A storybook row with its nested [storybook_pages]. *)
Record StorybookWithPages := {
  book : Storybook;
  book_pages : list StorybookPage
}.

(** The JSON bodies of the route: [{ error }]; [{ task_id, status,
    message, error_message }]; [{ task_id, status: 'completed',
    storybook, raw_content }]; [{ task_id, status: 'completed',
    raw_content, error: 'Failed to parse story content' }]; [{ task_id,
    status: 'error', error: 'Failed to fetch result from Suna AI' }]. *)
Inductive Body :=
| Error (error : string)
| NotCompleted (task_id status message : string) (error_message : option string)
| Completed (task_id : string) (storybook : StorybookWithPages)
            (raw_content : jsstring)
| ParseFailed (task_id : string) (raw_content : jsstring)
| FetchFailed (task_id : string).

Definition ENDPOINT : string := "/api/suna/result".

Definition respond (code : nat) (b : Body) (w : World) : Response Body * World :=
  ({| http_status := code; body := b |}, w).

(** The outer [catch (error)]. *)
Definition internal_error (userId message : string) (w : World)
    : Response Body * World :=
  let w := if truthy (Some userId)
           then logRequest {| pr_user_id := userId; pr_endpoint := ENDPOINT;
                              method := "GET"; status_code := 500 |} w
           else w in
  let w := logError {| el_user_id := Some userId; el_endpoint := ENDPOINT;
                       error_type := "INTERNAL_ERROR";
                       el_error_message := message; severity := "error" |} w in
  respond 500 (Error "Internal server error") w.

(** The inner [catch (sunaError)]. *)
Definition fetch_failed (taskId userId message : string) (w : World)
    : Response Body * World :=
  respond 500 (FetchFailed taskId)
    (logError {| el_user_id := Some userId; el_endpoint := ENDPOINT;
                 error_type := "SUNA_RESULT_FETCH_FAILED";
                 el_error_message := message; severity := "error" |} w).

(** [storyData.pages.map((page, index) => ({ ..., page_number: index + 1, ... }))] *)
Fixpoint page_rows_from (index : nat) (storybookId : nat) (now : Z)
    (pages : list Parser.Page) : list StorybookPage :=
  match pages with
  | [] => []
  | page :: rest =>
    {| storybook_id := storybookId;
       page_number := index + 1;
       content := Parser.text page;
       image_description := Parser.image page;
       pg_created_at := now |} :: page_rows_from (S index) storybookId now rest
  end.

Definition page_rows (storybookId : nat) (now : Z) (pages : list Parser.Page)
    : list StorybookPage :=
  page_rows_from 0 storybookId now pages.

(** The storybook selected for a task, with its nested pages:
    [.from('storybooks').select(...).eq('generation_task_id', taskId).single()] *)
Definition select_storybook (taskId : string) (w : World) : option StorybookWithPages :=
  match single (filter (fun b => String.eqb (generation_task_id b) taskId)
                       (storybooks w)) with
  | Some b =>
    Some {| book := b;
            book_pages := filter (fun p => Nat.eqb (storybook_id p) (sb_id b))
                                 (storybook_pages w) |}
  | None => None
  end.

(** [existingStorybook]: the [data] of that select. The route does not
    read its [error], so a select that fails reads as no storybook. *)
Definition lookup_storybook (error : option string) (taskId : string) (w : World)
    : option StorybookWithPages :=
  match error with
  | Some _ => None
  | None => select_storybook taskId w
  end.

Section Route.

Variable JSON_parse : jsstring -> option Json.value.

(** From the parsed story on: return the stored storybook if there is
    one, else create it, else report the parse failure. *)
Definition store_or_return (env : Env) (taskId userId : string) (task : Task)
    (result : jsstring) (w : World) : Response Body * World :=
  let storyData := Parser.parseStoryContent result in
  match lookup_storybook (storybook_select (faults env)) taskId w with
  | Some existingStorybook =>
    respond 200 (Completed taskId existingStorybook result)
      (logRequest {| pr_user_id := userId; pr_endpoint := ENDPOINT;
                     method := "GET"; status_code := 200 |} w)
  | None =>
    if Js.truthy (Parser.title storyData)
       && (0 <? List.length (Parser.pages storyData))%nat
    then
      match storybook_insert (faults env) with
      | Some message =>
        fetch_failed taskId userId
          (String.append "Failed to create storybook: " message) w
      | None =>
        let newStorybook :=
          {| sb_id := next_id w;
             sb_title := Parser.title storyData;
             sb_description := story_description task;
             generation_task_id := taskId;
             sb_created_at := now env |} in
        let w := with_storybooks (storybooks w ++ [newStorybook])
                                 (S (next_id w)) w in
        let pages := page_rows (sb_id newStorybook) (now env)
                               (Parser.pages storyData) in
        match pages_insert (faults env) with
        | Some message =>
          fetch_failed taskId userId
            (String.append "Failed to create pages: " message) w
        | None =>
          let w := with_pages (storybook_pages w ++ pages) w in
          let w := with_user_storybooks
                     (user_storybooks w ++
                      [{| us_user_id := userId;
                          us_storybook_id := sb_id newStorybook |}]) w in
          let w := logRequest {| pr_user_id := userId; pr_endpoint := ENDPOINT;
                                 method := "GET"; status_code := 200 |} w in
          respond 200
            (Completed taskId {| book := newStorybook; book_pages := pages |}
                       result) w
        end
      end
    else respond 200 (ParseFailed taskId result) w
  end.

(** [result] after the read loop: the empty string when the response
    has no body to read. *)
Definition accumulate (reads : option (list jsstring)) : jsstring :=
  match reads with
  | Some chunks => Reconciler.result (Reconciler.read_all JSON_parse chunks)
  | None => []
  end.

(** The inner [try] block, from the session on. *)
Definition fetch_result (env : Env) (taskId userId runId : string) (task : Task)
    (w : World) : Response Body * World :=
  if negb (truthy (session_jwt env)) then
    respond 401 (Error "No valid session") w
  else
    let w := with_call (CallStream runId) w in
    match stream env with
    | StreamNetworkError message => fetch_failed taskId userId message w
    | StreamNotOk code =>
      fetch_failed taskId userId
        (String.append "Suna AI API error: " (decimal code)) w
    | StreamBody _ (Some message) => fetch_failed taskId userId message w
    | StreamBody reads None =>
      store_or_return env taskId userId task (accumulate reads) w
    end.

Definition GET (env : Env) (w : World) : Response Body * World :=
  if negb (truthy (task_id_param env)) then
    respond 400 (Error "Task ID is required") w
  else
  let taskId := match task_id_param env with Some s => s | None => EmptyString end in
  match auth_user env with
  | None =>
    respond 401 (Error "Unauthorized")
      (logError {| el_user_id := None; el_endpoint := ENDPOINT;
                   error_type := "AUTH_ERROR";
                   el_error_message := "Unauthorized access attempt";
                   severity := "warning" |} w)
  | Some userId =>
    let '(rateLimitOk, w) :=
      checkRateLimit (rate_limit_select (faults env)) (zone env) (now env)
                     userId ENDPOINT 100 w in
    if negb rateLimitOk then
      respond 429 (Error "Rate limit exceeded. Please try again later.") w
    else
    match select_task (task_select (faults env)) taskId userId w with
    | None =>
      respond 404 (Error "Task not found")
        (logError {| el_user_id := Some userId; el_endpoint := ENDPOINT;
                     error_type := "TASK_NOT_FOUND";
                     el_error_message := String.append "Task not found: " taskId;
                     severity := "warning" |} w)
    | Some task =>
      if negb (String.eqb (status task) "completed") then
        respond 200
          (NotCompleted taskId (status task)
             (if String.eqb (status task) "processing"
              then "Task is still processing" else "Task not completed")
             (error_message task)) w
      else
      match getSunaTaskMapping (mapping_select (faults env)) taskId w with
      | Throw message => internal_error userId message w
      | Ok sunaMapping =>
        match sunaMapping with
        | Some m =>
          if truthy (m_suna_agent_run_id m) then
            fetch_result env taskId userId
              (match m_suna_agent_run_id m with Some r => r | None => EmptyString end)
              task w
          else
            respond 404 (Error "Task mapping not found")
              (logError {| el_user_id := Some userId; el_endpoint := ENDPOINT;
                           error_type := "MAPPING_NOT_FOUND";
                           el_error_message :=
                             String.append "Suna task mapping not found: " taskId;
                           severity := "warning" |} w)
        | None =>
          respond 404 (Error "Task mapping not found")
            (logError {| el_user_id := Some userId; el_endpoint := ENDPOINT;
                         error_type := "MAPPING_NOT_FOUND";
                         el_error_message :=
                           String.append "Suna task mapping not found: " taskId;
                         severity := "warning" |} w)
        end
      end
    end
  end.

End Route.

End ResultRoute.

(** ** Submit route: [POST /api/suna/generate] *)

Module GenerateRoute.
Import Db ProxyDatabase Http.

Record Env := {
  request_body : option RequestData;  (* request.json(); None: it throws *)
  auth_user : option string;
  now : Z;
  zone : Zone;                     (* the time zone of the process *)
  faults : Faults;
  session_jwt : option string;
  uuid : string;                      (* uuidv4() *)
  initiate : Reply                    (* the answer of POST /agent/initiate *)
}.

(** The JSON bodies of the route: [{ error }]; [{ task_id, thread_id,
    agent_run_id, status: 'processing', message }]; [{ task_id,
    status: 'failed', error }]. *)
Inductive Body :=
| Error (error : string)
| Started (task_id : string) (thread_id agent_run_id : option string)
| Failed (task_id : string) (error : string).

Definition ENDPOINT : string := "/api/suna/generate".

Definition respond (code : nat) (b : Body) (w : World) : Response Body * World :=
  ({| http_status := code; body := b |}, w).

(** The outer [catch (error)]; [userId] is still [null] when the body
    could not be read. *)
Definition internal_error (userId : option string) (message : string) (w : World)
    : Response Body * World :=
  let w := match userId with
           | Some u =>
             if truthy userId
             then logRequest {| pr_user_id := u; pr_endpoint := ENDPOINT;
                                method := "POST"; status_code := 500 |} w
             else w
           | None => w
           end in
  let w := logError {| el_user_id := userId; el_endpoint := ENDPOINT;
                       error_type := "INTERNAL_ERROR";
                       el_error_message := message; severity := "error" |} w in
  respond 500 (Error "Internal server error") w.

(** The inner [catch (sunaError)]. *)
Definition initiate_failed (env : Env) (userId localTaskId message : string)
    (w : World) : Response Body * World :=
  let w := update_tasks localTaskId
             (fun t => {| id := id t; user_id := user_id t;
                          story_description := story_description t;
                          tags := tags t; custom_tags := custom_tags t;
                          status := "failed";
                          error_message := Some message;
                          completed_at := completed_at t;
                          suna_thread_id := suna_thread_id t;
                          suna_agent_run_id := suna_agent_run_id t |}) w in
  match updateSunaTaskStatus (mapping_update (faults env)) (now env) localTaskId
          {| u_suna_thread_id := Absent; u_suna_agent_run_id := Absent;
             u_status := Some "failed"; u_response_data := None;
             u_error_message := Given message |} w with
  | Throw thrown => internal_error (Some userId) thrown w
  | Ok w =>
    let w := logRequest {| pr_user_id := userId; pr_endpoint := ENDPOINT;
                           method := "POST"; status_code := 500 |} w in
    let w := logError {| el_user_id := Some userId; el_endpoint := ENDPOINT;
                         error_type := "SUNA_API_CALL_FAILED";
                         el_error_message := message; severity := "error" |} w in
    respond 500 (Failed localTaskId "Failed to start story generation") w
  end.

(** The inner [try] block. *)
Definition start_job (env : Env) (userId localTaskId jwt : string) (w : World)
    : Response Body * World :=
  let w := with_call (CallInitiate jwt) w in
  match initiate env with
  | NetworkError message => initiate_failed env userId localTaskId message w
  | NotOk code errorText =>
    let w := logError
               {| el_user_id := Some userId; el_endpoint := ENDPOINT;
                  error_type := "SUNA_API_ERROR";
                  el_error_message :=
                    String.append "Suna AI API error: "
                      (String.append (decimal code)
                         (String.append " - " errorText));
                  severity := "error" |} w in
    initiate_failed env userId localTaskId
      (String.append "Suna AI API error: " (decimal code)) w
  | BadJson message => initiate_failed env userId localTaskId message w
  | Data sunaData =>
    let w := update_tasks localTaskId
               (fun t => {| id := id t; user_id := user_id t;
                            story_description := story_description t;
                            tags := tags t; custom_tags := custom_tags t;
                            status := "processing";
                            error_message := error_message t;
                            completed_at := completed_at t;
                            suna_thread_id :=
                              assign (sd_thread_id sunaData) (suna_thread_id t);
                            suna_agent_run_id :=
                              assign (sd_agent_run_id sunaData)
                                      (suna_agent_run_id t) |}) w in
    match updateSunaTaskStatus (mapping_update (faults env)) (now env) localTaskId
            {| u_suna_thread_id := sd_thread_id sunaData;
               u_suna_agent_run_id := sd_agent_run_id sunaData;
               u_status := Some "processing";
               u_response_data := Some sunaData;
               u_error_message := Absent |} w with
    | Throw message => initiate_failed env userId localTaskId message w
    | Ok w =>
      let w := logRequest {| pr_user_id := userId; pr_endpoint := ENDPOINT;
                             method := "POST"; status_code := 200 |} w in
      let w := recordMetric "suna_api_response_time" w in
      respond 200
        (Started localTaskId (value_of (sd_thread_id sunaData))
                 (value_of (sd_agent_run_id sunaData))) w
    end
  end.

Definition POST (env : Env) (w : World) : Response Body * World :=
  match request_body env with
  | None => internal_error None "Unexpected end of JSON input" w
  | Some requestData =>
    match auth_user env with
    | None =>
      respond 401 (Error "Unauthorized")
        (logError {| el_user_id := None; el_endpoint := ENDPOINT;
                     error_type := "AUTH_ERROR";
                     el_error_message := "Unauthorized access attempt";
                     severity := "warning" |} w)
    | Some userId =>
      let '(rateLimitOk, w) :=
        checkRateLimit (rate_limit_select (faults env)) (zone env) (now env)
                       userId ENDPOINT 50 w in
      if negb rateLimitOk then
        respond 429 (Error "Rate limit exceeded. Please try again later.")
          (logError {| el_user_id := Some userId; el_endpoint := ENDPOINT;
                       error_type := "RATE_LIMIT_EXCEEDED";
                       el_error_message := "User exceeded rate limit";
                       severity := "warning" |} w)
      else
      match session_jwt env with
      | Some jwt =>
        if truthy (session_jwt env) then
          let localTaskId := uuid env in
          match task_insert (faults env) with
          | Some message =>
            respond 500 (Error "Failed to create task")
              (logError {| el_user_id := Some userId; el_endpoint := ENDPOINT;
                           error_type := "DATABASE_ERROR";
                           el_error_message :=
                             String.append "Failed to create task: " message;
                           severity := "error" |} w)
          | None =>
            let w := with_tasks
                       (story_generation_tasks w ++
                        [{| id := localTaskId; user_id := userId;
                            story_description := rq_story_description requestData;
                            tags := rq_tags requestData;
                            custom_tags := rq_custom_tags requestData;
                            status := "pending";
                            error_message := None; completed_at := None;
                            suna_thread_id := None;
                            suna_agent_run_id := None |}]) w in
            match createSunaTaskMapping (mapping_insert (faults env))
                    {| local_task_id := localTaskId; m_user_id := userId;
                       m_suna_thread_id := None; m_suna_agent_run_id := None;
                       m_status := "pending";
                       request_data := Some requestData;
                       response_data := None; m_error_message := None;
                       retry_count := 0; max_retries := 3;
                       m_updated_at := now env |} w with
            | Throw message => internal_error (Some userId) message w
            | Ok w => start_job env userId localTaskId jwt w
            end
          end
        else
          respond 401 (Error "No valid session")
            (logError {| el_user_id := Some userId; el_endpoint := ENDPOINT;
                         error_type := "JWT_ERROR";
                         el_error_message := "No valid JWT session";
                         severity := "error" |} w)
      | None =>
        respond 401 (Error "No valid session")
          (logError {| el_user_id := Some userId; el_endpoint := ENDPOINT;
                       error_type := "JWT_ERROR";
                       el_error_message := "No valid JWT session";
                       severity := "error" |} w)
      end
    end
  end.

End GenerateRoute.

(** ** Scenarios *)

Module Scenario.
Import Db ProxyDatabase.

(** Requests of one user on one operation, one after the other, at the
    given times; the answers and the stores after the last. *)
Fixpoint requests (zone : Zone) (userId endpoint : string) (maxRequests : Z)
    (times : list Z) (w : World) : list bool * World :=
  match times with
  | [] => ([], w)
  | t :: rest =>
    let '(ok, w1) := checkRateLimit None zone t userId endpoint maxRequests w in
    let '(oks, w2) := requests zone userId endpoint maxRequests rest w1 in
    (ok :: oks, w2)
  end.

(** The invariant of a window: it was opened at [t1], counts [k]
    requests, and stands among rows that a lookup whose window starts
    one hour before [t1], or later, does not select. *)
Definition window_open (userId endpoint : string) (t1 k : Z)
    (rows : list ApiRateLimit) : Prop :=
  exists pre r post,
    rows = pre ++ r :: post
    /\ Forall (fun x => in_window userId endpoint (t1 - WINDOW) x = false)
              (pre ++ post)
    /\ rl_user_id r = userId /\ rl_endpoint r = endpoint
    /\ window_start r = t1 /\ request_count r = k.

(** The counters of the windows of a user and operation that started
    in the hour before [t]. *)
Definition window_counts (userId endpoint : string) (t : Z) (w : World) : list Z :=
  map request_count
      (filter (in_window userId endpoint (t - WINDOW)) (api_rate_limits w)).

(** A task of user [u1], its mapping, and stores that hold them. *)
Definition task1 (st : string) : Task :=
  {| id := "task-1"; user_id := "u1";
     story_description := "a rabbit searches for rainbow candy";
     tags := ["adventure"; "friendship"]; custom_tags := None;
     status := st; error_message := None; completed_at := None;
     suna_thread_id := Some "thread-1"; suna_agent_run_id := Some "run-1" |}.

Definition mapping1 (st : string) : SunaTaskMapping :=
  {| local_task_id := "task-1"; m_user_id := "u1";
     m_suna_thread_id := Some "thread-1"; m_suna_agent_run_id := Some "run-1";
     m_status := st; request_data := None; response_data := None;
     m_error_message := None; retry_count := 0; max_retries := 3;
     m_updated_at := 0 |}.

Definition world1 (st : string) (mapped : bool) : World :=
  with_mappings (if mapped then [mapping1 st] else [])
    (with_tasks [task1 st] Db.empty).

(** Stores in which the task is completed and, if [stored], a storybook
    of one page is on record for it. *)
Definition book1 : Storybook :=
  {| sb_id := 0; sb_title := js "小兔找糖";
     sb_description := "a rabbit searches for rainbow candy";
     generation_task_id := "task-1"; sb_created_at := 1500 |}.

Definition page1 : StorybookPage :=
  {| storybook_id := 0; page_number := 1; content := js "小兔出发了";
     image_description := js "一只小兔"; pg_created_at := 1500 |}.

Definition world2 (stored : bool) : World :=
  if stored
  then with_pages [page1] (with_storybooks [book1] 1 (world1 "completed" true))
  else world1 "completed" true.

(** One event frame of the result stream. *)
Definition hello_frame : jsstring :=
  jsq "data: {'type':'message','role':'assistant','content':'hi'}
".

(** An event frame whose content is a story of two pages; the line
    breaks inside the content are JSON escapes. *)
Definition story_frame : jsstring :=
  jsq "data: {'type':'message','role':'assistant','content':'标题：小兔找糖\n第1页：\n文字：小兔出发了\n图片：一只小兔\n第2页：\n文字：找到了\n图片：彩虹糖果'}
".

(** The story of [story_frame] with both pages declared as page 9. *)
Definition renumbered_frame : jsstring :=
  jsq "data: {'type':'message','role':'assistant','content':'标题：小兔找糖\n第9页：\n文字：小兔出发了\n图片：一只小兔\n第9页：\n文字：找到了\n图片：彩虹糖果'}
".

(** An event frame whose content has a page and no title. *)
Definition untitled_frame : jsstring :=
  jsq "data: {'type':'message','role':'assistant','content':'第1页：\n文字：小兔出发了\n图片：一只小兔'}
".

(** Requests of user [u1] about that task, with a session and no
    storage error unless stated. *)
Definition status_env (reply : Http.Reply) : StatusRoute.Env :=
  {| StatusRoute.task_id_param := Some "task-1";
     StatusRoute.auth_user := Some "u1";
     StatusRoute.now := 1000;
     StatusRoute.zone := ProxyDatabase.UTC;
     StatusRoute.faults := no_faults;
     StatusRoute.session_jwt := Some "jwt-1";
     StatusRoute.poll := reply |}.

Definition result_env (f : Faults) (reply : ResultRoute.StreamReply)
    : ResultRoute.Env :=
  {| ResultRoute.task_id_param := Some "task-1";
     ResultRoute.auth_user := Some "u1";
     ResultRoute.now := 2000;
     ResultRoute.zone := ProxyDatabase.UTC;
     ResultRoute.faults := f;
     ResultRoute.session_jwt := Some "jwt-1";
     ResultRoute.stream := reply |}.

(** The storage rejects the insert of the pages. *)
Definition pages_fault : Faults :=
  {| rate_limit_select := None; task_insert := None; task_select := None;
     mapping_insert := None; mapping_update := None; mapping_select := None;
     storybook_select := None; storybook_insert := None;
     pages_insert := Some "connection reset" |}.

(** The external service reports status [s]. *)
Definition reports (s : string) : Http.Reply :=
  Http.Data {| sd_thread_id := Absent; sd_agent_run_id := Absent;
               sd_status := Some s; sd_error := Absent |}.

(** The error text of a failed initiation: the message of the error
    that the inner [catch] of the submit route receives. *)
Definition failure_text (reply : Http.Reply) : option string :=
  match reply with
  | Http.NetworkError message => Some message
  | Http.NotOk code _ =>
    Some (String.append "Suna AI API error: " (Http.decimal code))
  | Http.BadJson message => Some message
  | Http.Data _ => None
  end.

(** A submit request of user [u1] for which the id [task-1] is drawn. *)
Definition generate_env (reply : Http.Reply) : GenerateRoute.Env :=
  {| GenerateRoute.request_body :=
       Some {| rq_story_description := "a rabbit searches for rainbow candy";
               rq_tags := ["adventure"; "friendship"];
               rq_custom_tags := None |};
     GenerateRoute.auth_user := Some "u1";
     GenerateRoute.now := 500;
     GenerateRoute.zone := ProxyDatabase.UTC;
     GenerateRoute.faults := no_faults;
     GenerateRoute.session_jwt := Some "jwt-1";
     GenerateRoute.uuid := "task-1";
     GenerateRoute.initiate := reply |}.

(** A status that ends an external job. *)
Definition terminal (s : string) : Prop := s = "completed" \/ s = "failed".

End Scenario.

(** ** The story format, as the submit route asks for it *)

Module Format.
Import Parser.

(** [lines.join('\n')] *)
Fixpoint join (lines : list jsstring) : jsstring :=
  match lines with
  | [] => []
  | [line] => line
  | line :: rest => line ++ NL :: join rest
  end.

(** Specification side: the lines of a document written in the format
    of the generation prompt (a title line, then for each page a header
    line with a numeral, a text line and an image line). *)
Definition block (numbered : jsstring * Page) : list jsstring :=
  [page_header (fst numbered) true;
   TEXT_MARK ++ text (snd numbered);
   IMAGE_MARK ++ image (snd numbered)].

Definition render_lines (title : jsstring) (pages : list (jsstring * Page))
    : list jsstring :=
  (TITLE_MARK ++ title) :: flat_map block pages.

Definition render (title : jsstring) (pages : list (jsstring * Page)) : jsstring :=
  join (render_lines title pages).

(** A field that survives a line of the format unchanged: not empty,
    no white space at either end, no line break inside. *)
Definition clean (s : jsstring) : Prop :=
  s <> [] /\ Js.trim s = s /\ ~ In NL s.

(** A line that reaches the loop of the parser as it is. *)
Definition plain_line (l : jsstring) : Prop :=
  l <> [] /\ Js.trim l = l /\ ~ In NL l.

(** A page with its numeral, fit for the format. *)
Definition well_numbered (numbered : jsstring * Page) : Prop :=
  fst numbered <> [] /\ forallb Js.is_digit (fst numbered) = true
  /\ clean (text (snd numbered)) /\ clean (image (snd numbered)).

(** The same text with every line feed preceded by a carriage return. *)
Fixpoint crlf (s : jsstring) : jsstring :=
  match s with
  | [] => []
  | c :: r => if (c =? NL)%N then 13%N :: NL :: crlf r else c :: crlf r
  end.

(** The number of page-header lines of a text. *)
Definition header_count (content : jsstring) : nat :=
  List.length (filter is_page_header (content_lines content)).

End Format.

(** ** The read loop, line by line *)

Module Lines.
Import Reconciler.

(** The lines of a stream as the loop meets them: each read cut at its
    line feeds, read after read. *)
Definition stream_lines (reads : list jsstring) : list jsstring :=
  List.concat (map (Js.split NL) reads).

Section PerLine.

Variable JSON_parse : jsstring -> option Json.value.

(** What one line adds to the accumulated text and to the messages. *)
Definition line_text (line : jsstring) : jsstring :=
  result (on_line JSON_parse empty line).

Definition line_messages (line : jsstring) : list Json.value :=
  messages (on_line JSON_parse empty line).

End PerLine.

(** The text that a recorded message added to [result]. *)
Definition assistant_text (data : Json.value) : jsstring :=
  if Json.is_string (Json.get data (js "role")) (js "assistant") then
    match Json.get data (js "content") with
    | Some c => match Json.to_string c with Some text => text | None => [] end
    | None => []
    end
  else [].

End Lines.

(** ** Invariants of the stores *)

Module Inv.
Import Db ProxyDatabase.

(** The ids of the rate-limit rows are distinct and were issued by the
    id generator. *)
Definition rate_ids_fresh (w : World) : Prop :=
  NoDup (map rl_id (api_rate_limits w))
  /\ Forall (fun r => rl_id r < next_id w) (api_rate_limits w).

(** The rows of a user and operation. *)
Definition for_key (userId endpoint : string) (r : ApiRateLimit) : bool :=
  String.eqb (rl_user_id r) userId && String.eqb (rl_endpoint r) endpoint.

(** What identifies a window: its id, owner, operation and start. *)
Definition window_key (r : ApiRateLimit) : nat * string * string * Z :=
  (rl_id r, rl_user_id r, rl_endpoint r, window_start r).

(** Storybooks and pages are in order: at most one storybook per task,
    ids issued by the id generator, every page in a storybook on
    record. *)
Definition books_ok (w : World) : Prop :=
  (forall taskId,
      List.length (filter (fun b => String.eqb (generation_task_id b) taskId)
                          (storybooks w)) <= 1)
  /\ Forall (fun b => sb_id b < next_id w) (storybooks w)
  /\ Forall (fun p => storybook_id p < next_id w) (storybook_pages w)
  /\ Forall (fun p => In (storybook_id p) (map sb_id (storybooks w)))
            (storybook_pages w).

(** Stores that hold the same storybooks and pages, the second with an
    id generator that is not behind. *)
Definition same_books (w w' : World) : Prop :=
  storybooks w' = storybooks w
  /\ storybook_pages w' = storybook_pages w
  /\ next_id w <= next_id w'.

End Inv.

(** ** More sample stores *)

Module Samples.
Import Db.

(** Two windows of one user and operation opened at almost the same
    time, as two first requests that raced leave them. *)
Definition raced_world : World :=
  with_rate_limits
    [{| rl_id := 0; rl_user_id := "u1"; rl_endpoint := "/api/suna/generate";
        request_count := 50; window_start := 0; max_requests := 50;
        rl_updated_at := 900 |};
     {| rl_id := 1; rl_user_id := "u1"; rl_endpoint := "/api/suna/generate";
        request_count := 1; window_start := 1; max_requests := 50;
        rl_updated_at := 1 |}]
    2 Db.empty.

(** New York in 2026: five hours behind UTC, and four between the
    8th of March, 07:00 UTC, and the 1st of November, 06:00 UTC. *)
Definition clocks_forward : Z := 1772953200000.
Definition clocks_back : Z := 1793512800000.

Definition new_york : ProxyDatabase.Zone :=
  {| ProxyDatabase.offset_at := fun t =>
       if (t <? clocks_forward)%Z || (clocks_back <=? t)%Z
       then (-5 * 3600000)%Z else (-4 * 3600000)%Z;
     ProxyDatabase.offset_of_local := fun local =>
       if (local <? clocks_forward - 4 * 3600000)%Z
          || (clocks_back - 4 * 3600000 <=? local)%Z
       then (-5 * 3600000)%Z else (-4 * 3600000)%Z |}.

(** Two requests of user [u1] under a ceiling of two, ten minutes
    apart, the first an hour before the clocks go back; and the same,
    the first half an hour before the clocks go forward. *)
Definition autumn_first : Z := (clocks_back - 60 * 60000)%Z.
Definition autumn_world : World :=
  snd (Scenario.requests new_york "u1" "/api/suna/generate" 2
         [autumn_first; (autumn_first + 10 * 60000)%Z] Db.empty).

Definition spring_first : Z := (clocks_forward - 30 * 60000)%Z.
Definition spring_world : World :=
  snd (Scenario.requests new_york "u1" "/api/suna/generate" 2
         [spring_first; (spring_first + 10 * 60000)%Z] Db.empty).

(** A mapping of [Scenario.task1] that records a failed attempt, and
    stores that hold it. *)
Definition retried_mapping : SunaTaskMapping :=
  {| local_task_id := "task-1"; m_user_id := "u1";
     m_suna_thread_id := Some "thread-1"; m_suna_agent_run_id := Some "run-1";
     m_status := "failed"; request_data := None; response_data := None;
     m_error_message := Some "timeout"; retry_count := 1; max_retries := 3;
     m_updated_at := 0 |}.

Definition retried_world : World :=
  with_mappings [retried_mapping]
    (with_tasks [Scenario.task1 "failed"] Db.empty).

(** The task of [Scenario.task1] with its mapping, and a window of the
    status route that has reached its ceiling. *)
Definition exhausted_world : World :=
  with_rate_limits
    [{| rl_id := 0; rl_user_id := "u1"; rl_endpoint := "/api/suna/status";
        request_count := 200; window_start := 0; max_requests := 200;
        rl_updated_at := 900 |}]
    1 (Scenario.world1 "processing" true).

(** The task of [Scenario.task1], owned by another user. *)
Definition foreign_world : World :=
  with_tasks
    [{| id := "task-1"; user_id := "u2";
        story_description := "a fox learns to share";
        tags := []; custom_tags := None;
        status := "completed"; error_message := None; completed_at := None;
        suna_thread_id := Some "thread-9"; suna_agent_run_id := Some "run-9" |}]
    (with_mappings [Scenario.mapping1 "completed"] Db.empty).

(** The storage rejects the update of a mapping. *)
Definition update_fault : Faults :=
  {| rate_limit_select := None; task_insert := None; task_select := None;
     mapping_insert := None; mapping_update := Some "connection reset";
     mapping_select := None; storybook_select := None;
     storybook_insert := None; pages_insert := None |}.

(** The storage rejects the insert of a mapping. *)
Definition mapping_insert_fault : Faults :=
  {| rate_limit_select := None; task_insert := None; task_select := None;
     mapping_insert := Some "duplicate key"; mapping_update := None;
     mapping_select := None; storybook_select := None;
     storybook_insert := None; pages_insert := None |}.

End Samples.

(** ** What a request may touch *)

Module Touch.
Import Db.

(** A task row by its identity and owner. *)
Definition owner_key (t : Task) : string * string := (id t, user_id t).

(** The tasks other than [taskId]. *)
Definition other_tasks (taskId : string) (tasks : list Task) : list Task :=
  filter (fun t => negb (String.eqb (id t) taskId)) tasks.

(** The mappings of tasks other than [taskId]. *)
Definition other_mappings (taskId : string) (mappings : list SunaTaskMapping)
    : list SunaTaskMapping :=
  filter (fun m => negb (String.eqb (local_task_id m) taskId)) mappings.

(** No task of that id belongs to that user. *)
Definition not_owned (taskId userId : string) (w : World) : Prop :=
  Forall (fun t => id t = taskId -> user_id t <> userId)
         (story_generation_tasks w).

(** What a request may add to the storybooks, the pages and the calls
    sent out. *)
Definition appends (taskId : string) (w w' : World) : Prop :=
  story_generation_tasks w' = story_generation_tasks w
  /\ suna_task_mapping w' = suna_task_mapping w
  /\ (exists books rows,
        storybooks w' = storybooks w ++ books
        /\ storybook_pages w' = storybook_pages w ++ rows
        /\ List.length books <= 1
        /\ Forall (fun b => generation_task_id b = taskId) books
        /\ Forall (fun p => In (storybook_id p) (map sb_id books)) rows)
  /\ (exists calls,
        ext_calls w' = ext_calls w ++ calls
        /\ List.length calls <= 1
        /\ Forall (fun c => exists runId, c = CallStream runId) calls).

(** Stores that hold the same task ids and mapping ids, the same rows
    for ids other than [taskId], and the same storybooks and pages. *)
Definition same_keys (taskId : string) (w w' : World) : Prop :=
  map id (story_generation_tasks w') = map id (story_generation_tasks w)
  /\ map local_task_id (suna_task_mapping w')
     = map local_task_id (suna_task_mapping w)
  /\ other_tasks taskId (story_generation_tasks w')
     = other_tasks taskId (story_generation_tasks w)
  /\ other_mappings taskId (suna_task_mapping w')
     = other_mappings taskId (suna_task_mapping w)
  /\ storybooks w' = storybooks w
  /\ storybook_pages w' = storybook_pages w.

End Touch.

(** ** The rows of a submission *)

Module Submit.
Import Db GenerateRoute.

(** The task row and the mapping row that a submission writes first. *)
Definition pending_task (ge : Env) (userId : string) (requestData : RequestData)
    : Task :=
  {| id := uuid ge; user_id := userId;
     story_description := rq_story_description requestData;
     tags := rq_tags requestData;
     custom_tags := rq_custom_tags requestData;
     status := "pending";
     error_message := None; completed_at := None;
     suna_thread_id := None; suna_agent_run_id := None |}.

Definition pending_mapping (ge : Env) (userId : string) (requestData : RequestData)
    : SunaTaskMapping :=
  {| local_task_id := uuid ge; m_user_id := userId;
     m_suna_thread_id := None; m_suna_agent_run_id := None;
     m_status := "pending";
     request_data := Some requestData;
     response_data := None; m_error_message := None;
     retry_count := 0; max_retries := 3;
     m_updated_at := now ge |}.

(** The two rows once the external service has accepted the job with
    the answer [sunaData]. *)
Definition processing_task (ge : Env) (userId : string)
    (requestData : RequestData) (sunaData : SunaData) : Task :=
  {| id := uuid ge; user_id := userId;
     story_description := rq_story_description requestData;
     tags := rq_tags requestData;
     custom_tags := rq_custom_tags requestData;
     status := "processing";
     error_message := None; completed_at := None;
     suna_thread_id := value_of (sd_thread_id sunaData);
     suna_agent_run_id := value_of (sd_agent_run_id sunaData) |}.

Definition processing_mapping (ge : Env) (userId : string)
    (requestData : RequestData) (sunaData : SunaData) : SunaTaskMapping :=
  {| local_task_id := uuid ge; m_user_id := userId;
     m_suna_thread_id := value_of (sd_thread_id sunaData);
     m_suna_agent_run_id := value_of (sd_agent_run_id sunaData);
     m_status := "processing";
     request_data := Some requestData;
     response_data := Some sunaData; m_error_message := None;
     retry_count := 0; max_retries := 3;
     m_updated_at := now ge |}.

(** A refusal that is logged: the answer carries an error code and the
    error log has grown. *)
Definition logged_refusal (w : World) (r : Http.Response Body * World) : Prop :=
  In (Http.http_status (fst r)) [401; 429; 500]
  /\ exists log logs, error_logs (snd r) = error_logs w ++ log :: logs.

End Submit.

(** ** Histories of requests *)

Module History.
Import Db.

Inductive Request :=
| Submit (env : GenerateRoute.Env)
| Status (env : StatusRoute.Env)
| Result (env : ResultRoute.Env).

Section Serve.

Variable JSON_parse : jsstring -> option Json.value.

(** The stores after a request is served. *)
Definition serve (w : World) (r : Request) : World :=
  match r with
  | Submit env => snd (GenerateRoute.POST env w)
  | Status env => snd (StatusRoute.GET env w)
  | Result env => snd (ResultRoute.GET JSON_parse env w)
  end.

(** The stores after requests are served one after the other. *)
Definition run (requests : list Request) (w : World) : World :=
  fold_left serve requests w.

End Serve.

(** A request whose storybook lookup, if it makes one, is answered by
    the storage. *)
Definition answered (r : Request) : Prop :=
  match r with
  | Result env => storybook_select (ResultRoute.faults env) = None
  | _ => True
  end.

End History.

(** ** A job from submission to its storybook *)

Module Lifecycle.
Import Db.

(** The external service accepts the job. *)
Definition started : Http.Reply :=
  Http.Data {| sd_thread_id := Given "thread-1"; sd_agent_run_id := Given "run-1";
               sd_status := None; sd_error := Absent |}.

Definition story_stream : ResultRoute.StreamReply :=
  ResultRoute.StreamBody (Some [Scenario.story_frame]) None.

(** User [u1] submits a story, checks its status when the external job
    has completed, and fetches the result twice. *)
Definition requests : list History.Request :=
  [History.Submit (Scenario.generate_env started);
   History.Status (Scenario.status_env (Scenario.reports "completed"));
   History.Result (Scenario.result_env no_faults story_stream);
   History.Result (Scenario.result_env no_faults story_stream)].

(** The storage does not answer the storybook lookup. *)
Definition lookup_fault : Faults :=
  {| rate_limit_select := None; task_insert := None; task_select := None;
     mapping_insert := None; mapping_update := None; mapping_select := None;
     storybook_select := Some "connection reset"; storybook_insert := None;
     pages_insert := None |}.

(** The same history, the lookup of the second result fetch
    unanswered. *)
Definition requests_unanswered : list History.Request :=
  [History.Submit (Scenario.generate_env started);
   History.Status (Scenario.status_env (Scenario.reports "completed"));
   History.Result (Scenario.result_env no_faults story_stream);
   History.Result (Scenario.result_env lookup_fault story_stream)].

(** The message of the error that the inner [catch] of the result
    route receives, when opening or reading the stream fails. *)
Definition stream_failure (reply : ResultRoute.StreamReply) : option string :=
  match reply with
  | ResultRoute.StreamNetworkError message => Some message
  | ResultRoute.StreamNotOk code =>
    Some (String.append "Suna AI API error: " (Http.decimal code))
  | ResultRoute.StreamBody _ (Some message) => Some message
  | ResultRoute.StreamBody _ None => None
  end.

End Lifecycle.

(** ** Save route: [POST /api/suna/save] *)

Module SaveRoute.
Import Http.

(** The outcome of [supabaseAdmin.auth.getUser(token)]: the call throws
    (or answers without [data], so that reading [user] throws), or it
    answers with an error or not, and a user or none. *)
Inductive AuthReply :=
| AuthThrows
| AuthResult (error : bool) (user : option string).

(** The answer to the [fetch] of the external save operation: the call
    throws; the response is not [ok], and its text can be read or not;
    its JSON body cannot be read; the body is read. *)
Inductive SaveReply :=
| SaveNetworkError
| SaveNotOk (text_read : bool)
| SaveBadJson
| SaveData (sunaData : Json.value).

Record Env := {
  request_body : option Json.value;   (* request.json(); None: it throws *)
  authorization : option jsstring;    (* request.headers.get('authorization') *)
  getUser : jsstring -> AuthReply;
  save : SaveReply
}.

(** The JSON bodies of the route: [{ error }] and [{ success: true,
    bookId, message }], where a [bookId] that is [undefined] is left out
    of the body. *)
Inductive Body :=
| Error (error : jsstring)
| Saved (bookId : option Json.value).

(** A request sent to the external save operation: the bearer token and
    the members of its JSON body. *)
Record Call := {
  bearer : jsstring;
  task_id : Json.value;
  user_id : string;
  book_data : Json.value
}.

Definition respond (code : nat) (b : Body) (calls : list Call)
    : Response Body * list Call :=
  ({| http_status := code; body := b |}, calls).

(** The inner [catch (authError)]. *)
Definition auth_failed (calls : list Call) : Response Body * list Call :=
  respond 401 (Error (js "认证验证失败")) calls.

(** The outer [catch (error)]. *)
Definition internal_error : Response Body * list Call :=
  respond 500 (Error (js "服务器内部错误")) [].

(** [sunaData.book_id || sunaData.id] *)
Definition book_id_of (sunaData : Json.value) : option Json.value :=
  if Json.truthy (Json.get sunaData (js "book_id"))
  then Json.get sunaData (js "book_id")
  else Json.get sunaData (js "id").

(** The inner [try] block, from the verified token on. *)
Definition forward (env : Env) (token : jsstring) (taskId bookData : Json.value)
    : Response Body * list Call :=
  match getUser env token with
  | AuthThrows => auth_failed []
  | AuthResult error user =>
    match user with
    | None => respond 401 (Error (js "无效的认证令牌")) []
    | Some userId =>
      if error then respond 401 (Error (js "无效的认证令牌")) []
      else
        let calls := [{| bearer := token; task_id := taskId;
                         user_id := userId; book_data := bookData |}] in
        match save env with
        | SaveNetworkError => auth_failed calls
        | SaveNotOk true => respond 503 (Error (js "AI服务保存失败")) calls
        | SaveNotOk false => auth_failed calls
        | SaveBadJson => auth_failed calls
        | SaveData Json.Null => auth_failed calls
        | SaveData sunaData => respond 200 (Saved (book_id_of sunaData)) calls
        end
    end
  end.

(** The outer [try] block, from the destructured body on. *)
Definition checked (env : Env) (taskId bookData : option Json.value)
    : Response Body * list Call :=
  match taskId, bookData with
  | Some taskId, Some bookData =>
    if negb (Json.truthy (Some taskId)) || negb (Json.truthy (Some bookData))
    then respond 400 (Error (js "请提供任务ID和绘本数据")) []
    else
      match authorization env with
      | None => respond 401 (Error (js "需要认证")) []
      | Some authHeader =>
        if negb (Js.truthy authHeader)
           || negb (Js.startsWith authHeader (js "Bearer "))
        then respond 401 (Error (js "需要认证")) []
        else forward env (Js.slice 7 authHeader) taskId bookData
      end
  | _, _ => respond 400 (Error (js "请提供任务ID和绘本数据")) []
  end.

(** Destructuring [null] throws; any other body is read by its own
    properties. *)
Definition POST (env : Env) : Response Body * list Call :=
  match request_body env with
  | None => internal_error
  | Some Json.Null => internal_error
  | Some body =>
    checked env (Json.get body (js "taskId")) (Json.get body (js "bookData"))
  end.

(** A request body that names a task and carries book data. *)
Definition complete (body : Json.value) (taskId bookData : Json.value) : Prop :=
  body <> Json.Null
  /\ Json.get body (js "taskId") = Some taskId
  /\ Json.get body (js "bookData") = Some bookData
  /\ Json.truthy (Some taskId) = true
  /\ Json.truthy (Some bookData) = true.

(** A reply of the external save operation that makes the inner [try]
    block throw. *)
Definition throws (reply : SaveReply) : Prop :=
  reply = SaveNetworkError \/ reply = SaveNotOk false
  \/ reply = SaveBadJson \/ reply = SaveData Json.Null.

(** What a response and the requests sent out must satisfy. *)
Definition guarded (env : Env) (r : Response Body * list Call) : Prop :=
  (snd r = []
   \/ exists payload taskId bookData header userId,
        request_body env = Some payload
        /\ complete payload taskId bookData
        /\ authorization env = Some header
        /\ Js.startsWith header (js "Bearer ") = true
        /\ getUser env (Js.slice 7 header) = AuthResult false (Some userId)
        /\ snd r
           = [{| bearer := Js.slice 7 header; task_id := taskId;
                 user_id := userId; book_data := bookData |}])
  /\ (http_status (fst r) = 200 ->
      snd r <> []
      /\ exists sunaData,
           save env = SaveData sunaData /\ sunaData <> Json.Null
           /\ body (fst r) = Saved (book_id_of sunaData))
  /\ In (http_status (fst r)) [200; 400; 401; 500; 503].

(** A save request of a signed-in user. *)
Definition sample (reply : SaveReply) : Env :=
  {| request_body :=
       Some (Json.Obj [(js "taskId", Json.Str (js "task-1"));
                       (js "bookData", Json.Obj [(js "title", Json.Str (js "小兔找糖"))])]);
     authorization := Some (js "Bearer jwt-1");
     getUser := fun token =>
                  if Js.eqb token (js "jwt-1")
                  then AuthResult false (Some "u1")
                  else AuthResult true None;
     save := reply |}.

End SaveRoute.

(** ** Create page: the tags of a story *)

Module CreatePage.

(** The state of the component that the tag handlers read and write. *)
Record State := {
  tags : list jsstring;
  newTag : jsstring
}.

(** [useState([])], [useState('')] *)
Definition initial : State := {| tags := []; newTag := [] |}.

(** [tags.includes(tag)] *)
Definition includes (tag : jsstring) (l : list jsstring) : bool :=
  existsb (Js.eqb tag) l.

Definition addTag (tag : jsstring) (st : State) : State :=
  {| tags := if Js.truthy tag && negb (includes tag (tags st))
             then tags st ++ [tag] else tags st;
     newTag := [] |}.

Definition removeTag (tagToRemove : jsstring) (st : State) : State :=
  {| tags := filter (fun tag => negb (Js.eqb tag tagToRemove)) (tags st);
     newTag := newTag st |}.

(** What the user does with the tag controls: type in the input ([onChange]),
    add what was typed (Enter or the add button), pick a suggested tag,
    remove a tag. *)
Inductive Event :=
| Typed (value : jsstring)
| AddTyped
| Pick (tag : jsstring)
| Remove (tag : jsstring).

Definition handle (st : State) (e : Event) : State :=
  match e with
  | Typed value => {| tags := tags st; newTag := value |}
  | AddTyped => addTag (newTag st) st
  | Pick tag => addTag tag st
  | Remove tag => removeTag tag st
  end.

Definition after (events : list Event) : State := fold_left handle events initial.

(** The tags are distinct and none is empty. *)
Definition tidy (st : State) : Prop :=
  NoDup (tags st) /\ Forall (fun t => t <> []) (tags st).

End CreatePage.

(** ** The progress page and the routes it calls *)

Module Client.

(** [s.split(sep)] on a query, for a one-character separator. *)
Fixpoint split_on (sep : ascii) (s : string) : list string :=
  match s with
  | EmptyString => [EmptyString]
  | String c r =>
    if Ascii.eqb c sep then EmptyString :: split_on sep r
    else match split_on sep r with
         | l :: ls => String c l :: ls
         | [] => [String c EmptyString]
         end
  end.

(** A piece of a query, split at its first equals sign. *)
Fixpoint name_value (piece : string) : string * string :=
  match piece with
  | EmptyString => (EmptyString, EmptyString)
  | String c r =>
    if Ascii.eqb c "="%char then (EmptyString, r)
    else let '(n, v) := name_value r in (String c n, v)
  end.

(** The search parameters of a URL with the given query, as
    [new URL(request.url).searchParams] lists them, for a query without
    fragment, percent escapes and plus signs: the non-empty pieces
    between ampersands, each split at its first equals sign. *)
Definition searchParams (query : string) : list (string * string) :=
  map name_value
      (filter (fun p => negb (String.eqb p EmptyString)) (split_on "&"%char query)).

(** [searchParams.get(name)]: the first value of that name, or [null]. *)
Fixpoint get (name : string) (params : list (string * string)) : option string :=
  match params with
  | [] => None
  | (n, v) :: rest => if String.eqb n name then Some v else get name rest
  end.

(** A task id that can be written into a query as it is. *)
Fixpoint plain (s : string) : bool :=
  match s with
  | EmptyString => true
  | String c r =>
    negb (Ascii.eqb c "&"%char) && negb (Ascii.eqb c "#"%char)
    && negb (Ascii.eqb c "%"%char) && negb (Ascii.eqb c "+"%char)
    && plain r
  end.

(** The query of the requests of [pollStatus]:
    [`/api/suna/status?taskId=${taskId}`] and
    [`/api/suna/result?taskId=${taskId}`]. *)
Definition poll_query (taskId : string) : string :=
  String.append "taskId=" taskId.

(** What both routes read from a request:
    [searchParams.get('task_id')]. *)
Definition task_id_of (query : string) : option string :=
  get "task_id" (searchParams query).

End Client.

(** * Properties *)

Unset Implicit Arguments.

(** ** Strings *)

Lemma truthy_nonempty (s : jsstring) : Js.truthy s = true <-> s <> [].
Proof. destruct s; simpl; split; congruence. Qed.

Lemma split_nonempty (sep : N) (s : jsstring) : Js.split sep s <> [].
Proof.
  destruct s as [|c r]; simpl; [discriminate|].
  destruct (c =? sep)%N; [discriminate|].
  destruct (Js.split sep r); discriminate.
Qed.

(** Splitting distributes over a separator. *)
Lemma split_app_sep (sep : N) (a b : jsstring) :
  Js.split sep (a ++ sep :: b) = Js.split sep a ++ Js.split sep b.
Proof.
  induction a as [|c a IH]; simpl.
  - now rewrite N.eqb_refl.
  - destruct (c =? sep)%N.
    + now rewrite IH.
    + rewrite IH. pose proof (split_nonempty sep a) as Hne.
      destruct (Js.split sep a); [congruence|reflexivity].
Qed.

(** ** Content parser *)

Section ParserFacts.
Import Parser.

Lemma step_pages (st : State) (l : jsstring) :
  st_pages (step st l) =
    st_pages st ++ filter page_complete
      (if negb (Js.startsWith l TITLE_MARK) && is_page_header l
       then option_list (currentPage st) else []).
Proof.
  unfold step.
  destruct (Js.startsWith l TITLE_MARK); simpl.
  - now rewrite app_nil_r.
  - destruct (is_page_header l); simpl.
    + destruct (currentPage st) as [p|]; simpl.
      * destruct (page_complete p); simpl; now rewrite ?app_nil_r.
      * now rewrite app_nil_r.
    + destruct (Js.startsWith l TEXT_MARK).
      * destruct (currentPage st); simpl; now rewrite app_nil_r.
      * destruct (Js.startsWith l IMAGE_MARK).
        -- destruct (currentPage st); simpl; now rewrite app_nil_r.
        -- now rewrite app_nil_r.
Qed.

Lemma step_cursor (st : State) (l : jsstring) :
  currentPage (step st l) = cursor_after (currentPage st) l.
Proof.
  destruct st as [t ps [p|]]; unfold step, cursor_after; simpl;
    destruct (Js.startsWith l TITLE_MARK); simpl; auto;
    destruct (is_page_header l); simpl; auto;
    destruct (Js.startsWith l TEXT_MARK); simpl; auto;
    destruct (Js.startsWith l IMAGE_MARK); auto.
Qed.

Lemma push_if_complete_filter (pages : list Page) (cur : option Page) :
  push_if_complete pages cur = pages ++ filter page_complete (option_list cur).
Proof.
  destruct cur as [p|]; simpl.
  - destruct (page_complete p); simpl; now rewrite ?app_nil_r.
  - now rewrite app_nil_r.
Qed.

(** The loop invariant: what has been pushed, together with the page
    still open, is the complete ones among the pages closed so far. *)
Lemma fold_step_pages (lines : list jsstring) : forall st,
  push_if_complete (st_pages (fold_left step lines st))
                   (currentPage (fold_left step lines st))
  = st_pages st ++ filter page_complete (closed_pages_from (currentPage st) lines).
Proof.
  induction lines as [|l ls IH]; intros st; simpl.
  - apply push_if_complete_filter.
  - rewrite IH, step_pages, step_cursor, filter_app, app_assoc. reflexivity.
Qed.

Lemma pages_are_complete_closed_pages (content : jsstring) :
  pages (parseStoryContent content)
  = filter page_complete (closed_pages content).
Proof.
  unfold parseStoryContent, parse_lines, closed_pages. simpl.
  now rewrite fold_step_pages.
Qed.

Lemma page_complete_fields (p : Page) :
  page_complete p = true <-> text p <> [] /\ image p <> [].
Proof.
  unfold page_complete. rewrite andb_true_iff, !truthy_nonempty. reflexivity.
Qed.

Lemma skip_digits_app (ds rest : jsstring) :
  forallb Js.is_digit ds = true ->
  Js.skip_digits (ds ++ 39029%N :: rest) = 39029%N :: rest.
Proof.
  induction ds as [|d ds IH]; simpl; intros H.
  - reflexivity.
  - apply andb_true_iff in H as [Hd Hds]. rewrite Hd. auto.
Qed.

Lemma page_header_matches (ds : jsstring) (colon : bool) :
  ds <> [] -> forallb Js.is_digit ds = true ->
  is_page_header (page_header ds colon) = true.
Proof.
  intros Hne Hds. unfold page_header, is_page_header.
  destruct ds as [|d ds]; [congruence|].
  cbn [app]. rewrite N.eqb_refl. cbn [andb].
  pose proof Hds as Hds'. cbn [forallb] in Hds'.
  apply andb_true_iff in Hds' as [Hd _]. rewrite Hd. cbn [andb].
  change (d :: ds ++ 39029%N :: (if colon then [65306%N] else []))
    with ((d :: ds) ++ 39029%N :: (if colon then [65306%N] else [])).
  rewrite skip_digits_app by assumption.
  destruct colon; reflexivity.
Qed.

Lemma page_header_not_title (line : jsstring) :
  is_page_header line = true ->
  Js.startsWith line TITLE_MARK = false.
Proof.
  destruct line as [|c r]; simpl; [discriminate|].
  intros H. apply andb_true_iff in H as [Hc _].
  apply N.eqb_eq in Hc. subst c. reflexivity.
Qed.

(** The numeral of a header line is not read. *)
Lemma step_renumbered (st : State) (l1 l2 : jsstring) :
  renumbered l1 l2 -> step st l1 = step st l2.
Proof.
  intros [l|n1 n2 colon H1 H2 D1 D2]; [reflexivity|].
  pose proof (page_header_matches n1 colon H1 D1) as E1.
  pose proof (page_header_matches n2 colon H2 D2) as E2.
  unfold step.
  rewrite (page_header_not_title _ E1), (page_header_not_title _ E2), E1, E2.
  reflexivity.
Qed.

Lemma parse_lines_renumbered (ls1 ls2 : list jsstring) :
  Forall2 renumbered ls1 ls2 -> parse_lines ls1 = parse_lines ls2.
Proof.
  unfold parse_lines. generalize init.
  intros st H; revert st.
  induction H as [|l1 l2 r1 r2 Hl _ IH]; intros st; simpl.
  - reflexivity.
  - rewrite (step_renumbered st l1 l2 Hl). apply IH.
Qed.

End ParserFacts.

(** C5. A page enters the output only if its text and its image are
    both non-empty when it is closed, by the next page-header line or by
    the end of the input: the output pages are exactly the closed pages
    that have both fields, in order, so a page closed with an empty
    field is dropped. A block with a text line and no image line,
    followed by the title line of a next document, yields no page. *)
Theorem parser_drops_incomplete_pages :
  forall content : jsstring,
    Parser.pages (Parser.parseStoryContent content)
      = filter Parser.page_complete (Parser.closed_pages content)
    /\ Forall (fun p => Parser.text p <> [] /\ Parser.image p <> [])
              (Parser.pages (Parser.parseStoryContent content))
    /\ Parser.closed_pages (js "第1页：
文字：只有文字
标题：下一本")
         = [{| Parser.text := js "只有文字"; Parser.image := [] |}]
    /\ Parser.pages (Parser.parseStoryContent (js "第1页：
文字：只有文字
标题：下一本")) = [].
Proof.
  intros content. split; [|split; [|split]].
  - apply pages_are_complete_closed_pages.
  - rewrite pages_are_complete_closed_pages. apply Forall_forall.
    intros p Hp. apply filter_In in Hp as [_ Hp].
    now apply page_complete_fields.
  - vm_compute. reflexivity.
  - vm_compute. reflexivity.
Qed.

(** ** Stream reconciler *)

Section ReconcilerFacts.
Import Reconciler.

Variable JSON_parse : jsstring -> option Json.value.

Lemma on_line_blank (acc : Acc) : on_line JSON_parse acc [] = acc.
Proof. reflexivity. Qed.

Lemma line_aligned_inv (chunk : jsstring) :
  line_aligned chunk = true ->
  chunk = [] \/ exists body, chunk = body ++ [NL].
Proof.
  unfold line_aligned. intros H.
  destruct (rev chunk) as [|c r] eqn:E.
  - left. apply (f_equal (@rev N)) in E. now rewrite rev_involutive in E.
  - right. exists (rev r). apply N.eqb_eq in H. subst c.
    apply (f_equal (@rev N)) in E. now rewrite rev_involutive in E.
Qed.

(** A read that ends on a line boundary can be merged with the next. *)
Lemma on_chunk_app (acc : Acc) (a b : jsstring) :
  line_aligned a = true ->
  on_chunk JSON_parse acc (a ++ b)
  = on_chunk JSON_parse (on_chunk JSON_parse acc a) b.
Proof.
  intros H. destruct (line_aligned_inv a H) as [->|[body ->]].
  - reflexivity.
  - unfold on_chunk. rewrite <- app_assoc. simpl.
    rewrite !split_app_sep, !fold_left_app. reflexivity.
Qed.

Lemma read_loop_aligned (reads : list jsstring) : forall acc,
  Forall (fun chunk => line_aligned chunk = true) (removelast reads) ->
  fold_left (on_chunk JSON_parse) reads acc
  = on_chunk JSON_parse acc (List.concat reads).
Proof.
  induction reads as [|c reads IH]; intros acc H.
  - reflexivity.
  - destruct reads as [|c' reads].
    + simpl. now rewrite app_nil_r.
    + change (removelast (c :: c' :: reads))
        with (c :: removelast (c' :: reads)) in H.
      inversion H as [|? ? Hc Hrest]; subst.
      change (fold_left (on_chunk JSON_parse) (c :: c' :: reads) acc)
        with (fold_left (on_chunk JSON_parse) (c' :: reads)
                        (on_chunk JSON_parse acc c)).
      rewrite (IH _ Hrest).
      change (List.concat (c :: c' :: reads)) with (c ++ List.concat (c' :: reads)).
      now rewrite on_chunk_app.
Qed.

End ReconcilerFacts.

(** C3, as stated, fails: nothing is carried from one read to the next.
    The frame delivered whole contributes its content; cut inside its
    payload, or inside its [data: ] marker, it contributes nothing,
    although the bytes streamed are the same. *)
Lemma split_frame_is_lost :
  firstn 30 Scenario.hello_frame ++ skipn 30 Scenario.hello_frame = Scenario.hello_frame
  /\ Reconciler.result
       (Reconciler.read_all Json.parse_flat_object [Scenario.hello_frame]) = js "hi"
  /\ Reconciler.result
       (Reconciler.read_all Json.parse_flat_object
          [firstn 30 Scenario.hello_frame; skipn 30 Scenario.hello_frame]) = []
  /\ Reconciler.result
       (Reconciler.read_all Json.parse_flat_object
          [firstn 3 Scenario.hello_frame; skipn 3 Scenario.hello_frame]) = [].
Proof. split; [|split; [|split]]; vm_compute; reflexivity. Qed.

(** C3, amended. Each read is cut at its newlines and every piece is
    parsed on its own. Whenever every read but the last is empty or ends
    with a newline, the accumulated text and the message list are those
    of the same stream delivered in a single read. *)
Theorem reconciler_invariant_on_line_boundaries :
  forall (JSON_parse : jsstring -> option Json.value) (reads : list jsstring),
    Forall (fun chunk => Reconciler.line_aligned chunk = true)
           (removelast reads) ->
    Reconciler.read_all JSON_parse reads
    = Reconciler.read_all JSON_parse [List.concat reads].
Proof.
  intros JSON_parse reads H. unfold Reconciler.read_all.
  rewrite read_loop_aligned by assumption. reflexivity.
Qed.

Lemma reconciler_invariant_on_line_boundaries_witness :
  Reconciler.read_all Json.parse_flat_object
    [Scenario.hello_frame; []; Scenario.hello_frame; firstn 30 Scenario.hello_frame]
  = Reconciler.read_all Json.parse_flat_object
      [List.concat [Scenario.hello_frame; []; Scenario.hello_frame; firstn 30 Scenario.hello_frame]].
Proof.
  apply reconciler_invariant_on_line_boundaries.
  repeat (constructor; [vm_compute; reflexivity|]). constructor.
Defined.
(** ** Rate limiter *)

Section RateLimitFacts.
Import Db ProxyDatabase.

Variables (userId endpoint : string) (maxRequests : Z).
Variable zone : Zone.
Hypothesis Hsteady : steady zone.

Local Abbreviation window_open := (Scenario.window_open userId endpoint).




Lemma WINDOW_positive : (0 < WINDOW)%Z.
Proof. reflexivity. Qed.

Lemma in_window_later (ws ws' : Z) (r : ApiRateLimit) :
  (ws <= ws')%Z ->
  in_window userId endpoint ws r = false ->
  in_window userId endpoint ws' r = false.
Proof.
  unfold in_window. intros Hle H.
  destruct (String.eqb (rl_user_id r) userId && String.eqb (rl_endpoint r) endpoint);
    simpl in *; auto.
  apply Z.leb_gt in H. apply Z.leb_gt. lia.
Qed.

Lemma filter_none {A} (f : A -> bool) (l : list A) :
  Forall (fun x => f x = false) l -> filter f l = [].
Proof.
  induction 1 as [|x l Hx _ IH]; simpl; [reflexivity|]. now rewrite Hx.
Qed.

Lemma filter_nil_none {A} (f : A -> bool) (l : list A) :
  filter f l = [] -> Forall (fun x => f x = false) l.
Proof.
  induction l as [|x l IH]; simpl; intros H; constructor.
  - destruct (f x); [discriminate|reflexivity].
  - destruct (f x); [discriminate|auto].
Qed.

Lemma window_open_filter (t1 k ws : Z) (rows : list ApiRateLimit) :
  window_open t1 k rows -> (t1 - WINDOW <= ws)%Z ->
  exists r,
    filter (in_window userId endpoint ws) rows
      = (if (ws <=? t1)%Z then [r] else [])
    /\ In r rows /\ rl_user_id r = userId /\ rl_endpoint r = endpoint
    /\ window_start r = t1 /\ request_count r = k.
Proof.
  intros (pre & r & post & -> & Hout & Hu & He & Hs & Hk) Hws.
  exists r. apply Forall_app in Hout as [Hpre Hpost].
  rewrite filter_app. simpl.
  rewrite (filter_none (in_window userId endpoint ws) pre),
          (filter_none (in_window userId endpoint ws) post).
  - repeat split; auto using in_elt.
    unfold in_window. rewrite Hu, He, Hs, !String.eqb_refl. simpl.
    destruct (ws <=? t1)%Z; reflexivity.
  - eapply Forall_impl; [|exact Hpost]. intros x. now apply in_window_later.
  - eapply Forall_impl; [|exact Hpre]. intros x. now apply in_window_later.
Qed.

Lemma first_request (t1 : Z) (w : World) :
  filter (in_window userId endpoint (t1 - WINDOW)) (api_rate_limits w) = [] ->
  exists w',
    checkRateLimit None zone t1 userId endpoint maxRequests w = (true, w')
    /\ window_open t1 1 (api_rate_limits w').
Proof.
  intros H. unfold checkRateLimit. rewrite Hsteady.
  rewrite H. simpl.
  eexists; split; [reflexivity|]. simpl.
  exists (api_rate_limits w), 
    {| rl_id := next_id w; rl_user_id := userId; rl_endpoint := endpoint;
       request_count := 1; window_start := t1;
       max_requests := maxRequests; rl_updated_at := t1 |}, [].
  rewrite app_nil_r. repeat split; auto. now apply filter_nil_none.
Qed.

Lemma in_window_count_request (e : ApiRateLimit) (now ws : Z) (r : ApiRateLimit) :
  in_window userId endpoint ws (count_request e now r) = in_window userId endpoint ws r.
Proof. unfold count_request. destruct (Nat.eqb (rl_id r) (rl_id e)); reflexivity. Qed.

Lemma count_request_outside (e : ApiRateLimit) (now ws : Z) (l : list ApiRateLimit) :
  Forall (fun x => in_window userId endpoint ws x = false) l ->
  Forall (fun x => in_window userId endpoint ws x = false) (map (count_request e now) l).
Proof.
  intros H. apply Forall_map. eapply Forall_impl; [|exact H].
  intros x Hx. now rewrite in_window_count_request.
Qed.

Lemma request_in_window (t1 k t : Z) (w : World) :
  window_open t1 k (api_rate_limits w) ->
  (t1 <= t <= t1 + WINDOW)%Z ->
  (k < maxRequests)%Z ->
  exists w',
    checkRateLimit None zone t userId endpoint maxRequests w = (true, w')
    /\ window_open t1 (k + 1) (api_rate_limits w').
Proof.
  intros (pre & r & post & Hrows & Hout & Hu & He & Hs & Hk) Ht Hlt.
  assert (Hopen : window_open t1 k (api_rate_limits w))
    by (exists pre, r, post; auto 6).
  destruct (window_open_filter t1 k (t - WINDOW) _ Hopen)
    as (r' & Hf & Hin & _ & _ & _ & Hk'); [lia|].
  replace (t - WINDOW <=? t1)%Z with true in Hf by (symmetry; apply Z.leb_le; lia).
  assert (r' = r) as ->.
  { assert (Hin' : In r' (filter (in_window userId endpoint (t - WINDOW))
                                 (api_rate_limits w)))
      by (rewrite Hf; now left).
    apply filter_In in Hin' as [_ Hw].
    rewrite Hrows in Hin. apply in_app_or in Hin as [Hin|[Hin|Hin]]; auto.
    - apply Forall_app in Hout as [Hpre _].
      rewrite Forall_forall in Hpre. specialize (Hpre _ Hin).
      rewrite (in_window_later (t1 - WINDOW) (t - WINDOW)) in Hw;
        [discriminate|lia|assumption].
    - apply Forall_app in Hout as [_ Hpost].
      rewrite Forall_forall in Hpost. specialize (Hpost _ Hin).
      rewrite (in_window_later (t1 - WINDOW) (t - WINDOW)) in Hw;
        [discriminate|lia|assumption]. }
  unfold checkRateLimit. rewrite Hsteady. rewrite Hf. simpl.
  replace (maxRequests <=? request_count r)%Z with false
    by (symmetry; apply Z.leb_gt; lia).
  eexists; split; [reflexivity|]. simpl.
  exists (map (count_request r t) pre), (count_request r t r),
         (map (count_request r t) post).
  rewrite Hrows, map_app. simpl. split; [reflexivity|]. 
  apply Forall_app in Hout as [Hpre Hpost].
  unfold count_request at 3 4 5 6. rewrite Nat.eqb_refl. simpl.
  repeat split; auto; [|lia].
  apply Forall_app; split; now apply count_request_outside.
Qed.

Lemma request_over_ceiling (t1 k t : Z) (w : World) :
  window_open t1 k (api_rate_limits w) ->
  (t1 <= t <= t1 + WINDOW)%Z ->
  (maxRequests <= k)%Z ->
  checkRateLimit None zone t userId endpoint maxRequests w = (false, w).
Proof.
  intros Hopen Ht Hle.
  destruct (window_open_filter t1 k (t - WINDOW) _ Hopen)
    as (r' & Hf & _ & _ & _ & _ & Hk'); [lia|].
  replace (t - WINDOW <=? t1)%Z with true in Hf by (symmetry; apply Z.leb_le; lia).
  unfold checkRateLimit. rewrite Hsteady. rewrite Hf. simpl.
  replace (maxRequests <=? request_count r')%Z with true
    by (symmetry; apply Z.leb_le; lia).
  reflexivity.
Qed.

Lemma request_after_window (t1 k t : Z) (w : World) :
  window_open t1 k (api_rate_limits w) ->
  (t1 + WINDOW < t)%Z ->
  exists w',
    checkRateLimit None zone t userId endpoint maxRequests w = (true, w')
    /\ map request_count
         (filter (in_window userId endpoint (t - WINDOW)) (api_rate_limits w'))
       = [1%Z].
Proof.
  intros Hopen Ht. pose proof WINDOW_positive as HW.
  destruct (window_open_filter t1 k (t - WINDOW) _ Hopen)
    as (r' & Hf & _); [lia|].
  replace (t - WINDOW <=? t1)%Z with false in Hf by (symmetry; apply Z.leb_gt; lia).
  unfold checkRateLimit. rewrite Hsteady. rewrite Hf. simpl.
  eexists; split; [reflexivity|]. simpl.
  rewrite filter_app, Hf. simpl.
  unfold in_window. simpl. rewrite !String.eqb_refl. simpl.
  replace (t - WINDOW <=? t)%Z with true
    by (symmetry; apply Z.leb_le; lia).
  reflexivity.
Qed.

Lemma window_open_counts (t1 k : Z) (w : World) :
  window_open t1 k (api_rate_limits w) ->
  Scenario.window_counts userId endpoint t1 w = [k].
Proof.
  intros Hopen. unfold Scenario.window_counts.
  destruct (window_open_filter t1 k (t1 - WINDOW) _ Hopen)
    as (r & Hf & _ & _ & _ & _ & Hk); [lia|].
  pose proof WINDOW_positive.
  replace (t1 - WINDOW <=? t1)%Z with true in Hf by (symmetry; apply Z.leb_le; lia).
  rewrite Hf. simpl. now rewrite Hk.
Qed.

Lemma requests_in_window (t1 : Z) (ts : list Z) : forall (k : Z) (w : World),
  window_open t1 k (api_rate_limits w) ->
  Forall (fun t => t1 <= t <= t1 + WINDOW)%Z ts ->
  (k + Z.of_nat (List.length ts) <= maxRequests)%Z ->
  exists w',
    Scenario.requests zone userId endpoint maxRequests ts w
    = (repeat true (List.length ts), w')
    /\ window_open t1 (k + Z.of_nat (List.length ts)) (api_rate_limits w').
Proof.
  induction ts as [|t ts IH]; intros k w Hopen Hts Hle.
  - exists w. simpl. now rewrite Z.add_0_r.
  - inversion Hts as [|? ? Ht Hrest]; subst.
    cbn [List.length] in Hle. rewrite Nat2Z.inj_succ in Hle.
    destruct (request_in_window t1 k t w Hopen Ht) as (w1 & Hcheck & Hopen1); [lia|].
    destruct (IH (k + 1)%Z w1 Hopen1 Hrest) as (w2 & Hreq & Hopen2); [lia|].
    exists w2. cbn [Scenario.requests List.length repeat].
    rewrite Hcheck, Hreq. split; [reflexivity|].
    rewrite Nat2Z.inj_succ.
    replace (k + Z.succ (Z.of_nat (List.length ts)))%Z
      with (k + 1 + Z.of_nat (List.length ts))%Z by lia.
    assumption.
Qed.

Lemma UTC_steady : steady UTC.
Proof. intros t. unfold windowStart. cbn. lia. Qed.

End RateLimitFacts.

(** Where the start of the window is one hour before the clock, as in
    UTC: requests of one user on one operation arrive one after the
    other, the first at [t1] when no window is open, the others within
    the hour that follows. The first request is allowed and creates the
    window with count 1. As long as no more than [c] have arrived, all
    are allowed and the window counts them, one more after each. Once
    the count is [c], a further request within the window is denied and
    changes nothing; a request after the window has elapsed is allowed
    and opens a window with count 1. *)
Lemma rate_limit_window_in_steady_zone :
  forall (zone : ProxyDatabase.Zone) (userId endpoint : string) (c : Z)
         (w : Db.World) (t1 : Z) (ts : list Z),
    ProxyDatabase.steady zone ->
    Scenario.window_counts userId endpoint t1 w = [] ->
    Forall (fun t => t1 <= t <= t1 + ProxyDatabase.WINDOW)%Z ts ->
    let first := ProxyDatabase.checkRateLimit None zone t1 userId endpoint c w in
    let answers := fst (Scenario.requests zone userId endpoint c (t1 :: ts) w) in
    let w' := snd (Scenario.requests zone userId endpoint c (t1 :: ts) w) in
    (fst first = true
     /\ Scenario.window_counts userId endpoint t1 (snd first) = [1%Z])
    /\ ((Z.of_nat (List.length ts) < c)%Z ->
        answers = repeat true (S (List.length ts))
        /\ Scenario.window_counts userId endpoint t1 w'
           = [(1 + Z.of_nat (List.length ts))%Z]
        /\ ((1 + Z.of_nat (List.length ts) = c)%Z ->
            forall t, (t1 <= t <= t1 + ProxyDatabase.WINDOW)%Z ->
              ProxyDatabase.checkRateLimit None zone t userId endpoint c w'
              = (false, w'))
        /\ (forall t, (t1 + ProxyDatabase.WINDOW < t)%Z ->
              fst (ProxyDatabase.checkRateLimit None zone t userId endpoint c w') = true
              /\ Scenario.window_counts userId endpoint t
                   (snd (ProxyDatabase.checkRateLimit None zone t userId endpoint c w'))
                 = [1%Z])).
Proof.
  intros zone userId endpoint c w t1 ts Hsteady Hnone Hts first answers w'.
  apply map_eq_nil in Hnone.
  destruct (first_request userId endpoint c zone Hsteady t1 w Hnone)
    as (w1 & Hfirst & Hopen1).
  split.
  - subst first. rewrite Hfirst. split; [reflexivity|].
    now apply (window_open_counts userId endpoint t1).
  - intros Hlt.
    destruct (requests_in_window userId endpoint c zone Hsteady t1 ts 1%Z w1
                Hopen1 Hts)
      as (w2 & Hreq & Hopen2); [lia|].
    assert (Hrun : Scenario.requests zone userId endpoint c (t1 :: ts) w
                   = (true :: repeat true (List.length ts), w2)).
    { cbn [Scenario.requests]. now rewrite Hfirst, Hreq. }
    subst answers w'. rewrite Hrun. cbn [fst snd].
    split; [reflexivity|].
    split; [now apply (window_open_counts userId endpoint t1)|].
    split.
    + intros Hc t Ht.
      apply (request_over_ceiling userId endpoint c zone Hsteady t1
               (1 + Z.of_nat (List.length ts))%Z); auto. lia.
    + intros t Ht.
      destruct (request_after_window userId endpoint c zone Hsteady t1 _ t w2
                  Hopen2 Ht)
        as (w3 & Hcheck & Hcount).
      rewrite Hcheck. split; [reflexivity|exact Hcount].
Qed.

Example rate_limit_window_in_UTC :
  let w' := snd (Scenario.requests ProxyDatabase.UTC "u1" "/api/suna/generate" 3
                   [0; 1000; 2000]%Z Db.empty) in
  fst (Scenario.requests ProxyDatabase.UTC "u1" "/api/suna/generate" 3
         [0; 1000; 2000]%Z Db.empty)
    = [true; true; true]
  /\ Scenario.window_counts "u1" "/api/suna/generate" 0 w' = [3%Z]
  /\ ProxyDatabase.checkRateLimit None ProxyDatabase.UTC 3000 "u1"
       "/api/suna/generate" 3 w'
     = (false, w')
  /\ fst (ProxyDatabase.checkRateLimit None ProxyDatabase.UTC 3600001 "u1"
            "/api/suna/generate" 3 w')
     = true.
Proof.
  destruct (rate_limit_window_in_steady_zone ProxyDatabase.UTC "u1"
              "/api/suna/generate" 3 Db.empty 0 [1000; 2000]%Z) as (_ & H).
  - exact UTC_steady.
  - reflexivity.
  - repeat constructor; vm_compute; discriminate.
  - destruct H as (A & B & C & D); [reflexivity|].
    split; [exact A|]. split; [exact B|]. split.
    + apply C; [reflexivity|split; vm_compute; discriminate].
    + apply D. reflexivity.
Qed.

(** C6. The window follows the local clock, not the hour. With the
    process in the time zone of New York and a ceiling of two, two
    requests ten minutes apart are allowed and counted in one window.
    When the clocks have gone back in between, sixty minutes taken from
    the local clock are two hours, and the third request, ninety
    minutes after the first and so after the hour of the window has
    elapsed, is denied and changes nothing; under UTC the same request
    is allowed. When the clocks have gone forward in between, the start
    of the window is the clock itself, and the third request, forty
    minutes after the first and so within the hour, is allowed and
    opens a second window; under UTC the same request is denied. *)
Theorem window_follows_local_clock :
  (let ask := (Samples.autumn_first + 90 * 60000)%Z in
   fst (Scenario.requests Samples.new_york "u1" "/api/suna/generate" 2
          [Samples.autumn_first; (Samples.autumn_first + 10 * 60000)%Z] Db.empty)
     = [true; true]
   /\ Scenario.window_counts "u1" "/api/suna/generate" Samples.autumn_first
        Samples.autumn_world = [2%Z]
   /\ (Samples.autumn_first + ProxyDatabase.WINDOW < ask)%Z
   /\ ProxyDatabase.windowStart Samples.new_york ask
      = (ask - 2 * ProxyDatabase.WINDOW)%Z
   /\ ProxyDatabase.checkRateLimit None Samples.new_york ask "u1"
        "/api/suna/generate" 2 Samples.autumn_world
      = (false, Samples.autumn_world)
   /\ fst (ProxyDatabase.checkRateLimit None ProxyDatabase.UTC ask "u1"
             "/api/suna/generate" 2 Samples.autumn_world)
      = true)
  /\
  (let ask := (Samples.spring_first + 40 * 60000)%Z in
   fst (Scenario.requests Samples.new_york "u1" "/api/suna/generate" 2
          [Samples.spring_first; (Samples.spring_first + 10 * 60000)%Z] Db.empty)
     = [true; true]
   /\ Scenario.window_counts "u1" "/api/suna/generate" Samples.spring_first
        Samples.spring_world = [2%Z]
   /\ (Samples.spring_first <= ask <= Samples.spring_first + ProxyDatabase.WINDOW)%Z
   /\ ProxyDatabase.windowStart Samples.new_york ask = ask
   /\ fst (ProxyDatabase.checkRateLimit None Samples.new_york ask "u1"
             "/api/suna/generate" 2 Samples.spring_world)
      = true
   /\ map Db.request_count
        (Db.api_rate_limits
           (snd (ProxyDatabase.checkRateLimit None Samples.new_york ask "u1"
                   "/api/suna/generate" 2 Samples.spring_world)))
      = [2%Z; 1%Z]
   /\ ProxyDatabase.checkRateLimit None ProxyDatabase.UTC ask "u1"
        "/api/suna/generate" 2 Samples.spring_world
      = (false, Samples.spring_world)).
Proof.
  split; cbv zeta.
  - split; [vm_compute; reflexivity|]. split; [vm_compute; reflexivity|].
    split; [vm_compute; reflexivity|]. split; [vm_compute; reflexivity|].
    split; vm_compute; reflexivity.
  - split; [vm_compute; reflexivity|]. split; [vm_compute; reflexivity|].
    split; [split; vm_compute; discriminate|].
    split; [vm_compute; reflexivity|]. split; [vm_compute; reflexivity|].
    split; vm_compute; reflexivity.
Qed.

(** C9. When the lookup of the current window fails with a storage
    error other than "no row found", the request is allowed and the
    stores are left as they were: no counter is incremented, no window
    row is created. *)
Theorem rate_limit_fails_open :
  forall (code : string) (zone : ProxyDatabase.Zone) (now : Z) (userId endpoint : string) (maxRequests : Z)
         (w : Db.World),
    code <> "PGRST116" ->
    ProxyDatabase.checkRateLimit (Some code) zone now userId endpoint maxRequests w
    = (true, w).
Proof.
  intros code zone now userId endpoint maxRequests w Hcode.
  unfold ProxyDatabase.checkRateLimit.
  apply String.eqb_neq in Hcode. now rewrite Hcode.
Qed.


Lemma rate_limit_fails_open_witness :
  ProxyDatabase.checkRateLimit (Some "08006") ProxyDatabase.UTC 0 "u1" "/api/suna/status" 200
    Db.empty
  = (true, Db.empty).
Proof.
  apply rate_limit_fails_open. discriminate.
Defined.
(** ** Routes *)

Section RouteFacts.
Import Db ProxyDatabase Http.

Lemma truthy_some (s : string) : s <> EmptyString -> truthy (Some s) = true.
Proof. intros H. simpl. apply String.eqb_neq in H. now rewrite H. Qed.

(** The rate limiter touches its own table and the id generator only. *)
Lemma checkRateLimit_frame (fetchError : option string) (zone : Zone) (now : Z)
    (userId endpoint : string) (maxRequests : Z) (w : World) :
  let w' := snd (checkRateLimit fetchError zone now userId endpoint maxRequests w) in
  story_generation_tasks w' = story_generation_tasks w
  /\ suna_task_mapping w' = suna_task_mapping w
  /\ storybooks w' = storybooks w
  /\ storybook_pages w' = storybook_pages w
  /\ user_storybooks w' = user_storybooks w
  /\ ext_calls w' = ext_calls w
  /\ next_id w <= next_id w'.
Proof.
  unfold checkRateLimit.
  destruct fetchError as [code|].
  - destruct (negb (String.eqb code "PGRST116")); simpl; auto 10.
  - destruct (single _) as [e|]; simpl.
    + destruct (maxRequests <=? request_count e)%Z; simpl; auto 10.
    + auto 10.
Qed.

Lemma select_task_frame (error : option string) (taskId userId : string)
    (w w' : World) :
  story_generation_tasks w' = story_generation_tasks w ->
  select_task error taskId userId w' = select_task error taskId userId w.
Proof. unfold select_task. now intros ->. Qed.

Lemma getSunaTaskMapping_frame (error : option string) (taskId : string)
    (w w' : World) :
  suna_task_mapping w' = suna_task_mapping w ->
  getSunaTaskMapping error taskId w' = getSunaTaskMapping error taskId w.
Proof. unfold getSunaTaskMapping. now intros ->. Qed.

End RouteFacts.

(** Enter a route whose request names a task, carries an identity and
    passes the rate limit; [w1] names the stores after the rate limit. *)
Ltac enter_route Hne Hp Ha endpoint w w1 :=
  let ok := fresh "ok" in
  rewrite Hp, (truthy_some _ Hne), Ha; cbn [negb];
  destruct (ProxyDatabase.checkRateLimit _ _ _ _ endpoint _ w) as [ok w1];
  cbn [fst snd] in *; subst ok; cbn [negb].

(** C7, amended. A request that passes the parameter, identity and
    rate-limit checks is answered with code 404 when the task does not
    exist for the calling user, on both routes, and when the task is
    completed and its mapping is absent, on the result route. On the
    status route a task whose mapping is absent is answered with code
    200, the status of the task and the notice that the mapping was not
    found. *)
Theorem not_found_status_codes :
  forall (JSON_parse : jsstring -> option Json.value)
         (se : StatusRoute.Env) (re : ResultRoute.Env) (w : Db.World)
         (taskId userId : string),
    taskId <> EmptyString ->
    StatusRoute.task_id_param se = Some taskId ->
    ResultRoute.task_id_param re = Some taskId ->
    StatusRoute.auth_user se = Some userId ->
    ResultRoute.auth_user re = Some userId ->
    fst (ProxyDatabase.checkRateLimit
           (Db.rate_limit_select (StatusRoute.faults se))
               (StatusRoute.zone se) (StatusRoute.now se)
           userId StatusRoute.ENDPOINT 200 w) = true ->
    fst (ProxyDatabase.checkRateLimit
           (Db.rate_limit_select (ResultRoute.faults re))
               (ResultRoute.zone re) (ResultRoute.now re)
           userId ResultRoute.ENDPOINT 100 w) = true ->
    (Http.select_task (Db.task_select (StatusRoute.faults se)) taskId userId w = None ->
     Http.http_status (fst (StatusRoute.GET se w)) = 404)
    /\ (Http.select_task (Db.task_select (ResultRoute.faults re)) taskId userId w = None ->
        Http.http_status (fst (ResultRoute.GET JSON_parse re w)) = 404)
    /\ (forall task,
          Http.select_task (Db.task_select (ResultRoute.faults re)) taskId userId w
            = Some task ->
          Db.status task = "completed" ->
          ProxyDatabase.getSunaTaskMapping
            (Db.mapping_select (ResultRoute.faults re)) taskId w = Db.Ok None ->
          Http.http_status (fst (ResultRoute.GET JSON_parse re w)) = 404)
    /\ (forall task,
          Http.select_task (Db.task_select (StatusRoute.faults se)) taskId userId w
            = Some task ->
          ProxyDatabase.getSunaTaskMapping
            (Db.mapping_select (StatusRoute.faults se)) taskId w = Db.Ok None ->
          fst (StatusRoute.GET se w)
          = {| Http.http_status := 200;
               Http.body := StatusRoute.MappingNotFound taskId (Db.status task) |}).
Proof.
  intros JSON_parse se re w taskId userId Hne Hps Hpr Has Har Hrs Hrr.
  pose proof (checkRateLimit_frame (Db.rate_limit_select (StatusRoute.faults se)) (StatusRoute.zone se)
                (StatusRoute.now se) userId StatusRoute.ENDPOINT 200 w) as Fs.
  pose proof (checkRateLimit_frame (Db.rate_limit_select (ResultRoute.faults re)) (ResultRoute.zone re)
                (ResultRoute.now re) userId ResultRoute.ENDPOINT 100 w) as Fr.
  cbv zeta in Fs, Fr.
  destruct Fs as (Fs1 & Fs2 & _). destruct Fr as (Fr1 & Fr2 & _).
  split; [|split; [|split]].
  - intros Hnone. unfold StatusRoute.GET.
    enter_route Hne Hps Has StatusRoute.ENDPOINT w w1.
    rewrite (select_task_frame _ _ _ w w1 Fs1), Hnone. reflexivity.
  - intros Hnone. unfold ResultRoute.GET.
    enter_route Hne Hpr Har ResultRoute.ENDPOINT w w1.
    rewrite (select_task_frame _ _ _ w w1 Fr1), Hnone. reflexivity.
  - intros task Htask Hdone Hmap. unfold ResultRoute.GET.
    enter_route Hne Hpr Har ResultRoute.ENDPOINT w w1.
    rewrite (select_task_frame _ _ _ w w1 Fr1), Htask, Hdone.
    cbn [String.eqb negb].
    rewrite (getSunaTaskMapping_frame _ _ w w1 Fr2), Hmap. reflexivity.
  - intros task Htask Hmap. unfold StatusRoute.GET.
    enter_route Hne Hps Has StatusRoute.ENDPOINT w w1.
    rewrite (select_task_frame _ _ _ w w1 Fs1), Htask.
    rewrite (getSunaTaskMapping_frame _ _ w w1 Fs2), Hmap. reflexivity.
Qed.
(** C7, as stated, fails for the status route: a task whose mapping is
    absent is answered with code 200. *)
Lemma status_without_mapping_is_200 :
  ProxyDatabase.getSunaTaskMapping None "task-1" (Scenario.world1 "processing" false)
    = Db.Ok None
  /\ fst (StatusRoute.GET (Scenario.status_env (Scenario.reports "running"))
                          (Scenario.world1 "processing" false))
     = {| Http.http_status := 200;
          Http.body := StatusRoute.MappingNotFound "task-1" "processing" |}.
Proof. split; vm_compute; reflexivity. Qed.

Lemma not_found_status_codes_witness :
  Http.http_status
    (fst (ResultRoute.GET Json.parse_flat_object
            (Scenario.result_env Db.no_faults (ResultRoute.StreamNotOk 500))
            (Scenario.world1 "completed" false))) = 404.
Proof.
  assert (Hne : "task-1" <> EmptyString) by discriminate.
  pose proof (not_found_status_codes Json.parse_flat_object
                (Scenario.status_env (Scenario.reports "running"))
                (Scenario.result_env Db.no_faults (ResultRoute.StreamNotOk 500))
                (Scenario.world1 "completed" false) "task-1" "u1"
                Hne eq_refl eq_refl eq_refl eq_refl) as H.
  specialize (H ltac:(vm_compute; reflexivity) ltac:(vm_compute; reflexivity)).
  destruct H as (_ & _ & H & _).
  apply (H (Scenario.task1 "completed")); vm_compute; reflexivity.
Defined.
Section StatusFacts.
Import Db ProxyDatabase Http.

Lemma single_inv {A} (l : list A) (x : A) : single l = Some x -> l = [x].
Proof.
  destruct l as [|a [|b l]]; simpl; intros H; try discriminate.
  now inversion H.
Qed.

Lemma select_task_found (error : option string) (taskId userId : string)
    (w : World) (task : Task) :
  select_task error taskId userId w = Some task ->
  In task (story_generation_tasks w) /\ id task = taskId /\ user_id task = userId.
Proof.
  unfold select_task. destruct error; [discriminate|]. intros H.
  apply single_inv in H.
  assert (Hin : In task (filter (fun t => String.eqb (id t) taskId
                                          && String.eqb (user_id t) userId)
                                (story_generation_tasks w)))
    by (rewrite H; now left).
  apply filter_In in Hin as [Hin Hb].
  apply andb_true_iff in Hb as [Hi Hu].
  apply String.eqb_eq in Hi, Hu. auto.
Qed.

Lemma getSunaTaskMapping_found (error : option string) (taskId : string)
    (w : World) (m : SunaTaskMapping) :
  getSunaTaskMapping error taskId w = Ok (Some m) ->
  In m (suna_task_mapping w) /\ local_task_id m = taskId.
Proof.
  unfold getSunaTaskMapping. destruct error; [discriminate|]. intros H.
  inversion H as [H']. apply single_inv in H'.
  assert (Hin : In m (filter (fun m => String.eqb (local_task_id m) taskId)
                             (suna_task_mapping w)))
    by (rewrite H'; now left).
  apply filter_In in Hin as [Hin Hb]. apply String.eqb_eq in Hb. auto.
Qed.

(** The rows selected by a key after an update of the rows of that key. *)
Lemma map_selected {A} (key : A -> string) (k : string) (f : A -> A)
    (P : A -> Prop) (l : list A) :
  (forall x, key (f x) = key x) ->
  (forall x, key x = k -> P (f x)) ->
  Forall (fun x => key x = k -> P x)
         (map (fun x => if String.eqb (key x) k then f x else x) l).
Proof.
  intros Hkey HP. apply Forall_map, Forall_forall. intros x _.
  destruct (String.eqb (key x) k) eqn:E.
  - intros _. apply HP. now apply String.eqb_eq.
  - intros H. apply String.eqb_neq in E. contradiction.
Qed.

Lemma map_selected_in {A} (key : A -> string) (k : string) (f : A -> A)
    (l : list A) (x : A) :
  (forall x, key (f x) = key x) ->
  In x l -> key x = k ->
  exists y, In y (map (fun x => if String.eqb (key x) k then f x else x) l)
            /\ key y = k.
Proof.
  intros Hkey Hin Hk. exists (f x). split.
  - apply in_map_iff. exists x. split; [|assumption].
    apply String.eqb_eq in Hk. now rewrite Hk.
  - now rewrite Hkey.
Qed.

End StatusFacts.

(** C4. A status check on a task in processing whose mapping records
    the job ids, the storage accepting the writes. If the external poll
    reports a terminal status (completed or failed), the task and the
    mapping both carry that status in the stores when the route
    responds, and the response reports it. In every other case (the
    external status is running or anything else, the poll answers with a
    non-success code, the poll throws, no poll can be made) the task and
    mapping tables are left as they were and the response reports the
    local state, processing, with code 200. *)
Theorem status_check_writes_through :
  forall (se : StatusRoute.Env) (w : Db.World) (taskId userId runId : string)
         (task : Db.Task) (m : Db.SunaTaskMapping),
    taskId <> EmptyString ->
    StatusRoute.task_id_param se = Some taskId ->
    StatusRoute.auth_user se = Some userId ->
    fst (ProxyDatabase.checkRateLimit
           (Db.rate_limit_select (StatusRoute.faults se))
               (StatusRoute.zone se) (StatusRoute.now se)
           userId StatusRoute.ENDPOINT 200 w) = true ->
    Http.select_task (Db.task_select (StatusRoute.faults se)) taskId userId w
      = Some task ->
    Db.status task = "processing" ->
    ProxyDatabase.getSunaTaskMapping
      (Db.mapping_select (StatusRoute.faults se)) taskId w = Db.Ok (Some m) ->
    Db.m_suna_agent_run_id m = Some runId ->
    runId <> EmptyString ->
    Db.mapping_update (StatusRoute.faults se) = None ->
    let response := fst (StatusRoute.GET se w) in
    let w' := snd (StatusRoute.GET se w) in
    (forall (sunaData : Db.SunaData) (s : string),
        Http.truthy (StatusRoute.session_jwt se) = true ->
        StatusRoute.poll se = Http.Data sunaData ->
        Db.sd_status sunaData = Some s ->
        Scenario.terminal s ->
        Forall (fun t => Db.id t = taskId -> Db.status t = s)
               (Db.story_generation_tasks w')
        /\ (exists t, In t (Db.story_generation_tasks w') /\ Db.id t = taskId)
        /\ Forall (fun x => Db.local_task_id x = taskId -> Db.m_status x = s)
                  (Db.suna_task_mapping w')
        /\ (exists x, In x (Db.suna_task_mapping w') /\ Db.local_task_id x = taskId)
        /\ response
           = {| Http.http_status := 200;
                Http.body :=
                  StatusRoute.TaskState taskId s (Some (StatusRoute.now se))
                    (Db.value_of (Db.sd_error sunaData))
                    (Db.m_suna_thread_id m) (Db.m_suna_agent_run_id m) |})
    /\ (~ (Http.truthy (StatusRoute.session_jwt se) = true
           /\ exists sunaData s,
                StatusRoute.poll se = Http.Data sunaData
                /\ Db.sd_status sunaData = Some s /\ Scenario.terminal s) ->
        Db.story_generation_tasks w' = Db.story_generation_tasks w
        /\ Db.suna_task_mapping w' = Db.suna_task_mapping w
        /\ response
           = {| Http.http_status := 200;
                Http.body :=
                  StatusRoute.TaskState taskId "processing"
                    (Db.completed_at task) (Db.error_message task)
                    (Db.m_suna_thread_id m) (Db.m_suna_agent_run_id m) |}).
Proof.
  intros se w taskId userId runId task m Hne Hp Ha Hr Htask Hst Hmap Hrun Hrne
         Hfault response w'.
  pose proof (checkRateLimit_frame (Db.rate_limit_select (StatusRoute.faults se)) (StatusRoute.zone se)
                (StatusRoute.now se) userId StatusRoute.ENDPOINT 200 w) as F.
  cbv zeta in F. destruct F as (F1 & F2 & _).
  destruct (select_task_found _ _ _ _ _ Htask) as (Hin & Hid & _).
  destruct (getSunaTaskMapping_found _ _ _ _ Hmap) as (Hmin & Hmid).
  assert (HGET : StatusRoute.GET se w
    = let '(task', w2) :=
        StatusRoute.poll_and_update se taskId userId runId task
          (snd (ProxyDatabase.checkRateLimit
                  (Db.rate_limit_select (StatusRoute.faults se)) (StatusRoute.zone se)
                  (StatusRoute.now se) userId StatusRoute.ENDPOINT 200 w)) in
      StatusRoute.respond 200
        (StatusRoute.TaskState taskId (Db.status task') (Db.completed_at task')
           (Db.error_message task') (Db.m_suna_thread_id m)
           (Db.m_suna_agent_run_id m))
        (ProxyDatabase.logRequest
           {| Db.pr_user_id := userId; Db.pr_endpoint := StatusRoute.ENDPOINT;
              Db.method := "GET"; Db.status_code := 200 |} w2)).
  { unfold StatusRoute.GET.
    enter_route Hne Hp Ha StatusRoute.ENDPOINT w w1.
    rewrite (select_task_frame _ _ _ w w1 F1), Htask.
    rewrite (getSunaTaskMapping_frame _ _ w w1 F2), Hmap.
    rewrite Hst, Hrun, (truthy_some _ Hrne). reflexivity. }
  subst response w'. rewrite HGET. clear HGET.
  set (w1 := snd (ProxyDatabase.checkRateLimit _ _ _ _ _ _ w)) in *.
  split.
  - intros sunaData s Hjwt Hpoll Hs Hterm.
    unfold StatusRoute.poll_and_update. rewrite Hjwt, Hpoll, Hs, Hfault.
    assert (Hcond : (String.eqb s "completed" || String.eqb s "failed")%bool = true)
      by (destruct Hterm as [-> | ->]; reflexivity).
    assert (Hnew : (if String.eqb s "completed" then "completed" else "failed") = s)
      by (destruct Hterm as [-> | ->]; reflexivity).
    rewrite Hcond, Hnew.
    cbn -[String.eqb]. rewrite F1, F2.
    split; [|split; [|split; [|split]]].
    + apply (map_selected Db.id taskId); auto.
    + apply (map_selected_in Db.id taskId) with (x := task); auto.
    + apply (map_selected Db.local_task_id taskId); auto.
    + apply (map_selected_in Db.local_task_id taskId) with (x := m); auto.
    + reflexivity.
  - intros Hno.
    assert (Hsame : StatusRoute.poll_and_update se taskId userId runId task w1
                    = (task,
                       snd (StatusRoute.poll_and_update se taskId userId runId task w1))
                    /\ Db.story_generation_tasks
                         (snd (StatusRoute.poll_and_update se taskId userId runId task w1))
                       = Db.story_generation_tasks w1
                    /\ Db.suna_task_mapping
                         (snd (StatusRoute.poll_and_update se taskId userId runId task w1))
                       = Db.suna_task_mapping w1).
    { unfold StatusRoute.poll_and_update.
      destruct (Http.truthy (StatusRoute.session_jwt se)) eqn:Hjwt; [|auto].
      destruct (StatusRoute.poll se) as [msg|code txt|msg|sunaData] eqn:Hpoll;
        try (cbn; auto).
      destruct (Db.sd_status sunaData) as [s|] eqn:Hs; [|cbn; auto].
      destruct (String.eqb s "completed") eqn:E1.
      - exfalso. apply Hno. split; [reflexivity|].
        exists sunaData, s. apply String.eqb_eq in E1. repeat split; auto.
        now left.
      - destruct (String.eqb s "failed") eqn:E2.
        + exfalso. apply Hno. split; [reflexivity|].
          exists sunaData, s. apply String.eqb_eq in E2. repeat split; auto.
          now right.
        + cbn. auto. }
    destruct Hsame as (Hpu & Ht & Hm). rewrite Hpu.
    cbn -[String.eqb]. rewrite Ht, Hm, F1, F2, Hst. auto.
Qed.

Lemma status_check_writes_through_witness :
  fst (StatusRoute.GET (Scenario.status_env (Scenario.reports "completed"))
                       (Scenario.world1 "processing" true))
  = {| Http.http_status := 200;
       Http.body := StatusRoute.TaskState "task-1" "completed" (Some 1000%Z)
                      None (Some "thread-1") (Some "run-1") |}.
Proof.
  assert (Hne : "task-1" <> EmptyString) by discriminate.
  assert (Hrun : "run-1" <> EmptyString) by discriminate.
  pose proof (status_check_writes_through
                (Scenario.status_env (Scenario.reports "completed"))
                (Scenario.world1 "processing" true) "task-1" "u1" "run-1"
                (Scenario.task1 "processing") (Scenario.mapping1 "processing")
                Hne eq_refl eq_refl
                ltac:(vm_compute; reflexivity) ltac:(vm_compute; reflexivity)
                eq_refl ltac:(vm_compute; reflexivity) eq_refl Hrun eq_refl)
    as [H _].
  cbv zeta in H.
  destruct (H {| Db.sd_thread_id := Db.Absent; Db.sd_agent_run_id := Db.Absent;
                 Db.sd_status := Some "completed"; Db.sd_error := Db.Absent |}
              "completed" eq_refl eq_refl eq_refl (or_introl eq_refl))
    as (_ & _ & _ & _ & Hresp).
  exact Hresp.
Defined.

(** C8. A submit request in which the initiation of the external job
    fails (the call throws, the response is not a success, or its body
    cannot be read), the storage accepting the writes. The task and the
    mapping of the new task id are both in status failed with the error
    text recorded, and the response body carries that task id and
    status failed. *)
Theorem failed_initiation_is_recorded :
  forall (ge : GenerateRoute.Env) (w : Db.World) (userId jwt message : string)
         (requestData : Db.RequestData),
    GenerateRoute.request_body ge = Some requestData ->
    GenerateRoute.auth_user ge = Some userId ->
    fst (ProxyDatabase.checkRateLimit
           (Db.rate_limit_select (GenerateRoute.faults ge))
               (GenerateRoute.zone ge) (GenerateRoute.now ge)
           userId GenerateRoute.ENDPOINT 50 w) = true ->
    GenerateRoute.session_jwt ge = Some jwt ->
    jwt <> EmptyString ->
    Db.task_insert (GenerateRoute.faults ge) = None ->
    Db.mapping_insert (GenerateRoute.faults ge) = None ->
    Db.mapping_update (GenerateRoute.faults ge) = None ->
    Scenario.failure_text (GenerateRoute.initiate ge) = Some message ->
    let response := fst (GenerateRoute.POST ge w) in
    let w' := snd (GenerateRoute.POST ge w) in
    let taskId := GenerateRoute.uuid ge in
    Http.body response
      = GenerateRoute.Failed taskId "Failed to start story generation"
    /\ Http.http_status response = 500
    /\ Forall (fun t => Db.id t = taskId ->
                        Db.status t = "failed" /\ Db.error_message t = Some message)
              (Db.story_generation_tasks w')
    /\ (exists t, In t (Db.story_generation_tasks w')
                  /\ Db.id t = taskId /\ Db.user_id t = userId)
    /\ Forall (fun m => Db.local_task_id m = taskId ->
                        Db.m_status m = "failed"
                        /\ Db.m_error_message m = Some message)
              (Db.suna_task_mapping w')
    /\ (exists m, In m (Db.suna_task_mapping w')
                  /\ Db.local_task_id m = taskId /\ Db.m_user_id m = userId).
Proof.
  intros ge w userId jwt message requestData Hbody Ha Hr Hjwt Hne
         Hf1 Hf2 Hf3 Htext response w' taskId.
  assert (Hfail : forall w0 : Db.World,
    In {| Db.id := taskId; Db.user_id := userId;
          Db.story_description := Db.rq_story_description requestData;
          Db.tags := Db.rq_tags requestData;
          Db.custom_tags := Db.rq_custom_tags requestData;
          Db.status := "pending"; Db.error_message := None;
          Db.completed_at := None; Db.suna_thread_id := None;
          Db.suna_agent_run_id := None |} (Db.story_generation_tasks w0) ->
    (exists m0, In m0 (Db.suna_task_mapping w0)
                /\ Db.local_task_id m0 = taskId /\ Db.m_user_id m0 = userId) ->
    let r := GenerateRoute.initiate_failed ge userId taskId message w0 in
    Http.body (fst r) = GenerateRoute.Failed taskId "Failed to start story generation"
    /\ Http.http_status (fst r) = 500
    /\ Forall (fun t => Db.id t = taskId ->
                        Db.status t = "failed" /\ Db.error_message t = Some message)
              (Db.story_generation_tasks (snd r))
    /\ (exists t, In t (Db.story_generation_tasks (snd r))
                  /\ Db.id t = taskId /\ Db.user_id t = userId)
    /\ Forall (fun m => Db.local_task_id m = taskId ->
                        Db.m_status m = "failed"
                        /\ Db.m_error_message m = Some message)
              (Db.suna_task_mapping (snd r))
    /\ (exists m, In m (Db.suna_task_mapping (snd r))
                  /\ Db.local_task_id m = taskId /\ Db.m_user_id m = userId)).
  { intros w0 Htask (m0 & Hm0 & Hm0id & Hm0u) r. subst r.
    unfold GenerateRoute.initiate_failed. rewrite Hf3.
    cbn -[String.eqb].
    split; [reflexivity|]. split; [reflexivity|].
    split; [|split; [|split]].
    - apply (map_selected Db.id taskId); auto.
    - eexists. split.
      + apply in_map_iff. eexists. split; [|exact Htask].
        cbn -[String.eqb]. rewrite String.eqb_refl. reflexivity.
      + auto.
    - apply (map_selected Db.local_task_id taskId); auto.
    - eexists. split.
      + apply in_map_iff. exists m0. split; [|exact Hm0].
        rewrite Hm0id, String.eqb_refl. reflexivity.
      + auto. }
  subst response w'. unfold GenerateRoute.POST.
  rewrite Hbody, Ha.
  destruct (ProxyDatabase.checkRateLimit _ _ _ _ GenerateRoute.ENDPOINT _ w) as [ok w1].
  cbn [fst snd] in *. subst ok. cbn [negb].
  rewrite Hjwt, (truthy_some _ Hne), Hf1.
  unfold ProxyDatabase.createSunaTaskMapping. rewrite Hf2.
  unfold GenerateRoute.start_job.
  destruct (GenerateRoute.initiate ge) as [msg|code txt|msg|sunaData];
    cbn [Scenario.failure_text] in Htext; try discriminate;
    inversion Htext; subst message; fold taskId;
    apply Hfail; cbn -[String.eqb];
    try (apply in_or_app; right; now left);
    try (eexists; split; [apply in_or_app; right; now left|auto]).
Qed.

Lemma failed_initiation_is_recorded_witness :
  Http.body (fst (GenerateRoute.POST
                    (Scenario.generate_env (Http.NotOk 502 "Bad Gateway"))
                    Db.empty))
  = GenerateRoute.Failed "task-1" "Failed to start story generation".
Proof.
  assert (Hne : "jwt-1" <> EmptyString) by discriminate.
  pose proof (failed_initiation_is_recorded
                (Scenario.generate_env (Http.NotOk 502 "Bad Gateway"))
                Db.empty "u1" "jwt-1" "Suna AI API error: 502"
                {| Db.rq_story_description := "a rabbit searches for rainbow candy";
                   Db.rq_tags := ["adventure"; "friendship"];
                   Db.rq_custom_tags := None |}
                eq_refl eq_refl ltac:(vm_compute; reflexivity) eq_refl Hne
                eq_refl eq_refl eq_refl ltac:(vm_compute; reflexivity))
    as [H _].
  exact H.
Defined.

(** ** Result route *)

Section ResultFacts.
Import Db ProxyDatabase Http ResultRoute.

Variable JSON_parse : jsstring -> option Json.value.

(** A request on a completed task with a mapping and a session goes on
    to fetch the stream. *)
Lemma GET_fetches (re : Env) (w : World) (taskId userId runId : string)
    (task : Task) (m : SunaTaskMapping) :
  taskId <> EmptyString ->
  task_id_param re = Some taskId ->
  auth_user re = Some userId ->
  fst (checkRateLimit (rate_limit_select (faults re)) (zone re) (now re)
                      userId ENDPOINT 100 w) = true ->
  select_task (task_select (faults re)) taskId userId w = Some task ->
  status task = "completed" ->
  getSunaTaskMapping (mapping_select (faults re)) taskId w = Ok (Some m) ->
  m_suna_agent_run_id m = Some runId ->
  runId <> EmptyString ->
  GET JSON_parse re w
  = fetch_result JSON_parse re taskId userId runId task
      (snd (checkRateLimit (rate_limit_select (faults re)) (zone re) (now re)
                           userId ENDPOINT 100 w)).
Proof.
  intros Hne Hp Ha Hr Htask Hst Hmap Hrun Hrne.
  pose proof (checkRateLimit_frame (rate_limit_select (faults re))
                (zone re) (now re)
                userId ENDPOINT 100 w) as F.
  cbv zeta in F. destruct F as (F1 & F2 & _).
  unfold GET. enter_route Hne Hp Ha ENDPOINT w w1.
  rewrite (select_task_frame _ _ _ w w1 F1), Htask, Hst. cbn [String.eqb negb].
  rewrite (getSunaTaskMapping_frame _ _ w w1 F2), Hmap, Hrun, (truthy_some _ Hrne).
  reflexivity.
Qed.

Lemma fetch_result_read (re : Env) (w : World) (taskId userId runId : string)
    (task : Task) (reads : option (list jsstring)) :
  truthy (session_jwt re) = true ->
  stream re = StreamBody reads None ->
  fetch_result JSON_parse re taskId userId runId task w
  = store_or_return re taskId userId task (accumulate JSON_parse reads)
      (with_call (CallStream runId) w).
Proof.
  intros Hjwt Hs. unfold fetch_result. rewrite Hjwt, Hs. reflexivity.
Qed.

Lemma select_storybook_frame (taskId : string) (w w' : World) :
  storybooks w' = storybooks w ->
  storybook_pages w' = storybook_pages w ->
  select_storybook taskId w' = select_storybook taskId w.
Proof. unfold select_storybook. now intros -> ->. Qed.

Lemma page_rows_from_id (storybookId : nat) (now : Z) (pages : list Parser.Page) :
  forall index,
    Forall (fun p => storybook_id p = storybookId)
           (page_rows_from index storybookId now pages).
Proof.
  induction pages as [|p ps IH]; intros index; simpl; constructor; auto.
Qed.

Lemma filter_all {A} (f : A -> bool) (l : list A) :
  Forall (fun x => f x = true) l -> filter f l = l.
Proof.
  induction 1 as [|x l Hx _ IH]; simpl; [reflexivity|]. now rewrite Hx, IH.
Qed.

(** A task without a storybook is read as such whether the select is
    answered or not. *)
Lemma lookup_storybook_none (error : option string) (taskId : string) (w : World) :
  select_storybook taskId w = None -> lookup_storybook error taskId w = None.
Proof. intros H. unfold lookup_storybook. now destruct error. Qed.

Lemma lookup_storybook_frame (error : option string) (taskId : string)
    (w w' : World) :
  storybooks w' = storybooks w ->
  storybook_pages w' = storybook_pages w ->
  lookup_storybook error taskId w' = lookup_storybook error taskId w.
Proof.
  intros A B. unfold lookup_storybook. destruct error; [reflexivity|].
  now apply select_storybook_frame.
Qed.

(** How the stores move in the last step of the route. *)
Lemma store_or_return_stored (re : Env) (taskId userId : string) (task : Task)
    (result : jsstring) (w : World) (existing : StorybookWithPages) :
  storybook_select (faults re) = None ->
  select_storybook taskId w = Some existing ->
  store_or_return re taskId userId task result w
  = ({| http_status := 200; body := Completed taskId existing result |},
     logRequest {| pr_user_id := userId; pr_endpoint := ENDPOINT;
                   method := "GET"; status_code := 200 |} w).
Proof.
  intros Hf H. unfold store_or_return, lookup_storybook. now rewrite Hf, H.
Qed.

End ResultFacts.

(** C1, as stated, fails: the storybook row and its pages are written
    by two separate inserts. When the second is rejected, the route
    answers with code 500 and the storybook row stays, without pages. *)
Lemma storybook_left_without_pages :
  let env := Scenario.result_env Scenario.pages_fault
               (ResultRoute.StreamBody (Some [Scenario.story_frame]) None) in
  let r := ResultRoute.GET Json.parse_flat_object env (Scenario.world2 false) in
  Db.storybooks (Scenario.world2 false) = []
  /\ fst r = {| Http.http_status := 500;
                Http.body := ResultRoute.FetchFailed "task-1" |}
  /\ map Db.generation_task_id (Db.storybooks (snd r)) = ["task-1"]
  /\ Db.storybook_pages (snd r) = [].
Proof. cbv zeta. split; [|split; [|split]]; vm_compute; reflexivity. Qed.

(** C1, amended. A result fetch on a completed task that has no
    storybook yet, whose stream is read to its end. If parsing the
    accumulated text yields no title or no page, the response carries
    the raw text with the parse-failure flag and nothing is stored.
    Otherwise the storybook row is inserted, then its pages by a second
    insert: if the first insert is rejected nothing is stored; if the
    second is rejected the storybook row stays without pages; in both
    cases the answer is the 500 fetch failure. If both go through, the
    storybook and its pages are stored and returned. *)
Theorem result_fetch_stores_parsed_story :
  forall (JSON_parse : jsstring -> option Json.value)
         (re : ResultRoute.Env) (w : Db.World) (taskId userId runId : string)
         (task : Db.Task) (m : Db.SunaTaskMapping)
         (reads : option (list jsstring)),
    taskId <> EmptyString ->
    ResultRoute.task_id_param re = Some taskId ->
    ResultRoute.auth_user re = Some userId ->
    fst (ProxyDatabase.checkRateLimit
           (Db.rate_limit_select (ResultRoute.faults re))
               (ResultRoute.zone re) (ResultRoute.now re)
           userId ResultRoute.ENDPOINT 100 w) = true ->
    Http.select_task (Db.task_select (ResultRoute.faults re)) taskId userId w
      = Some task ->
    Db.status task = "completed" ->
    ProxyDatabase.getSunaTaskMapping
      (Db.mapping_select (ResultRoute.faults re)) taskId w = Db.Ok (Some m) ->
    Db.m_suna_agent_run_id m = Some runId ->
    runId <> EmptyString ->
    Http.truthy (ResultRoute.session_jwt re) = true ->
    ResultRoute.stream re = ResultRoute.StreamBody reads None ->
    ResultRoute.select_storybook taskId w = None ->
    let result := ResultRoute.accumulate JSON_parse reads in
    let story := Parser.parseStoryContent result in
    let response := fst (ResultRoute.GET JSON_parse re w) in
    let w' := snd (ResultRoute.GET JSON_parse re w) in
    let book :=
      {| Db.sb_id := Db.next_id
                       (snd (ProxyDatabase.checkRateLimit
                               (Db.rate_limit_select (ResultRoute.faults re)) (ResultRoute.zone re)
                               (ResultRoute.now re) userId ResultRoute.ENDPOINT
                               100 w));
         Db.sb_title := Parser.title story;
         Db.sb_description := Db.story_description task;
         Db.generation_task_id := taskId;
         Db.sb_created_at := ResultRoute.now re |} in
    let rows := ResultRoute.page_rows (Db.sb_id book) (ResultRoute.now re)
                  (Parser.pages story) in
    (Parser.title story = [] \/ Parser.pages story = [] ->
       response = {| Http.http_status := 200;
                     Http.body := ResultRoute.ParseFailed taskId result |}
       /\ Db.storybooks w' = Db.storybooks w
       /\ Db.storybook_pages w' = Db.storybook_pages w
       /\ Db.user_storybooks w' = Db.user_storybooks w)
    /\ (Parser.title story <> [] -> Parser.pages story <> [] ->
        match Db.storybook_insert (ResultRoute.faults re),
              Db.pages_insert (ResultRoute.faults re) with
        | Some _, _ =>
          response = {| Http.http_status := 500;
                        Http.body := ResultRoute.FetchFailed taskId |}
          /\ Db.storybooks w' = Db.storybooks w
          /\ Db.storybook_pages w' = Db.storybook_pages w
        | None, Some _ =>
          response = {| Http.http_status := 500;
                        Http.body := ResultRoute.FetchFailed taskId |}
          /\ Db.storybooks w' = Db.storybooks w ++ [book]
          /\ Db.storybook_pages w' = Db.storybook_pages w
        | None, None =>
          response
          = {| Http.http_status := 200;
               Http.body :=
                 ResultRoute.Completed taskId
                   {| ResultRoute.book := book; ResultRoute.book_pages := rows |}
                   result |}
          /\ Db.storybooks w' = Db.storybooks w ++ [book]
          /\ Db.storybook_pages w' = Db.storybook_pages w ++ rows
        end).
Proof.
  intros JSON_parse re w taskId userId runId task m reads
         Hne Hp Ha Hr Htask Hst Hmap Hrun Hrne Hjwt Hstream Hnone
         result story response w' book rows.
  pose proof (checkRateLimit_frame (Db.rate_limit_select (ResultRoute.faults re)) (ResultRoute.zone re)
                (ResultRoute.now re) userId ResultRoute.ENDPOINT 100 w) as F.
  cbv zeta in F. destruct F as (_ & _ & F3 & F4 & F5 & _).
  subst response w'.
  rewrite (GET_fetches JSON_parse re w taskId userId runId task m) by assumption.
  rewrite (fetch_result_read JSON_parse re _ taskId userId runId task reads)
    by assumption.
  fold result. subst book rows.
  set (w1 := snd (ProxyDatabase.checkRateLimit _ _ _ _ _ _ w)) in *.
  unfold ResultRoute.store_or_return.
  rewrite (lookup_storybook_none _ taskId (Db.with_call (Db.CallStream runId) w1))
    by (rewrite <- Hnone; apply select_storybook_frame; cbn; auto).
  fold story.
  split.
  - intros Hfail.
    assert (Hcond : (Js.truthy (Parser.title story)
                     && (0 <? List.length (Parser.pages story))%nat)%bool = false).
    { destruct Hfail as [-> | ->]; [reflexivity|]. apply andb_false_r. }
    rewrite Hcond. cbn. auto.
  - intros Ht Hpg.
    assert (Hcond : (Js.truthy (Parser.title story)
                     && (0 <? List.length (Parser.pages story))%nat)%bool = true).
    { apply andb_true_iff. split; [now apply truthy_nonempty|].
      destruct (Parser.pages story); [congruence|reflexivity]. }
    rewrite Hcond.
    destruct (Db.storybook_insert (ResultRoute.faults re)) as [e1|].
    + cbn. auto.
    + destruct (Db.pages_insert (ResultRoute.faults re)) as [e2|].
      * cbn. rewrite F3, F4. auto.
      * cbn. rewrite F3, F4. auto.
Qed.

Lemma result_fetch_stores_parsed_story_witness :
  fst (ResultRoute.GET Json.parse_flat_object
         (Scenario.result_env Db.no_faults
            (ResultRoute.StreamBody (Some [Scenario.untitled_frame]) None))
         (Scenario.world2 false))
  = {| Http.http_status := 200;
       Http.body :=
         ResultRoute.ParseFailed "task-1"
           (ResultRoute.accumulate Json.parse_flat_object
              (Some [Scenario.untitled_frame])) |}.
Proof.
  assert (Hne : "task-1" <> EmptyString) by discriminate.
  assert (Hrun : "run-1" <> EmptyString) by discriminate.
  pose proof (result_fetch_stores_parsed_story Json.parse_flat_object
                (Scenario.result_env Db.no_faults
                   (ResultRoute.StreamBody (Some [Scenario.untitled_frame]) None))
                (Scenario.world2 false) "task-1" "u1" "run-1"
                (Scenario.task1 "completed") (Scenario.mapping1 "completed")
                (Some [Scenario.untitled_frame])
                Hne eq_refl eq_refl
                ltac:(vm_compute; reflexivity) ltac:(vm_compute; reflexivity)
                eq_refl ltac:(vm_compute; reflexivity) eq_refl Hrun
                eq_refl eq_refl ltac:(vm_compute; reflexivity))
    as [H _].
  cbv zeta in H.
  destruct H as (Hresp & _).
  - left. vm_compute. reflexivity.
  - exact Hresp.
Defined.

Section IdempotenceFacts.
Import Db ProxyDatabase Http ResultRoute.

Lemma single_none_short {A} (l : list A) :
  single l = None -> List.length l <= 1 -> l = [].
Proof.
  destruct l as [|a [|b l]]; simpl; intros H Hlen; try reflexivity;
    [discriminate|lia].
Qed.

(** After the last step has answered with a storybook, that storybook
    is the one on record for the task. *)
Lemma store_or_return_selects (re : Env) (taskId userId : string) (task : Task)
    (result raw : jsstring) (w : World) (doc : StorybookWithPages) :
  storybook_select (faults re) = None ->
  List.length (filter (fun b => String.eqb (generation_task_id b) taskId)
                      (storybooks w)) <= 1 ->
  Forall (fun p => storybook_id p < next_id w) (storybook_pages w) ->
  fst (store_or_return re taskId userId task result w)
    = {| http_status := 200; body := Completed taskId doc raw |} ->
  select_storybook taskId (snd (store_or_return re taskId userId task result w))
    = Some doc.
Proof.
  intros Hf Hone Hfresh. unfold store_or_return, lookup_storybook. rewrite Hf.
  destruct (select_storybook taskId w) as [existing|] eqn:Hsel.
  - cbn. intros H. inversion H; subst.
    rewrite <- Hsel. now apply select_storybook_frame.
  - destruct (Js.truthy _ && _)%bool; [|cbn; discriminate].
    destruct (storybook_insert (faults re)); [cbn; discriminate|].
    destruct (pages_insert (faults re)); [cbn; discriminate|].
    cbn -[String.eqb Nat.eqb]. intros H. inversion H; subst. clear H.
    unfold select_storybook in *. cbn -[String.eqb Nat.eqb].
    destruct (single (filter _ (storybooks w))) as [b|] eqn:Hs; [discriminate|].
    apply single_none_short in Hs; [|assumption].
    rewrite filter_app, Hs. cbn -[Nat.eqb]. rewrite String.eqb_refl. cbn -[Nat.eqb].
    f_equal. f_equal.
    rewrite filter_app.
    rewrite (filter_none (fun p => Nat.eqb (storybook_id p) (next_id w))
                         (storybook_pages w)).
    + cbn [app]. apply filter_all.
      eapply Forall_impl; [|apply page_rows_from_id].
      intros p Hp. cbn beta. rewrite Hp. apply Nat.eqb_refl.
    + eapply Forall_impl; [|exact Hfresh].
      intros p Hp. cbn beta in *. apply Nat.eqb_neq. lia.
Qed.

(** The last step leaves tasks and mappings alone, and never lowers
    the id generator. *)
Lemma store_or_return_frame (re : Env) (taskId userId : string) (task : Task)
    (result : jsstring) (w : World) :
  let w' := snd (store_or_return re taskId userId task result w) in
  story_generation_tasks w' = story_generation_tasks w
  /\ suna_task_mapping w' = suna_task_mapping w.
Proof.
  unfold store_or_return.
  destruct (lookup_storybook _ taskId w); [cbn; auto|].
  destruct (Js.truthy _ && _)%bool; [|cbn; auto].
  destruct (storybook_insert (faults re)); [cbn; auto|].
  destruct (pages_insert (faults re)); cbn; auto.
Qed.

End IdempotenceFacts.

(** C2, as stated, fails: the stream is opened before the stored
    storybook is looked up. With a storybook on record, the request is
    still sent to the external service, and when that request fails the
    answer is the 500 fetch failure, not the stored storybook. *)
Lemma stored_storybook_still_opens_stream :
  let env := Scenario.result_env Db.no_faults (ResultRoute.StreamNotOk 503) in
  let r := ResultRoute.GET Json.parse_flat_object env (Scenario.world2 true) in
  ResultRoute.select_storybook "task-1" (Scenario.world2 true)
    = Some {| ResultRoute.book := Scenario.book1;
              ResultRoute.book_pages := [Scenario.page1] |}
  /\ Db.ext_calls (Scenario.world2 true) = []
  /\ Db.ext_calls (snd r) = [Db.CallStream "run-1"]
  /\ fst r = {| Http.http_status := 500;
                Http.body := ResultRoute.FetchFailed "task-1" |}.
Proof. cbv zeta. split; [|split; [|split]]; vm_compute; reflexivity. Qed.

(** C2, amended. Result fetches on a completed task whose streams are
    read to their end and whose storybook lookups the storage answers.
    The stream is opened on every fetch. When a
    storybook is on record for the task, the fetch returns it
    unchanged, next to the text accumulated from the stream, and writes
    no storybook and no page. Of two fetches one after the other, if
    the first returns a storybook (stored before, or created by it)
    the second returns the same storybook and writes no storybook and
    no page. *)
Theorem result_fetch_is_idempotent :
  forall (JSON_parse : jsstring -> option Json.value)
         (re1 re2 : ResultRoute.Env) (w : Db.World)
         (taskId userId runId : string)
         (task : Db.Task) (m : Db.SunaTaskMapping)
         (reads1 reads2 : option (list jsstring)),
    taskId <> EmptyString ->
    ResultRoute.task_id_param re1 = Some taskId ->
    ResultRoute.auth_user re1 = Some userId ->
    fst (ProxyDatabase.checkRateLimit
           (Db.rate_limit_select (ResultRoute.faults re1))
               (ResultRoute.zone re1) (ResultRoute.now re1)
           userId ResultRoute.ENDPOINT 100 w) = true ->
    Http.select_task (Db.task_select (ResultRoute.faults re1)) taskId userId w
      = Some task ->
    Db.status task = "completed" ->
    ProxyDatabase.getSunaTaskMapping
      (Db.mapping_select (ResultRoute.faults re1)) taskId w = Db.Ok (Some m) ->
    Db.m_suna_agent_run_id m = Some runId ->
    runId <> EmptyString ->
    Http.truthy (ResultRoute.session_jwt re1) = true ->
    ResultRoute.stream re1 = ResultRoute.StreamBody reads1 None ->
    Db.storybook_select (ResultRoute.faults re1) = None ->
    ResultRoute.task_id_param re2 = Some taskId ->
    ResultRoute.auth_user re2 = Some userId ->
    fst (ProxyDatabase.checkRateLimit
           (Db.rate_limit_select (ResultRoute.faults re2))
               (ResultRoute.zone re2) (ResultRoute.now re2)
           userId ResultRoute.ENDPOINT 100
           (snd (ResultRoute.GET JSON_parse re1 w))) = true ->
    Db.task_select (ResultRoute.faults re2) = None ->
    Db.mapping_select (ResultRoute.faults re2) = None ->
    Db.storybook_select (ResultRoute.faults re2) = None ->
    Http.truthy (ResultRoute.session_jwt re2) = true ->
    ResultRoute.stream re2 = ResultRoute.StreamBody reads2 None ->
    List.length (filter (fun b => String.eqb (Db.generation_task_id b) taskId)
                        (Db.storybooks w)) <= 1 ->
    Forall (fun p => Db.storybook_id p < Db.next_id w) (Db.storybook_pages w) ->
    let r1 := fst (ResultRoute.GET JSON_parse re1 w) in
    let w1 := snd (ResultRoute.GET JSON_parse re1 w) in
    let r2 := fst (ResultRoute.GET JSON_parse re2 w1) in
    let w2 := snd (ResultRoute.GET JSON_parse re2 w1) in
    Db.ext_calls w1 = Db.ext_calls w ++ [Db.CallStream runId]
    /\ (forall existing,
          ResultRoute.select_storybook taskId w = Some existing ->
          r1 = {| Http.http_status := 200;
                  Http.body :=
                    ResultRoute.Completed taskId existing
                      (ResultRoute.accumulate JSON_parse reads1) |}
          /\ Db.storybooks w1 = Db.storybooks w
          /\ Db.storybook_pages w1 = Db.storybook_pages w)
    /\ (forall doc raw,
          r1 = {| Http.http_status := 200;
                  Http.body := ResultRoute.Completed taskId doc raw |} ->
          r2 = {| Http.http_status := 200;
                  Http.body :=
                    ResultRoute.Completed taskId doc
                      (ResultRoute.accumulate JSON_parse reads2) |}
          /\ Db.storybooks w2 = Db.storybooks w1
          /\ Db.storybook_pages w2 = Db.storybook_pages w1).
Proof.
  intros JSON_parse re1 re2 w taskId userId runId task m reads1 reads2
         Hne Hp1 Ha1 Hr1 Htask Hst Hmap Hrun Hrne Hjwt1 Hs1 Hbs1
         Hp2 Ha2 Hr2 Hts2 Hms2 Hbs2 Hjwt2 Hs2 Hone Hfresh r1 w1 r2 w2.
  pose proof (checkRateLimit_frame (Db.rate_limit_select (ResultRoute.faults re1)) (ResultRoute.zone re1)
                (ResultRoute.now re1) userId ResultRoute.ENDPOINT 100 w) as F.
  cbv zeta in F. destruct F as (F1 & F2 & F3 & F4 & _ & F6 & F7).
  assert (E1 : ResultRoute.GET JSON_parse re1 w
               = ResultRoute.store_or_return re1 taskId userId task
                   (ResultRoute.accumulate JSON_parse reads1)
                   (Db.with_call (Db.CallStream runId)
                      (snd (ProxyDatabase.checkRateLimit
                              (Db.rate_limit_select (ResultRoute.faults re1)) (ResultRoute.zone re1)
                              (ResultRoute.now re1) userId ResultRoute.ENDPOINT
                              100 w)))).
  { rewrite (GET_fetches JSON_parse re1 w taskId userId runId task m) by assumption.
    now apply fetch_result_read. }
  set (wa := snd (ProxyDatabase.checkRateLimit _ _ _ _ _ _ w)) in *.
  set (wc := Db.with_call (Db.CallStream runId) wa) in *.
  assert (Hsel : ResultRoute.select_storybook taskId wc
                 = ResultRoute.select_storybook taskId w)
    by (apply select_storybook_frame; cbn; auto).
  split; [|split].
  - subst w1. rewrite E1. unfold ResultRoute.store_or_return.
    destruct (ResultRoute.lookup_storybook _ taskId wc); [cbn; now rewrite F6|].
    destruct (Js.truthy _ && _)%bool; [|cbn; now rewrite F6].
    destruct (Db.storybook_insert (ResultRoute.faults re1)); [cbn; now rewrite F6|].
    destruct (Db.pages_insert (ResultRoute.faults re1)); cbn; now rewrite F6.
  - intros existing Hex. subst r1 w1. rewrite E1.
    rewrite (store_or_return_stored re1 taskId userId task _ wc existing Hbs1)
      by (now rewrite Hsel).
    cbn. auto.
  - intros doc raw Hdoc. subst r1 r2 w2.
    assert (Hsel1 : ResultRoute.select_storybook taskId w1 = Some doc).
    { subst w1. rewrite E1 in *.
      apply (store_or_return_selects re1 taskId userId task _ raw wc doc).
      - exact Hbs1.
      - cbn. now rewrite F3.
      - cbn. eapply Forall_impl; [|rewrite F4; exact Hfresh].
        intros p Hp. cbn beta in *. lia.
      - exact Hdoc. }
    assert (Hframe1 : Db.story_generation_tasks w1 = Db.story_generation_tasks w
                      /\ Db.suna_task_mapping w1 = Db.suna_task_mapping w).
    { subst w1. rewrite E1.
      destruct (store_or_return_frame re1 taskId userId task
                  (ResultRoute.accumulate JSON_parse reads1) wc) as [A B].
      cbv zeta in A, B. rewrite A, B. cbn. auto. }
    destruct Hframe1 as [T1 M1].
    assert (Htask2 : Http.select_task (Db.task_select (ResultRoute.faults re2))
                       taskId userId w1 = Some task).
    { rewrite (select_task_frame _ _ _ w w1 T1), Hts2.
      destruct (Db.task_select (ResultRoute.faults re1)) eqn:E;
        [unfold Http.select_task in Htask; try rewrite E in Htask; discriminate|].
      exact Htask. }
    assert (Hmap2 : ProxyDatabase.getSunaTaskMapping
                      (Db.mapping_select (ResultRoute.faults re2)) taskId w1
                    = Db.Ok (Some m)).
    { rewrite (getSunaTaskMapping_frame _ _ w w1 M1), Hms2.
      destruct (Db.mapping_select (ResultRoute.faults re1)) eqn:E;
        [unfold ProxyDatabase.getSunaTaskMapping in Hmap; try rewrite E in Hmap; discriminate|].
      exact Hmap. }
    pose proof (checkRateLimit_frame (Db.rate_limit_select (ResultRoute.faults re2)) (ResultRoute.zone re2)
                  (ResultRoute.now re2) userId ResultRoute.ENDPOINT 100 w1) as G.
    cbv zeta in G. destruct G as (_ & _ & G3 & G4 & _).
    rewrite (GET_fetches JSON_parse re2 w1 taskId userId runId task m) by assumption.
    rewrite (fetch_result_read JSON_parse re2 _ taskId userId runId task reads2)
      by assumption.
    rewrite (store_or_return_stored re2 taskId userId task _ _ doc Hbs2).
    + cbn. auto.
    + rewrite <- Hsel1. apply select_storybook_frame; cbn; auto.
Qed.


Lemma result_fetch_is_idempotent_witness :
  let env := Scenario.result_env Db.no_faults
               (ResultRoute.StreamBody (Some [Scenario.story_frame]) None) in
  let w1 := snd (ResultRoute.GET Json.parse_flat_object env (Scenario.world2 false)) in
  Db.storybooks (snd (ResultRoute.GET Json.parse_flat_object env w1))
  = Db.storybooks w1.
Proof.
  intros env w1.
  assert (Hne : "task-1" <> EmptyString) by discriminate.
  assert (Hrun : "run-1" <> EmptyString) by discriminate.
  pose proof (result_fetch_is_idempotent Json.parse_flat_object env env
                (Scenario.world2 false) "task-1" "u1" "run-1"
                (Scenario.task1 "completed") (Scenario.mapping1 "completed")
                (Some [Scenario.story_frame]) (Some [Scenario.story_frame])
                Hne eq_refl eq_refl
                ltac:(vm_compute; reflexivity) ltac:(vm_compute; reflexivity)
                eq_refl ltac:(vm_compute; reflexivity) eq_refl Hrun
                eq_refl eq_refl eq_refl eq_refl eq_refl
                ltac:(vm_compute; reflexivity) eq_refl eq_refl eq_refl eq_refl
                eq_refl
                ltac:(vm_compute; repeat constructor)
                ltac:(vm_compute; constructor))
    as (_ & _ & H).
  cbv zeta in H.
  remember (fst (ResultRoute.GET Json.parse_flat_object env (Scenario.world2 false)))
    as r1 eqn:Er1 in H.
  vm_compute in Er1. subst r1.
  edestruct H as (_ & S & _); [reflexivity|exact S].
Defined.


Lemma page_rows_from_fields (storybookId : nat) (now : Z)
    (pages : list Parser.Page) : forall index,
  map Db.page_number (ResultRoute.page_rows_from index storybookId now pages)
    = seq (index + 1) (List.length pages)
  /\ map Db.content (ResultRoute.page_rows_from index storybookId now pages)
     = map Parser.text pages
  /\ map Db.image_description
         (ResultRoute.page_rows_from index storybookId now pages)
     = map Parser.image pages.
Proof.
  induction pages as [|p ps IH]; intros index; simpl.
  - auto.
  - destruct (IH (S index)) as (A & B & C).
    rewrite A, B, C. replace (S index + 1) with (S (index + 1)) by lia. auto.
Qed.

(** C10. When a parsed document is stored, the pages written are
    numbered 1, 2, 3, ... by their position in the parsed sequence and
    carry the text and image of the parsed pages in that order. The
    numeral of a page-header line is not read: the same request
    answered with a stream whose accumulated text differs in the
    numerals of header lines only stores the same pages. *)
Theorem stored_pages_numbered_by_position :
  forall (JSON_parse : jsstring -> option Json.value)
         (re : ResultRoute.Env) (w : Db.World) (taskId userId runId : string)
         (task : Db.Task) (m : Db.SunaTaskMapping)
         (reads reads' : option (list jsstring)),
    taskId <> EmptyString ->
    ResultRoute.task_id_param re = Some taskId ->
    ResultRoute.auth_user re = Some userId ->
    fst (ProxyDatabase.checkRateLimit
           (Db.rate_limit_select (ResultRoute.faults re))
               (ResultRoute.zone re) (ResultRoute.now re)
           userId ResultRoute.ENDPOINT 100 w) = true ->
    Http.select_task (Db.task_select (ResultRoute.faults re)) taskId userId w
      = Some task ->
    Db.status task = "completed" ->
    ProxyDatabase.getSunaTaskMapping
      (Db.mapping_select (ResultRoute.faults re)) taskId w = Db.Ok (Some m) ->
    Db.m_suna_agent_run_id m = Some runId ->
    runId <> EmptyString ->
    Http.truthy (ResultRoute.session_jwt re) = true ->
    ResultRoute.stream re = ResultRoute.StreamBody reads None ->
    ResultRoute.select_storybook taskId w = None ->
    Db.storybook_insert (ResultRoute.faults re) = None ->
    Db.pages_insert (ResultRoute.faults re) = None ->
    let result := ResultRoute.accumulate JSON_parse reads in
    let result' := ResultRoute.accumulate JSON_parse reads' in
    let pages := Parser.pages (Parser.parseStoryContent result) in
    Parser.title (Parser.parseStoryContent result) <> [] ->
    pages <> [] ->
    Forall2 Parser.renumbered (Parser.content_lines result)
                              (Parser.content_lines result') ->
    let w' := snd (ResultRoute.GET JSON_parse re w) in
    let w'' := snd (ResultRoute.GET JSON_parse
                      (ResultRoute.with_stream
                         (ResultRoute.StreamBody reads' None) re) w) in
    exists rows,
      Db.storybook_pages w' = Db.storybook_pages w ++ rows
      /\ map Db.page_number rows = seq 1 (List.length pages)
      /\ map Db.content rows = map Parser.text pages
      /\ map Db.image_description rows = map Parser.image pages
      /\ Parser.parseStoryContent result' = Parser.parseStoryContent result
      /\ Db.storybook_pages w'' = Db.storybook_pages w'.
Proof.
  intros JSON_parse re w taskId userId runId task m reads reads'
         Hne Hp Ha Hr Htask Hst Hmap Hrun Hrne Hjwt Hstream Hnone Hf1 Hf2
         result result' pages Ht Hpg Hlines w' w''.
  pose proof (checkRateLimit_frame (Db.rate_limit_select (ResultRoute.faults re)) (ResultRoute.zone re)
                (ResultRoute.now re) userId ResultRoute.ENDPOINT 100 w) as F.
  cbv zeta in F. destruct F as (_ & _ & F3 & F4 & _).
  assert (Hsame : Parser.parseStoryContent result' = Parser.parseStoryContent result).
  { unfold Parser.parseStoryContent. symmetry.
    now apply parse_lines_renumbered. }
  subst w' w''.
  rewrite (GET_fetches JSON_parse re w taskId userId runId task m) by assumption.
  rewrite (GET_fetches JSON_parse _ w taskId userId runId task m) by assumption.
  rewrite (fetch_result_read JSON_parse re _ taskId userId runId task reads)
    by assumption.
  rewrite (fetch_result_read JSON_parse _ _ taskId userId runId task reads')
    by (try assumption; reflexivity).
  fold result result'. cbn [ResultRoute.with_stream ResultRoute.faults
                           ResultRoute.now].
  set (w1 := snd (ProxyDatabase.checkRateLimit _ _ _ _ _ _ w)) in *.
  set (wc := Db.with_call (Db.CallStream runId) w1).
  assert (Hsel : forall error,
             ResultRoute.lookup_storybook error taskId wc = None).
  { intros error. apply lookup_storybook_none.
    rewrite <- Hnone. apply select_storybook_frame; cbn; auto. }
  assert (Hcond : (Js.truthy (Parser.title (Parser.parseStoryContent result))
                   && (0 <? List.length pages)%nat)%bool = true).
  { apply andb_true_iff. split; [now apply truthy_nonempty|].
    destruct pages; [congruence|reflexivity]. }
  exists (ResultRoute.page_rows (Db.next_id wc) (ResultRoute.now re) pages).
  destruct (page_rows_from_fields (Db.next_id wc) (ResultRoute.now re) pages 0)
    as (A & B & C).
  unfold ResultRoute.store_or_return.
  cbn [ResultRoute.with_stream ResultRoute.faults ResultRoute.now].
  rewrite Hsame, Hsel. fold pages. rewrite Hcond, Hf1, Hf2. cbn.
  rewrite F4. repeat split; auto.
Qed.

Lemma stored_pages_numbered_by_position_witness :
  let env := Scenario.result_env Db.no_faults
               (ResultRoute.StreamBody (Some [Scenario.story_frame]) None) in
  Db.storybook_pages
    (snd (ResultRoute.GET Json.parse_flat_object
            (ResultRoute.with_stream
               (ResultRoute.StreamBody (Some [Scenario.renumbered_frame]) None)
               env)
            (Scenario.world2 false)))
  = Db.storybook_pages
      (snd (ResultRoute.GET Json.parse_flat_object env (Scenario.world2 false))).
Proof.
  intros env.
  assert (Hne : "task-1" <> EmptyString) by discriminate.
  assert (Hrun : "run-1" <> EmptyString) by discriminate.
  assert (E : forall d : N, [d] <> []) by discriminate.
  destruct (stored_pages_numbered_by_position Json.parse_flat_object env
              (Scenario.world2 false) "task-1" "u1" "run-1"
              (Scenario.task1 "completed") (Scenario.mapping1 "completed")
              (Some [Scenario.story_frame]) (Some [Scenario.renumbered_frame])
              Hne eq_refl eq_refl
              ltac:(vm_compute; reflexivity) ltac:(vm_compute; reflexivity)
              eq_refl ltac:(vm_compute; reflexivity) eq_refl Hrun
              eq_refl eq_refl ltac:(vm_compute; reflexivity) eq_refl eq_refl)
    as (rows & _ & _ & _ & _ & _ & H).
  - vm_compute. discriminate.
  - vm_compute. discriminate.
  - vm_compute.
    constructor; [apply Parser.renumbered_same|].
    constructor; [apply (@Parser.renumbered_header [49%N] [57%N] true); auto|].
    constructor; [apply Parser.renumbered_same|].
    constructor; [apply Parser.renumbered_same|].
    constructor; [apply (@Parser.renumbered_header [50%N] [57%N] true); auto|].
    constructor; [apply Parser.renumbered_same|].
    constructor; [apply Parser.renumbered_same|].
    constructor.
  - exact H.
Defined.

(** * Further properties *)

(** ** Content parser *)

Section ParserMore.
Import Parser.

Lemma cursor_after_header (cur : option Page) (l : jsstring) :
  is_page_header l = true ->
  cursor_after cur l = Some {| text := []; image := [] |}.
Proof.
  intros H. unfold cursor_after.
  now rewrite (page_header_not_title l H), H.
Qed.

(** Every header line closes the page that is open and opens one, and
    the end of the input closes the last. *)
Lemma closed_pages_count (lines : list jsstring) : forall cur,
  List.length (closed_pages_from cur lines)
  = List.length (filter is_page_header lines) + List.length (option_list cur).
Proof.
  induction lines as [|l ls IH]; intros cur.
  - reflexivity.
  - cbn [closed_pages_from filter]. rewrite length_app, IH.
    destruct (is_page_header l) eqn:Hh.
    + rewrite (page_header_not_title l Hh), (cursor_after_header cur l Hh).
      cbn [negb andb List.length option_list]. lia.
    + rewrite andb_false_r. cbn [List.length].
      assert (Hc : List.length (option_list (cursor_after cur l))
                   = List.length (option_list cur)).
      { unfold cursor_after. rewrite Hh.
        destruct (Js.startsWith l TITLE_MARK); [reflexivity|].
        destruct (Js.startsWith l TEXT_MARK); [destruct cur; reflexivity|].
        destruct (Js.startsWith l IMAGE_MARK); [destruct cur; reflexivity|].
        reflexivity. }
      lia.
Qed.

End ParserMore.

(** X1. The parser yields at most as many pages as the text has
    page-header lines; in particular a text without a header line of
    the expected form has no pages, whatever else it holds. *)
Theorem pages_bounded_by_headers :
  forall content : jsstring,
    List.length (Parser.pages (Parser.parseStoryContent content))
    <= Format.header_count content.
Proof.
  intros content. rewrite pages_are_complete_closed_pages.
  etransitivity; [apply filter_length_le|].
  unfold Parser.closed_pages, Format.header_count.
  rewrite closed_pages_count. cbn. lia.
Qed.

Section TrimFacts.

Lemma trimStart_app_space (l : jsstring) (x : N) :
  Js.is_space x = true ->
  Js.trimStart (l ++ [x])
  = match Js.trimStart l with [] => [] | _ :: _ => Js.trimStart l ++ [x] end.
Proof.
  intros Hx. induction l as [|c l IH]; cbn [app Js.trimStart].
  - now rewrite Hx.
  - destruct (Js.is_space c); [exact IH|reflexivity].
Qed.

Lemma trimEnd_app_space (l : jsstring) (x : N) :
  Js.is_space x = true -> Js.trimEnd (l ++ [x]) = Js.trimEnd l.
Proof.
  intros Hx. unfold Js.trimEnd. rewrite rev_app_distr. cbn [rev app Js.trimStart].
  now rewrite Hx.
Qed.

(** White space at the end of a line is dropped. *)
Lemma trim_app_space (l : jsstring) (x : N) :
  Js.is_space x = true -> Js.trim (l ++ [x]) = Js.trim l.
Proof.
  intros Hx. unfold Js.trim. rewrite (trimStart_app_space l x Hx).
  destruct (Js.trimStart l) as [|c r] eqn:E; [reflexivity|].
  now apply trimEnd_app_space.
Qed.

Lemma trimStart_head (c : N) (r : jsstring) :
  Js.is_space c = false -> Js.trimStart (c :: r) = c :: r.
Proof. intros H. cbn. now rewrite H. Qed.

Lemma trimEnd_last (l : jsstring) (c : N) :
  Js.is_space c = false -> Js.trimEnd (l ++ [c]) = l ++ [c].
Proof.
  intros H. unfold Js.trimEnd. rewrite rev_app_distr. cbn [rev app].
  rewrite (trimStart_head c (rev l) H). cbn [rev]. now rewrite rev_involutive.
Qed.

Lemma trimStart_suffix (s : jsstring) : exists pre, s = pre ++ Js.trimStart s.
Proof.
  induction s as [|c r [pre IH]]; [now exists []|]. cbn.
  destruct (Js.is_space c).
  - exists (c :: pre). cbn. now rewrite <- IH.
  - now exists [].
Qed.

Lemma trimStart_head_inv (s : jsstring) (c : N) (r : jsstring) :
  Js.trimStart s = c :: r -> Js.is_space c = false.
Proof.
  induction s as [|a s IH]; cbn; [discriminate|].
  destruct (Js.is_space a) eqn:E; [exact IH|].
  intros H. inversion H; subst. exact E.
Qed.

(** A non-empty text that [trim] leaves alone begins and ends with a
    unit that is not white space. *)
Lemma trimmed_ends (s : jsstring) :
  s <> [] -> Js.trim s = s ->
  (exists c r, s = c :: r /\ Js.is_space c = false)
  /\ (exists l c, s = l ++ [c] /\ Js.is_space c = false).
Proof.
  intros Hne Ht. split.
  - destruct s as [|c r]; [congruence|]. exists c, r. split; [reflexivity|].
    destruct (Js.is_space c) eqn:E; [|reflexivity]. exfalso.
    (* trim shortens the text *)
    assert (Hlen : List.length (Js.trim (c :: r)) <= List.length r).
    { unfold Js.trim, Js.trimEnd. cbn [Js.trimStart]. rewrite E.
      rewrite length_rev.
      destruct (trimStart_suffix (rev (Js.trimStart r))) as [p1 H1].
      destruct (trimStart_suffix r) as [p2 H2].
      apply (f_equal (@List.length N)) in H1, H2.
      rewrite length_app in H1, H2. rewrite length_rev in H1. lia. }
    rewrite Ht in Hlen. cbn in Hlen. lia.
  - destruct (rev s) as [|c l] eqn:E.
    + apply (f_equal (@rev N)) in E. rewrite rev_involutive in E. now subst.
    + exists (rev l), c.
      assert (Hs : s = rev l ++ [c]).
      { apply (f_equal (@rev N)) in E. now rewrite rev_involutive in E. }
      split; [exact Hs|].
      unfold Js.trim, Js.trimEnd in Ht.
      apply (f_equal (@rev N)) in Ht. rewrite rev_involutive, E in Ht.
      destruct (Js.trimStart (rev (Js.trimStart s))) as [|a t] eqn:E2;
        [discriminate|].
      inversion Ht; subst a t.
      exact (trimStart_head_inv _ _ _ E2).
Qed.

(** A text that begins and ends with such a unit is left alone. *)
Lemma trim_fixed (c : N) (mid : jsstring) (d : N) :
  Js.is_space c = false -> Js.is_space d = false ->
  Js.trim (c :: mid ++ [d]) = c :: mid ++ [d].
Proof.
  intros Hc Hd. unfold Js.trim. rewrite (trimStart_head c _ Hc).
  change (c :: mid ++ [d]) with ((c :: mid) ++ [d]).
  now apply trimEnd_last.
Qed.

End TrimFacts.

Section FormatFacts.
Import Parser Format.

Lemma TITLE_MARK_units : TITLE_MARK = [26631; 39064; 65306]%N.
Proof. vm_compute. reflexivity. Qed.

Lemma TEXT_MARK_units : TEXT_MARK = [25991; 23383; 65306]%N.
Proof. vm_compute. reflexivity. Qed.

Lemma IMAGE_MARK_units : IMAGE_MARK = [22270; 29255; 65306]%N.
Proof. vm_compute. reflexivity. Qed.

Lemma startsWith_nil (s : jsstring) : Js.startsWith s [] = true.
Proof. destruct s; reflexivity. Qed.

Lemma split_without_sep (s : jsstring) : ~ In NL s -> Js.split NL s = [s].
Proof.
  induction s as [|c r IH]; intros H; [reflexivity|]. cbn [Js.split].
  destruct (c =? NL)%N eqn:E.
  - apply N.eqb_eq in E. exfalso. apply H. now left.
  - rewrite IH; [reflexivity|]. intros Hin. apply H. now right.
Qed.

Lemma split_join (lines : list jsstring) :
  lines <> [] -> Forall (fun l => ~ In NL l) lines ->
  Js.split NL (join lines) = lines.
Proof.
  induction lines as [|l ls IH]; intros Hne H; [congruence|].
  inversion H as [|? ? Hl Hls]; subst.
  destruct ls as [|l' ls].
  - now apply split_without_sep.
  - change (join (l :: l' :: ls)) with (l ++ NL :: join (l' :: ls)).
    rewrite split_app_sep, (split_without_sep l Hl), IH; [reflexivity| |assumption].
    discriminate.
Qed.

Lemma content_lines_join (lines : list jsstring) :
  lines <> [] -> Forall plain_line lines ->
  content_lines (join lines) = lines.
Proof.
  intros Hne H. unfold content_lines.
  rewrite split_join; [|assumption|].
  - induction H as [|l ls (Hl & Ht & _) _ IH]; [reflexivity|].
    cbn [map filter]. rewrite Ht.
    destruct l; [congruence|]. cbn [List.length Nat.ltb Nat.leb].
    f_equal. destruct ls; [reflexivity|]. apply IH. discriminate.
  - eapply Forall_impl; [|exact H]. now intros l (_ & _ & Hn).
Qed.

Lemma marked_line_plain (c : N) (m s : jsstring) :
  Js.is_space c = false -> ~ In NL (c :: m) -> clean s ->
  plain_line ((c :: m) ++ s).
Proof.
  intros Hc Hm (Hne & Ht & Hn).
  destruct (trimmed_ends s Hne Ht) as (_ & l & d & -> & Hd).
  split; [discriminate|]. split.
  - change ((c :: m) ++ l ++ [d]) with (c :: m ++ l ++ [d]).
    rewrite app_assoc. now apply trim_fixed.
  - intros Hin. apply in_app_or in Hin as [Hin|Hin]; auto.
Qed.

Lemma digits_without_NL (n : jsstring) :
  forallb Js.is_digit n = true -> ~ In NL n.
Proof.
  intros H Hin. rewrite forallb_forall in H. specialize (H _ Hin).
  vm_compute in H. discriminate.
Qed.

Lemma header_line_plain (n : jsstring) :
  forallb Js.is_digit n = true -> plain_line (page_header n true).
Proof.
  intros Hd. unfold page_header. split; [discriminate|]. split.
  - change ([31532%N] ++ n ++ [39029%N; 65306%N])
      with (31532%N :: n ++ [39029%N; 65306%N]).
    change [39029%N; 65306%N] with ([39029%N] ++ [65306%N]).
    rewrite app_assoc. now apply trim_fixed.
  - intros Hin. cbn in Hin. destruct Hin as [Hin|Hin]; [discriminate|].
    apply in_app_or in Hin as [Hin|Hin].
    + now apply (digits_without_NL n Hd).
    + cbn in Hin. destruct Hin as [Hin|[Hin|[]]]; discriminate.
Qed.

Lemma render_lines_plain (title : jsstring) (pages : list (jsstring * Page)) :
  clean title -> Forall well_numbered pages ->
  Forall plain_line (render_lines title pages).
Proof.
  intros Ht Hp. unfold render_lines. constructor.
  - rewrite TITLE_MARK_units. apply marked_line_plain; auto.
    cbn. intros [H|[H|[H|[]]]]; discriminate.
  - induction Hp as [|[n p] ps (_ & Hd & Htx & Him) _ IH]; [constructor|].
    cbn [flat_map block fst snd app].
    constructor; [now apply header_line_plain|].
    constructor.
    { rewrite TEXT_MARK_units. apply marked_line_plain; auto.
      cbn. intros [H|[H|[H|[]]]]; discriminate. }
    constructor; [|exact IH].
    rewrite IMAGE_MARK_units. apply marked_line_plain; auto.
    cbn. intros [H|[H|[H|[]]]]; discriminate.
Qed.

Lemma step_title_line (st : State) (t : jsstring) :
  step st (TITLE_MARK ++ t)
  = {| st_title := Js.trim t; st_pages := st_pages st;
       currentPage := currentPage st |}.
Proof.
  unfold step. rewrite TITLE_MARK_units. cbn -[Js.trim].
  now rewrite !startsWith_nil.
Qed.

Lemma step_block (st : State) (n : jsstring) (p : Page) :
  n <> [] -> forallb Js.is_digit n = true ->
  Js.trim (text p) = text p -> Js.trim (image p) = image p ->
  fold_left step (block (n, p)) st
  = {| st_title := st_title st;
       st_pages := push_if_complete (st_pages st) (currentPage st);
       currentPage := Some p |}.
Proof.
  intros Hn Hd Ht Hi. cbn [block fst snd fold_left].
  pose proof (page_header_matches n true Hn Hd) as Hh.
  assert (S1 : step st (page_header n true)
               = {| st_title := st_title st;
                    st_pages := push_if_complete (st_pages st) (currentPage st);
                    currentPage := Some {| text := []; image := [] |} |}).
  { unfold step. now rewrite (page_header_not_title _ Hh), Hh. }
  rewrite S1. unfold step at 2. rewrite TITLE_MARK_units, TEXT_MARK_units.
  cbn -[Js.trim step]. rewrite !startsWith_nil, Ht.
  unfold step. rewrite TITLE_MARK_units, TEXT_MARK_units, IMAGE_MARK_units.
  cbn -[Js.trim]. rewrite !startsWith_nil, Hi. destruct p; reflexivity.
Qed.

Lemma fold_blocks (pages : list (jsstring * Page)) : forall st,
  Forall well_numbered pages ->
  let st' := fold_left step (flat_map block pages) st in
  st_title st' = st_title st
  /\ push_if_complete (st_pages st') (currentPage st')
     = push_if_complete (st_pages st) (currentPage st) ++ map snd pages.
Proof.
  induction pages as [|[n p] ps IH]; intros st H st'.
  - subst st'. cbn. now rewrite app_nil_r.
  - inversion H as [|? ? (Hn & Hd & (Hne1 & Ht & _) & (Hne2 & Hi & _)) Hps]; subst.
    cbn [fst snd] in *.
    subst st'. cbn [flat_map]. rewrite fold_left_app.
    rewrite (step_block st n p Hn Hd Ht Hi).
    match goal with |- context [fold_left step (flat_map block ps) ?s0] =>
      destruct (IH s0 Hps) as [A B] end.
    cbv zeta in A, B. rewrite A, B.
    cbn [st_title st_pages currentPage push_if_complete map snd].
    assert (Hc : page_complete p = true)
      by (apply page_complete_fields; split; assumption).
    rewrite Hc, <- app_assoc. auto.
Qed.

End FormatFacts.

(** X2. A document written in the format of the generation prompt is
    read back as it is: with a title and page fields that are not empty,
    carry no white space at their ends and no line break, and any
    numerals in the header lines, parsing the rendered text yields that
    title and those pages, in order. *)
Theorem parse_render_round_trip :
  forall (title : jsstring) (pages : list (jsstring * Parser.Page)),
    Format.clean title ->
    Forall Format.well_numbered pages ->
    Parser.parseStoryContent (Format.render title pages)
    = {| Parser.title := title; Parser.pages := map snd pages |}.
Proof.
  intros title pages Ht Hp.
  unfold Parser.parseStoryContent, Format.render.
  rewrite content_lines_join;
    [|discriminate|now apply render_lines_plain].
  unfold Parser.parse_lines, Format.render_lines. cbn [fold_left].
  rewrite step_title_line.
  match goal with |- context [fold_left Parser.step _ ?s] =>
    destruct (fold_blocks pages s Hp) as [A B] end.
  cbv zeta in A, B. rewrite A, B. cbn.
  destruct Ht as (_ & Ht & _). now rewrite Ht.
Qed.

Lemma parse_render_round_trip_witness :
  Parser.parseStoryContent
    (Format.render (js "小兔找糖")
       [(js "1", {| Parser.text := js "小兔 出发了"; Parser.image := js "一只小兔" |});
        (js "12", {| Parser.text := js "找到了"; Parser.image := js "彩虹糖果" |})])
  = {| Parser.title := js "小兔找糖";
       Parser.pages :=
         [{| Parser.text := js "小兔 出发了"; Parser.image := js "一只小兔" |};
          {| Parser.text := js "找到了"; Parser.image := js "彩虹糖果" |}] |}.
Proof.
  assert (C : forall s : jsstring,
             Js.truthy s = true -> Js.eqb (Js.trim s) s = true ->
             existsb (N.eqb NL) s = false -> Format.clean s).
  { intros s H1 H2 H3. split; [now apply truthy_nonempty|]. split.
    - unfold Js.eqb in H2.
      destruct (list_eq_dec N.eq_dec (Js.trim s) s); [assumption|discriminate].
    - intros Hin. assert (existsb (N.eqb NL) s = true); [|congruence].
      apply existsb_exists. exists NL. split; [assumption|apply N.eqb_refl]. }
  apply (parse_render_round_trip (js "小兔找糖")).
  - apply C; vm_compute; reflexivity.
  - repeat constructor; try discriminate; try (apply C; vm_compute; reflexivity);
      vm_compute; discriminate.
Defined.

Section ParserLines.
Import Parser Format.

Lemma step_keeps_title (st : State) (l : jsstring) :
  Js.startsWith l TITLE_MARK = false -> st_title (step st l) = st_title st.
Proof.
  intros H. unfold step. rewrite H.
  destruct (is_page_header l); [reflexivity|].
  destruct (Js.startsWith l TEXT_MARK); [destruct (currentPage st); reflexivity|].
  destruct (Js.startsWith l IMAGE_MARK); [destruct (currentPage st); reflexivity|].
  reflexivity.
Qed.

Lemma fold_keeps_title (lines : list jsstring) : forall st,
  Forall (fun l => Js.startsWith l TITLE_MARK = false) lines ->
  st_title (fold_left step lines st) = st_title st.
Proof.
  induction lines as [|l ls IH]; intros st H; [reflexivity|].
  inversion H; subst. cbn [fold_left].
  rewrite IH by assumption. now apply step_keeps_title.
Qed.

(** Lines with a carriage return before the line feed. *)
Lemma split_crlf (s : jsstring) :
  Forall2 (fun a b => a = b \/ a = b ++ [13%N])
          (Js.split NL (crlf s)) (Js.split NL s).
Proof.
  induction s as [|c r IH].
  - cbn. constructor; [now left|constructor].
  - cbn [crlf Js.split]. destruct (c =? NL)%N eqn:E.
    + cbn [Js.split]. change (13 =? NL)%N with false. rewrite N.eqb_refl.
      constructor; [now right|exact IH].
    + cbn [Js.split]. rewrite E.
      destruct (Js.split NL (crlf r)) as [|a la];
        destruct (Js.split NL r) as [|b lb]; inversion IH as [|? ? ? ? Hab Hrest];
        subst.
      * constructor; [now left|constructor].
      * constructor; [|exact Hrest].
        destruct Hab as [->| ->]; [now left|now right].
Qed.

Lemma content_lines_crlf (s : jsstring) :
  content_lines (crlf s) = content_lines s.
Proof.
  unfold content_lines. f_equal.
  induction (split_crlf s) as [|a b la lb Hab _ IH]; [reflexivity|].
  cbn [map]. rewrite IH. f_equal.
  destruct Hab as [->| ->]; [reflexivity|].
  now apply trim_app_space.
Qed.

End ParserLines.

(** X3. The title of the parsed document is the text after the marker
    of the last title line, without the white space at its ends; a text
    without a title line has the empty title. *)
Theorem title_is_last_title_line :
  forall (content : jsstring),
    (forall (before : list jsstring) (t : jsstring) (after : list jsstring),
        Parser.content_lines content
          = before ++ (Parser.TITLE_MARK ++ t) :: after ->
        Forall (fun l => Js.startsWith l Parser.TITLE_MARK = false) after ->
        Parser.title (Parser.parseStoryContent content) = Js.trim t)
    /\ (Forall (fun l => Js.startsWith l Parser.TITLE_MARK = false)
               (Parser.content_lines content) ->
        Parser.title (Parser.parseStoryContent content) = []).
Proof.
  intros content. split.
  - intros before t after Hlines Hafter.
    unfold Parser.parseStoryContent, Parser.parse_lines. rewrite Hlines.
    cbn [Parser.title]. rewrite fold_left_app. cbn [fold_left].
    rewrite (fold_keeps_title after _ Hafter), step_title_line. reflexivity.
  - intros Hnone.
    unfold Parser.parseStoryContent, Parser.parse_lines. cbn [Parser.title].
    now rewrite (fold_keeps_title _ _ Hnone).
Qed.

Lemma title_is_last_title_line_witness :
  Parser.title (Parser.parseStoryContent (js "标题：旧的
第1页：
标题：  新的标题  
文字：内容")) = js "新的标题".
Proof.
  destruct (title_is_last_title_line (js "标题：旧的
第1页：
标题：  新的标题  
文字：内容")) as [H _].
  rewrite (H [js "标题：旧的"; js "第1页："] (js "  新的标题") [js "文字：内容"]).
  - vm_compute. reflexivity.
  - vm_compute. reflexivity.
  - repeat constructor.
Defined.

(** X4. Line ends written as carriage return and line feed are read
    like plain line feeds: the parsed document is the same. *)
Theorem parser_accepts_crlf :
  forall content : jsstring,
    Parser.parseStoryContent (Format.crlf content)
    = Parser.parseStoryContent content.
Proof.
  intros content. unfold Parser.parseStoryContent.
  now rewrite content_lines_crlf.
Qed.

(** ** Stream reconciler *)

Section LineFacts.
Import Reconciler Lines.

Variable JSON_parse : jsstring -> option Json.value.

(** A line adds to the accumulator whatever it adds to an empty one. *)
Lemma on_line_adds (acc : Acc) (line : jsstring) :
  on_line JSON_parse acc line
  = {| result := result acc ++ line_text JSON_parse line;
       messages := messages acc ++ line_messages JSON_parse line |}.
Proof.
  unfold line_text, line_messages, on_line.
  destruct acc as [r ms].
  destruct (Js.startsWith line (js "data: ")); cbn [result messages];
    [|now rewrite !app_nil_r].
  destruct (JSON_parse (Js.slice 6 line)) as [data|];
    [|cbn; now rewrite !app_nil_r].
  destruct data; cbn [result messages empty]; rewrite ?app_nil_r; try reflexivity;
    match goal with
    | |- context [if ?c then _ else _] => destruct c
    end; cbn [result messages app]; rewrite ?app_nil_r; try reflexivity;
    repeat match goal with
    | |- context [if ?c then _ else _] => destruct c
    | |- context [match ?c with Some _ => _ | None => _ end] => destruct c
    end; cbn [result messages app]; rewrite ?app_nil_r; reflexivity.
Qed.

Lemma fold_on_line (lines : list jsstring) : forall acc,
  fold_left (on_line JSON_parse) lines acc
  = {| result := result acc ++ List.concat (map (line_text JSON_parse) lines);
       messages := messages acc
                   ++ List.concat (map (line_messages JSON_parse) lines) |}.
Proof.
  induction lines as [|l ls IH]; intros acc.
  - cbn. rewrite !app_nil_r. now destruct acc.
  - cbn [fold_left map List.concat]. rewrite IH, on_line_adds.
    cbn [result messages]. now rewrite <- !app_assoc.
Qed.

Lemma fold_on_chunk (reads : list jsstring) : forall acc,
  fold_left (on_chunk JSON_parse) reads acc
  = fold_left (on_line JSON_parse) (stream_lines reads) acc.
Proof.
  induction reads as [|c rs IH]; intros acc; [reflexivity|].
  unfold stream_lines. cbn [fold_left map List.concat].
  rewrite fold_left_app, IH. reflexivity.
Qed.

(** A recorded message is a message with content, and the line that
    recorded it added its assistant text. *)
Lemma line_messages_text (line : jsstring) :
  (line_messages JSON_parse line = [] /\ line_text JSON_parse line = [])
  \/ exists data,
       line_messages JSON_parse line = [data]
       /\ line_text JSON_parse line = assistant_text data
       /\ Json.is_string (Json.get data (js "type")) (js "message") = true
       /\ Json.truthy (Json.get data (js "content")) = true.
Proof.
  unfold line_messages, line_text, on_line, assistant_text.
  destruct (Js.startsWith line (js "data: ")); [|now left].
  destruct (JSON_parse (Js.slice 6 line)) as [data|]; [|now left].
  destruct (Json.is_string (Json.get data (js "type")) (js "message")
            && Json.truthy (Json.get data (js "content")))%bool eqn:E.
  - apply andb_true_iff in E as [E1 E2].
    destruct data; try (cbn in E1; discriminate).
    right. eexists. rewrite E1, E2. cbn [andb].
    destruct (Json.is_string _ (js "assistant"));
      [|cbn; auto].
    destruct (Json.get _ (js "content")) as [c|]; [|cbn; auto].
    destruct (Json.to_string c); cbn; auto.
  - left. destruct data; cbn [result messages empty]; auto;
      rewrite E; auto.
Qed.

End LineFacts.

(** X5. Each line of the stream adds to the accumulated text and to the
    message list on its own, whatever came before it: the accumulated
    text is the concatenation, in order, of what the lines add, and so
    is the message list. A line that is not an event line, or whose
    payload does not parse, adds nothing and the lines after it are
    still accumulated. *)
Theorem reconciler_accumulates_line_by_line :
  forall (JSON_parse : jsstring -> option Json.value) (reads : list jsstring),
    Reconciler.result (Reconciler.read_all JSON_parse reads)
      = List.concat (map (Lines.line_text JSON_parse) (Lines.stream_lines reads))
    /\ Reconciler.messages (Reconciler.read_all JSON_parse reads)
       = List.concat (map (Lines.line_messages JSON_parse)
                          (Lines.stream_lines reads))
    /\ (forall line,
          Js.startsWith line (js "data: ") = false
          \/ JSON_parse (Js.slice 6 line) = None ->
          Lines.line_text JSON_parse line = []
          /\ Lines.line_messages JSON_parse line = []).
Proof.
  intros JSON_parse reads. unfold Reconciler.read_all.
  rewrite fold_on_chunk, fold_on_line.
  cbn [Reconciler.result Reconciler.messages Reconciler.empty app].
  split; [reflexivity|]. split; [reflexivity|].
  intros line [H|H]; unfold Lines.line_text, Lines.line_messages,
    Reconciler.on_line; rewrite H; [auto|].
  destruct (Js.startsWith line (js "data: ")); auto.
Qed.

(** X6. The accumulated text can be rebuilt from the message list: it
    is the concatenation of the contents of the recorded messages whose
    role is the assistant; and every recorded message has type
    [message] and a content that is not empty. *)
Theorem result_is_text_of_messages :
  forall (JSON_parse : jsstring -> option Json.value) (reads : list jsstring),
    let acc := Reconciler.read_all JSON_parse reads in
    Reconciler.result acc
      = List.concat (map Lines.assistant_text (Reconciler.messages acc))
    /\ Forall (fun data =>
                 Json.is_string (Json.get data (js "type")) (js "message") = true
                 /\ Json.truthy (Json.get data (js "content")) = true)
              (Reconciler.messages acc).
Proof.
  intros JSON_parse reads acc. subst acc. unfold Reconciler.read_all.
  rewrite fold_on_chunk, fold_on_line. cbn [Reconciler.result Reconciler.messages
    Reconciler.empty app].
  induction (Lines.stream_lines reads) as [|l ls [IH1 IH2]]; [split; constructor|].
  cbn [map List.concat]. rewrite map_app, concat_app, <- IH1.
  destruct (line_messages_text JSON_parse l) as [[-> ->]|(data & -> & -> & H1 & H2)].
  - cbn. auto.
  - cbn [map List.concat app]. rewrite app_nil_r. split; [reflexivity|].
    constructor; auto.
Qed.

(** ** Rate limiter *)

Section RateLimitMore.
Import Db ProxyDatabase Inv.

Lemma window_key_count_request (e : ApiRateLimit) (now : Z) (r : ApiRateLimit) :
  window_key (count_request e now r) = window_key r.
Proof. unfold count_request. destruct (Nat.eqb (rl_id r) (rl_id e)); reflexivity. Qed.

Lemma single_In {A} (l : list A) (x : A) : single l = Some x -> In x l.
Proof. intros H. apply single_inv in H. rewrite H. now left. Qed.

Lemma in_window_for_key (userId endpoint : string) (ws : Z) (r : ApiRateLimit) :
  in_window userId endpoint ws r = true -> for_key userId endpoint r = true.
Proof. unfold in_window, for_key. intros H. now apply andb_true_iff in H as [H _]. Qed.

(** A lookup that selects no single row opens a window. *)
Lemma check_opens_window (zone : Zone) (now : Z) (userId endpoint : string) (maxRequests : Z)
    (w : World) :
  single (filter (in_window userId endpoint (windowStart zone now))
                 (api_rate_limits w))
    = None ->
  checkRateLimit None zone now userId endpoint maxRequests w
  = (true,
     with_rate_limits
       (api_rate_limits w ++
        [{| rl_id := next_id w; rl_user_id := userId; rl_endpoint := endpoint;
            request_count := 1; window_start := now;
            max_requests := maxRequests; rl_updated_at := now |}])
       (S (next_id w)) w).
Proof. intros H. unfold checkRateLimit. now rewrite H. Qed.

End RateLimitMore.

(** X7. A rate-limit check never removes a window and never changes
    the identity, owner, operation or start of one; it adds at most one
    row; and a denied request leaves all stores exactly as they were. *)
Theorem rate_limit_only_adds :
  forall (fetchError : option string) (zone : ProxyDatabase.Zone) (now : Z) (userId endpoint : string)
         (maxRequests : Z) (w : Db.World),
    let answer := ProxyDatabase.checkRateLimit fetchError zone now userId endpoint
                    maxRequests w in
    (fst answer = false -> snd answer = w)
    /\ exists added,
         map Inv.window_key (Db.api_rate_limits (snd answer))
         = map Inv.window_key (Db.api_rate_limits w) ++ map Inv.window_key added
         /\ List.length added <= 1.
Proof.
  intros fetchError zone now userId endpoint maxRequests w answer. subst answer.
  unfold ProxyDatabase.checkRateLimit.
  destruct fetchError as [code|].
  - destruct (negb (String.eqb code "PGRST116")); cbn.
    + split; [discriminate|]. exists []. cbn. rewrite app_nil_r. split; [reflexivity|lia].
    + split; [discriminate|]. eexists [_]. rewrite map_app. cbn. split; [reflexivity|lia].
  - destruct (Db.single _) as [e|]; cbn.
    + destruct (maxRequests <=? Db.request_count e)%Z; cbn.
      * split; [reflexivity|]. exists []. cbn. rewrite app_nil_r. split; [reflexivity|lia].
      * split; [discriminate|]. exists []. cbn. rewrite app_nil_r, map_map.
        split; [|lia]. apply map_ext. intros r. apply window_key_count_request.
    + split; [discriminate|]. eexists [_]. rewrite map_app. cbn. split; [reflexivity|lia].
Qed.

(** X8. Once two or more windows of a user and operation are selected
    by the lookup (as after two first requests that raced), the lookup
    finds no single row: every request is allowed, whatever the counts
    and the ceiling, and each adds one more window. *)
Theorem overlapping_windows_disable_limit :
  forall (zone : ProxyDatabase.Zone) (userId endpoint : string) (c : Z)
         (times : list Z) (w : Db.World),
    Forall (fun t =>
              2 <= List.length
                     (filter (ProxyDatabase.in_window userId endpoint
                                (ProxyDatabase.windowStart zone t))
                             (Db.api_rate_limits w))) times ->
    fst (Scenario.requests zone userId endpoint c times w)
      = repeat true (List.length times)
    /\ List.length (Db.api_rate_limits
                      (snd (Scenario.requests zone userId endpoint c times w)))
       = List.length (Db.api_rate_limits w) + List.length times.
Proof.
  intros zone userId endpoint c times w H.
  assert (G : forall (ts : list Z) (w' : Db.World) (extra : list Db.ApiRateLimit),
    Forall (fun t =>
              2 <= List.length
                     (filter (ProxyDatabase.in_window userId endpoint
                                (ProxyDatabase.windowStart zone t))
                             (Db.api_rate_limits w))) ts ->
    Db.api_rate_limits w' = Db.api_rate_limits w ++ extra ->
    fst (Scenario.requests zone userId endpoint c ts w') = repeat true (List.length ts)
    /\ List.length (Db.api_rate_limits
                      (snd (Scenario.requests zone userId endpoint c ts w')))
       = List.length (Db.api_rate_limits w') + List.length ts).
  { induction ts as [|t ts IH]; intros w' extra Hts Hrows.
    - cbn. auto.
    - inversion Hts as [|? ? Ht Hrest]; subst.
      cbn [Scenario.requests].
      rewrite check_opens_window.
      2:{ rewrite Hrows, filter_app.
          destruct (filter _ (Db.api_rate_limits w)) as [|a [|b l]];
            cbn [List.length] in Ht; try lia. reflexivity. }
      match goal with
      | |- context [Scenario.requests _ _ _ _ ts ?w1] =>
        destruct (IH w1 (extra ++ [{| Db.rl_id := Db.next_id w';
                                      Db.rl_user_id := userId;
                                      Db.rl_endpoint := endpoint;
                                      Db.request_count := 1;
                                      Db.window_start := t;
                                      Db.max_requests := c;
                                      Db.rl_updated_at := t |}]) Hrest)
          as [A B];
          [cbn; now rewrite Hrows, <- app_assoc|];
        destruct (Scenario.requests zone userId endpoint c ts w1) as [oks w2]
      end.
      cbn [fst snd] in *. rewrite A, B. cbn. rewrite length_app. cbn.
      split; [reflexivity|]. lia. }
  apply (G times w []); [assumption|now rewrite app_nil_r].
Qed.

Section RateLimitInvariants.
Import Db ProxyDatabase Inv.

Lemma filter_map_same {A} (P : A -> bool) (f : A -> A) (l : list A) :
  (forall r, In r l -> f r = r \/ (P r = false /\ P (f r) = false)) ->
  filter P (map f l) = filter P l.
Proof.
  induction l as [|x xs IH]; intros H; [reflexivity|].
  cbn [map filter]. rewrite IH by (intros r Hr; apply H; now right).
  destruct (H x (or_introl eq_refl)) as [->|[-> ->]]; reflexivity.
Qed.

Lemma in_window_other_key (userId endpoint userId' endpoint' : string) (ws : Z)
    (r : ApiRateLimit) :
  userId' <> userId \/ endpoint' <> endpoint ->
  for_key userId endpoint r = true ->
  in_window userId' endpoint' ws r = false.
Proof.
  unfold for_key, in_window. intros Hne H.
  apply andb_true_iff in H as [Hu He].
  apply String.eqb_eq in Hu, He. rewrite Hu, He.
  destruct Hne as [Hne|Hne]; apply not_eq_sym, String.eqb_neq in Hne;
    rewrite Hne; [reflexivity|]. now rewrite andb_false_r.
Qed.

Lemma for_key_count_request (userId endpoint : string) (e : ApiRateLimit)
    (now : Z) (r : ApiRateLimit) :
  for_key userId endpoint (count_request e now r) = for_key userId endpoint r.
Proof. unfold count_request. destruct (Nat.eqb (rl_id r) (rl_id e)); reflexivity. Qed.

Lemma rl_id_count_request (e : ApiRateLimit) (now : Z) (rows : list ApiRateLimit) :
  map rl_id (map (count_request e now) rows) = map rl_id rows.
Proof.
  rewrite map_map. apply map_ext. intros r. unfold count_request.
  destruct (Nat.eqb (rl_id r) (rl_id e)); reflexivity.
Qed.

Lemma NoDup_snoc {A} (l : list A) (x : A) :
  NoDup l -> ~ In x l -> NoDup (l ++ [x]).
Proof.
  induction 1 as [|a l Ha Hl IH]; intros Hx; cbn.
  - constructor; [intros []|constructor].
  - constructor.
    + intros Hin. apply in_app_or in Hin as [Hin|[->|[]]]; [auto|].
      apply Hx. now left.
    + apply IH. intros Hin. apply Hx. now right.
Qed.

(** The cases of a check whose lookup went through. *)
Lemma checkRateLimit_cases (fetchError : option string) (zone : Zone) (now : Z)
    (userId endpoint : string) (maxRequests : Z) (w : World) :
  let w' := snd (checkRateLimit fetchError zone now userId endpoint maxRequests w) in
  w' = w
  \/ w' = with_rate_limits
            (api_rate_limits w ++
             [{| rl_id := next_id w; rl_user_id := userId;
                 rl_endpoint := endpoint; request_count := 1;
                 window_start := now; max_requests := maxRequests;
                 rl_updated_at := now |}])
            (S (next_id w)) w
  \/ exists existing,
       In existing (api_rate_limits w)
       /\ for_key userId endpoint existing = true
       /\ (request_count existing < maxRequests)%Z
       /\ w' = with_rate_limits
                 (map (count_request existing now) (api_rate_limits w))
                 (next_id w) w.
Proof.
  unfold checkRateLimit. destruct fetchError as [code|].
  - destruct (negb (String.eqb code "PGRST116")); cbn; auto.
  - destruct (single _) as [e|] eqn:E; cbn; [|auto].
    destruct (maxRequests <=? request_count e)%Z eqn:L; cbn; [auto|].
    right. right. exists e.
    apply single_In, filter_In in E as [Hin Hw].
    apply in_window_for_key in Hw. apply Z.leb_gt in L. auto.
Qed.

End RateLimitInvariants.

(** X9. Rate-limit rows keep distinct ids issued by the id generator,
    and with such ids a check for one user and operation leaves the
    windows of every other user or operation as they are: the same rows,
    with the same counts, are selected for them at any time. *)
Theorem rate_limit_keys_are_isolated :
  forall (fetchError : option string) (zone : ProxyDatabase.Zone) (now : Z) (userId endpoint : string)
         (maxRequests : Z) (w : Db.World),
    Inv.rate_ids_fresh w ->
    let w' := snd (ProxyDatabase.checkRateLimit fetchError zone now userId endpoint
                     maxRequests w) in
    Inv.rate_ids_fresh w'
    /\ forall (userId' endpoint' : string) (ws : Z),
         userId' <> userId \/ endpoint' <> endpoint ->
         filter (ProxyDatabase.in_window userId' endpoint' ws)
                (Db.api_rate_limits w')
         = filter (ProxyDatabase.in_window userId' endpoint' ws)
                  (Db.api_rate_limits w).
Proof.
  intros fetchError zone now userId endpoint maxRequests w [Hnd Hlt] w'.
  destruct (checkRateLimit_cases fetchError zone now userId endpoint maxRequests w)
    as [E|[E|(e & Hin & Hkey & _ & E)]]; fold w' in E; rewrite E; clear E.
  - split; [split; assumption|reflexivity].
  - unfold Inv.rate_ids_fresh. cbn. split.
    + split.
      * rewrite map_app. cbn. apply NoDup_snoc; [assumption|].
        intros Hin. apply in_map_iff in Hin as (r & Hr & Hin).
        rewrite Forall_forall in Hlt. specialize (Hlt r Hin). lia.
      * apply Forall_app. split.
        -- eapply Forall_impl; [|exact Hlt]. cbn. intros; lia.
        -- constructor; [cbn; lia|constructor].
    + intros u' e' ws Hne. rewrite filter_app. cbn [filter].
      rewrite (in_window_other_key userId endpoint u' e' ws _ Hne);
        [now rewrite app_nil_r|].
      unfold Inv.for_key. cbn. now rewrite !String.eqb_refl.
  - unfold Inv.rate_ids_fresh. cbn. split.
    + split.
      * now rewrite rl_id_count_request.
      * apply Forall_map. eapply Forall_impl; [|exact Hlt].
        intros r Hr. unfold ProxyDatabase.count_request.
        destruct (Nat.eqb _ _); exact Hr.
    + intros u' e' ws Hne. apply filter_map_same. intros r Hr.
      destruct (Nat.eq_dec (Db.rl_id r) (Db.rl_id e)) as [Hid|Hid].
      * right.
        assert (Hkey' : Inv.for_key userId endpoint r = true).
        { rewrite <- (for_key_count_request userId endpoint e now r).
          unfold ProxyDatabase.count_request.
          apply Nat.eqb_eq in Hid. rewrite Hid.
          unfold Inv.for_key in *. cbn.
          assert (r = e) as ->; [|assumption].
          apply Nat.eqb_eq in Hid.
          clear -Hnd Hin Hr Hid.
          induction (Db.api_rate_limits w) as [|x xs IH]; [contradiction|].
          cbn [map] in Hnd. inversion Hnd as [|? ? Hx Hxs]; subst.
          destruct Hin as [->|Hin], Hr as [->|Hr]; auto.
          - exfalso. apply Hx. rewrite <- Hid. now apply in_map.
          - exfalso. apply Hx. rewrite Hid. now apply in_map. }
        split.
        -- now apply (in_window_other_key userId endpoint).
        -- apply (in_window_other_key userId endpoint); [assumption|].
           now rewrite for_key_count_request.
      * left. unfold ProxyDatabase.count_request.
        apply Nat.eqb_neq in Hid. now rewrite Hid.
Qed.

Lemma rate_limit_keys_are_isolated_witness :
  filter (ProxyDatabase.in_window "u2" "/api/suna/status" 0)
         (Db.api_rate_limits
            (snd (ProxyDatabase.checkRateLimit None ProxyDatabase.UTC 1000 "u1" "/api/suna/status"
                    200 Db.empty)))
  = [].
Proof.
  assert (F : Inv.rate_ids_fresh Db.empty) by (split; constructor).
  destruct (rate_limit_keys_are_isolated None ProxyDatabase.UTC 1000 "u1" "/api/suna/status" 200
              Db.empty F) as [_ H].
  rewrite (H "u2" "/api/suna/status" 0%Z); [reflexivity|].
  left. discriminate.
Defined.

Section CeilingFacts.
Import Db ProxyDatabase Inv.

Lemma check_keeps_ceiling (fetchError : option string) (zone : Zone) (now : Z)
    (userId endpoint : string) (c : Z) (w : World) :
  (1 <= c)%Z ->
  Forall (fun r => for_key userId endpoint r = true -> (request_count r <= c)%Z)
         (api_rate_limits w) ->
  Forall (fun r => for_key userId endpoint r = true -> (request_count r <= c)%Z)
         (api_rate_limits (snd (checkRateLimit fetchError zone now userId endpoint c w))).
Proof.
  intros Hc H.
  destruct (checkRateLimit_cases fetchError zone now userId endpoint c w)
    as [E|[E|(e & Hin & Hkey & Hlt & E)]]; cbv zeta in E; rewrite E; clear E.
  - exact H.
  - cbn. apply Forall_app. split; [exact H|].
    constructor; [cbn; intros _; lia|constructor].
  - cbn. apply Forall_map. eapply Forall_impl; [|exact H].
    intros r Hr. unfold count_request.
    destruct (Nat.eqb (rl_id r) (rl_id e)); [cbn; intros _; lia|exact Hr].
Qed.

End CeilingFacts.

(** X10. With a ceiling of at least one, the counters of a user and
    operation never exceed the ceiling: if none does before a sequence
    of requests, none does after it, however many requests arrive and
    whenever. *)
Theorem counters_stay_within_ceiling :
  forall (zone : ProxyDatabase.Zone) (userId endpoint : string) (c : Z)
         (times : list Z) (w : Db.World),
    (1 <= c)%Z ->
    Forall (fun r => Inv.for_key userId endpoint r = true ->
                     (Db.request_count r <= c)%Z)
           (Db.api_rate_limits w) ->
    Forall (fun r => Inv.for_key userId endpoint r = true ->
                     (Db.request_count r <= c)%Z)
           (Db.api_rate_limits
              (snd (Scenario.requests zone userId endpoint c times w))).
Proof.
  intros zone userId endpoint c times w Hc. revert w.
  induction times as [|t ts IH]; intros w H; [exact H|].
  cbn [Scenario.requests].
  pose proof (check_keeps_ceiling None zone t userId endpoint c w Hc H) as H1.
  destruct (ProxyDatabase.checkRateLimit None zone t userId endpoint c w) as [ok w1].
  cbn [snd] in H1. specialize (IH w1 H1).
  destruct (Scenario.requests zone userId endpoint c ts w1) as [oks w2].
  exact IH.
Qed.

Lemma counters_stay_within_ceiling_witness :
  Forall (fun r => Inv.for_key "u1" "/api/suna/result" r = true ->
                   (Db.request_count r <= 2)%Z)
         (Db.api_rate_limits
            (snd (Scenario.requests ProxyDatabase.UTC "u1" "/api/suna/result" 2
                    [0; 10; 20; 4000000; 4000001; 4000002]%Z Db.empty))).
Proof.
  apply counters_stay_within_ceiling; [lia|constructor].
Defined.

Lemma overlapping_windows_disable_limit_witness :
  fst (Scenario.requests ProxyDatabase.UTC "u1" "/api/suna/generate" 50 [1000; 2000; 3000]%Z
         Samples.raced_world)
  = [true; true; true].
Proof.
  destruct (overlapping_windows_disable_limit ProxyDatabase.UTC "u1" "/api/suna/generate" 50
              [1000; 2000; 3000]%Z Samples.raced_world) as [H _].
  - repeat constructor.
  - exact H.
Defined.

(** ** Task mappings *)

Section MappingFacts.
Import Db ProxyDatabase.

Lemma filter_snoc_only {A} (P : A -> bool) (l : list A) (x : A) :
  Forall (fun y => P y = false) l -> P x = true -> filter P (l ++ [x]) = [x].
Proof.
  intros Hl Hx. rewrite filter_app, (filter_none P l Hl). cbn. now rewrite Hx.
Qed.

End MappingFacts.

(** X11. A mapping that is created can be read back: after
    [createSunaTaskMapping] for a task that had no mapping,
    [getSunaTaskMapping] of that task returns the row that was given. *)
Theorem created_mapping_is_found :
  forall (data : Db.SunaTaskMapping) (w : Db.World),
    Forall (fun m => Db.local_task_id m <> Db.local_task_id data)
           (Db.suna_task_mapping w) ->
    exists w',
      ProxyDatabase.createSunaTaskMapping None data w = Db.Ok w'
      /\ ProxyDatabase.getSunaTaskMapping None (Db.local_task_id data) w'
         = Db.Ok (Some data).
Proof.
  intros data w H. eexists. split; [reflexivity|].
  unfold ProxyDatabase.getSunaTaskMapping. cbn.
  rewrite filter_snoc_only; [reflexivity| |apply String.eqb_refl].
  eapply Forall_impl; [|exact H]. intros m Hm. now apply String.eqb_neq.
Qed.

Lemma created_mapping_is_found_witness :
  exists w',
    ProxyDatabase.createSunaTaskMapping None (Scenario.mapping1 "pending") Db.empty
      = Db.Ok w'
    /\ ProxyDatabase.getSunaTaskMapping None "task-1" w'
       = Db.Ok (Some (Scenario.mapping1 "pending")).
Proof.
  apply (created_mapping_is_found (Scenario.mapping1 "pending") Db.empty).
  constructor.
Defined.

Section UpdateFacts.
Import Db ProxyDatabase.

(** What is read after an update of the mappings of a task. *)
Lemma updateSunaTaskStatus_reads (now : Z) (localTaskId : string)
    (updates : Updates) (w : World) :
  let w' := with_mappings
              (map (fun m => if String.eqb (local_task_id m) localTaskId
                             then apply_updates now updates m else m)
                   (suna_task_mapping w)) w in
  updateSunaTaskStatus None now localTaskId updates w = Ok w'
  /\ (forall m,
        getSunaTaskMapping None localTaskId w = Ok (Some m) ->
        getSunaTaskMapping None localTaskId w'
        = Ok (Some (apply_updates now updates m)))
  /\ (forall other,
        other <> localTaskId ->
        getSunaTaskMapping None other w' = getSunaTaskMapping None other w)
  /\ (Forall (fun m => local_task_id m <> localTaskId) (suna_task_mapping w) ->
      suna_task_mapping w' = suna_task_mapping w).
Proof.
  cbv zeta. split; [reflexivity|].
  unfold getSunaTaskMapping. cbn.
  set (f := fun m => if String.eqb (local_task_id m) localTaskId
                     then apply_updates now updates m else m).
  assert (Hid : forall m, local_task_id (f m) = local_task_id m)
    by (intros m; unfold f; destruct (String.eqb _ _); reflexivity).
  assert (Hfilter : forall k,
    filter (fun m => String.eqb (local_task_id m) k)
           (map f (suna_task_mapping w))
    = map f (filter (fun m => String.eqb (local_task_id m) k)
                    (suna_task_mapping w))).
  { intros k. induction (suna_task_mapping w) as [|x xs IH]; [reflexivity|].
    cbn [map filter]. rewrite Hid, IH. now destruct (String.eqb _ k). }
  split; [|split].
  - intros m Hm. inversion Hm as [Hs]. rewrite Hfilter.
    apply single_inv in Hs.
    assert (Hin : In m (filter (fun m => String.eqb (local_task_id m) localTaskId)
                               (suna_task_mapping w)))
      by (rewrite Hs; now left).
    apply filter_In in Hin as [_ Hk].
    rewrite Hs. cbn. unfold f. now rewrite Hk.
  - intros other Hne. do 2 f_equal. apply filter_map_same. intros r _.
    unfold f. destruct (String.eqb (local_task_id r) localTaskId) eqn:E;
      [|now left].
    right. apply String.eqb_eq in E. cbn. rewrite E.
    apply not_eq_sym, String.eqb_neq in Hne. auto.
  - intros Hnone. rewrite <- (map_id (suna_task_mapping w)) at 2.
    apply map_ext_in. intros m Hm. rewrite Forall_forall in Hnone.
    unfold f. apply Hnone in Hm. apply String.eqb_neq in Hm. now rewrite Hm.
Qed.

End UpdateFacts.

(** X12. [updateSunaTaskStatus] changes the mapping of the given task
    and no other. A mapping that is found before is found after, with
    the same task, user, request data and retry counters, the time of
    the update, and each updatable column as its key says: kept when
    the key is absent, emptied when the key is [null], set when the key
    has a value (status and response data: kept or set). The mappings
    of other tasks are read as before. When the task has no mapping the
    call succeeds all the same and the table is left as it was: the
    missing row is neither reported nor created. *)
Theorem update_mapping_then_get :
  forall (now : Z) (localTaskId : string) (updates : ProxyDatabase.Updates)
         (w : Db.World),
    exists w',
      ProxyDatabase.updateSunaTaskStatus None now localTaskId updates w = Db.Ok w'
      /\ (forall m,
            ProxyDatabase.getSunaTaskMapping None localTaskId w = Db.Ok (Some m) ->
            exists m',
              ProxyDatabase.getSunaTaskMapping None localTaskId w'
              = Db.Ok (Some m')
              /\ Db.local_task_id m' = Db.local_task_id m
              /\ Db.m_user_id m' = Db.m_user_id m
              /\ Db.request_data m' = Db.request_data m
              /\ Db.retry_count m' = Db.retry_count m
              /\ Db.max_retries m' = Db.max_retries m
              /\ Db.m_updated_at m' = now
              /\ Db.m_status m'
                 = match ProxyDatabase.u_status updates with
                   | Some s => s
                   | None => Db.m_status m
                   end
              /\ Db.response_data m'
                 = match ProxyDatabase.u_response_data updates with
                   | Some d => Some d
                   | None => Db.response_data m
                   end
              /\ Db.m_suna_thread_id m'
                 = match ProxyDatabase.u_suna_thread_id updates with
                   | Db.Absent => Db.m_suna_thread_id m
                   | Db.Nulled => None
                   | Db.Given v => Some v
                   end
              /\ Db.m_suna_agent_run_id m'
                 = match ProxyDatabase.u_suna_agent_run_id updates with
                   | Db.Absent => Db.m_suna_agent_run_id m
                   | Db.Nulled => None
                   | Db.Given v => Some v
                   end
              /\ Db.m_error_message m'
                 = match ProxyDatabase.u_error_message updates with
                   | Db.Absent => Db.m_error_message m
                   | Db.Nulled => None
                   | Db.Given v => Some v
                   end)
      /\ (forall other,
            other <> localTaskId ->
            ProxyDatabase.getSunaTaskMapping None other w'
            = ProxyDatabase.getSunaTaskMapping None other w)
      /\ (Forall (fun m => Db.local_task_id m <> localTaskId)
                 (Db.suna_task_mapping w) ->
          Db.suna_task_mapping w' = Db.suna_task_mapping w).
Proof.
  intros now localTaskId updates w.
  destruct (updateSunaTaskStatus_reads now localTaskId updates w)
    as (Hup & Hget & Hother & Hnone).
  eexists. split; [exact Hup|]. split; [|split; [exact Hother|exact Hnone]].
  intros m Hm. exists (ProxyDatabase.apply_updates now updates m).
  split; [exact (Hget m Hm)|].
  unfold ProxyDatabase.apply_updates.
  cbn [Db.local_task_id Db.m_user_id Db.request_data Db.retry_count
       Db.max_retries Db.m_updated_at Db.m_status Db.response_data
       Db.m_suna_thread_id Db.m_suna_agent_run_id Db.m_error_message].
  unfold Db.assign.
  split; [reflexivity|]. split; [reflexivity|]. split; [reflexivity|].
  split; [reflexivity|]. split; [reflexivity|]. split; [reflexivity|].
  split; [reflexivity|]. split; [reflexivity|]. split; [reflexivity|].
  split; reflexivity.
Qed.

Lemma update_mapping_then_get_witness :
  exists w' m',
    ProxyDatabase.updateSunaTaskStatus None 5 "task-1"
      {| ProxyDatabase.u_suna_thread_id := Db.Absent;
         ProxyDatabase.u_suna_agent_run_id := Db.Given "run-2";
         ProxyDatabase.u_status := Some "processing";
         ProxyDatabase.u_response_data := None;
         ProxyDatabase.u_error_message := Db.Nulled |}
      Samples.retried_world = Db.Ok w'
    /\ ProxyDatabase.getSunaTaskMapping None "task-1" w' = Db.Ok (Some m')
    /\ Db.m_status m' = "processing"
    /\ Db.m_suna_thread_id m' = Some "thread-1"
    /\ Db.m_suna_agent_run_id m' = Some "run-2"
    /\ Db.m_error_message m' = None
    /\ Db.retry_count m' = 1%Z.
Proof.
  destruct (update_mapping_then_get 5 "task-1"
              {| ProxyDatabase.u_suna_thread_id := Db.Absent;
                 ProxyDatabase.u_suna_agent_run_id := Db.Given "run-2";
                 ProxyDatabase.u_status := Some "processing";
                 ProxyDatabase.u_response_data := None;
                 ProxyDatabase.u_error_message := Db.Nulled |}
              Samples.retried_world)
    as (w' & Hup & Hget & _).
  destruct (Hget Samples.retried_mapping ltac:(vm_compute; reflexivity))
    as (m' & Hm' & _ & _ & _ & Hretry & _ & _ & Hst & _ & Hth & Hrun & Herr).
  exists w', m'.
  split; [exact Hup|]. split; [exact Hm'|]. split; [exact Hst|].
  split; [exact Hth|]. split; [exact Hrun|]. split; [exact Herr|exact Hretry].
Defined.

(** ** Status route *)

Section StatusMore.
Import Db ProxyDatabase Http StatusRoute Touch.

Lemma map_task_keys (taskId : string) (f : Task -> Task) (tasks : list Task) :
  (forall t, owner_key (f t) = owner_key t) ->
  map owner_key (map (fun t => if String.eqb (id t) taskId then f t else t) tasks)
  = map owner_key tasks.
Proof.
  intros Hf. rewrite map_map. apply map_ext. intros t.
  destruct (String.eqb (id t) taskId); auto.
Qed.

Lemma map_task_others (taskId : string) (f : Task -> Task) (tasks : list Task) :
  (forall t, id (f t) = id t) ->
  other_tasks taskId (map (fun t => if String.eqb (id t) taskId then f t else t) tasks)
  = other_tasks taskId tasks.
Proof.
  intros Hf. unfold other_tasks. apply filter_map_same. intros t _.
  destruct (String.eqb (id t) taskId) eqn:E; [|now left].
  right. now rewrite Hf, E.
Qed.

Lemma updateSunaTaskStatus_confined (error : option string) (now : Z)
    (taskId : string) (u : Updates) (w w' : World) :
  updateSunaTaskStatus error now taskId u w = Ok w' ->
  story_generation_tasks w' = story_generation_tasks w
  /\ map local_task_id (suna_task_mapping w') = map local_task_id (suna_task_mapping w)
  /\ other_mappings taskId (suna_task_mapping w')
     = other_mappings taskId (suna_task_mapping w)
  /\ storybooks w' = storybooks w /\ storybook_pages w' = storybook_pages w
  /\ ext_calls w' = ext_calls w.
Proof.
  unfold updateSunaTaskStatus. destruct error; [discriminate|].
  intros H. inversion H; subst. cbn. repeat split.
  - rewrite map_map. apply map_ext. intros m.
    destruct (String.eqb (local_task_id m) taskId); reflexivity.
  - unfold other_mappings. apply filter_map_same. intros m _.
    destruct (String.eqb (local_task_id m) taskId) eqn:E; [|now left].
    right. cbn. now rewrite E.
Qed.

(** What the poll block may touch. *)
Lemma poll_and_update_confined (se : Env) (taskId userId runId : string)
    (task : Task) (w : World) :
  let w' := snd (poll_and_update se taskId userId runId task w) in
  map owner_key (story_generation_tasks w') = map owner_key (story_generation_tasks w)
  /\ map local_task_id (suna_task_mapping w') = map local_task_id (suna_task_mapping w)
  /\ other_tasks taskId (story_generation_tasks w')
     = other_tasks taskId (story_generation_tasks w)
  /\ other_mappings taskId (suna_task_mapping w')
     = other_mappings taskId (suna_task_mapping w)
  /\ storybooks w' = storybooks w /\ storybook_pages w' = storybook_pages w
  /\ (ext_calls w' = ext_calls w \/ ext_calls w' = ext_calls w ++ [CallPoll runId]).
Proof.
  unfold poll_and_update.
  destruct (truthy (session_jwt se)); [|cbn; auto 10].
  destruct (poll se) as [msg|code txt|msg|sunaData]; try (cbn; auto 10).
  destruct (sd_status sunaData) as [s|]; [|cbn; auto 10].
  destruct (String.eqb s "completed" || String.eqb s "failed")%bool; [|cbn; auto 10].
  match goal with
  | |- context [updateSunaTaskStatus ?e ?n ?t ?u ?w0] =>
    destruct (updateSunaTaskStatus e n t u w0) as [w2|msg] eqn:E
  end.
  - apply updateSunaTaskStatus_confined in E as (E1 & E2 & E3 & E4 & E5 & E6).
    cbn [snd]. rewrite E1, E2, E3, E4, E5, E6.
    cbn -[String.eqb other_tasks other_mappings owner_key].
    rewrite map_task_keys, map_task_others by reflexivity. auto 10.
  - cbn -[String.eqb other_tasks other_mappings owner_key].
    rewrite map_task_keys, map_task_others by reflexivity. auto 10.
Qed.

End StatusMore.

(** X13. A status check is confined to its task: it never adds, removes
    or re-owns a task or a mapping, never changes a task or a mapping of
    another id, never touches storybooks or pages, and makes at most one
    request to the external service, a poll. *)
Theorem status_check_is_confined :
  forall (se : StatusRoute.Env) (w : Db.World),
    let w' := snd (StatusRoute.GET se w) in
    map Touch.owner_key (Db.story_generation_tasks w')
      = map Touch.owner_key (Db.story_generation_tasks w)
    /\ map Db.local_task_id (Db.suna_task_mapping w')
       = map Db.local_task_id (Db.suna_task_mapping w)
    /\ (forall taskId,
          StatusRoute.task_id_param se = Some taskId ->
          Touch.other_tasks taskId (Db.story_generation_tasks w')
            = Touch.other_tasks taskId (Db.story_generation_tasks w)
          /\ Touch.other_mappings taskId (Db.suna_task_mapping w')
             = Touch.other_mappings taskId (Db.suna_task_mapping w))
    /\ Db.storybooks w' = Db.storybooks w
    /\ Db.storybook_pages w' = Db.storybook_pages w
    /\ (Db.ext_calls w' = Db.ext_calls w
        \/ exists runId, Db.ext_calls w' = Db.ext_calls w ++ [Db.CallPoll runId]).
Proof.
  intros se w w'. subst w'. unfold StatusRoute.GET.
  destruct (negb (Http.truthy (StatusRoute.task_id_param se))); [cbn; auto 10|].
  destruct (StatusRoute.auth_user se) as [userId|]; [|cbn; auto 10].
  pose proof (checkRateLimit_frame (Db.rate_limit_select (StatusRoute.faults se)) (StatusRoute.zone se)
                (StatusRoute.now se) userId StatusRoute.ENDPOINT 200 w) as F.
  cbv zeta in F.
  destruct (ProxyDatabase.checkRateLimit _ _ _ _ StatusRoute.ENDPOINT _ w) as [ok w1].
  cbn [snd] in F. destruct F as (F1 & F2 & F3 & F4 & _ & F6 & _).
  rewrite <- F1, <- F2, <- F3, <- F4, <- F6.
  destruct (negb ok); [cbn; auto 10|].
  destruct (Http.select_task _ _ _ w1) as [task|]; [|cbn; auto 10].
  destruct (ProxyDatabase.getSunaTaskMapping _ _ w1) as [[m|]|msg];
    [| cbn; auto 10
     | unfold StatusRoute.internal_error;
       destruct (Http.truthy (Some userId)); cbn; auto 10].
  destruct (String.eqb (Db.status task) "processing"
            && Http.truthy (Db.m_suna_agent_run_id m))%bool; [|cbn; auto 10].
  match goal with
  | |- context [StatusRoute.poll_and_update ?a ?b ?c ?d ?e ?f] =>
    pose proof (poll_and_update_confined a b c d e f) as P;
    destruct (StatusRoute.poll_and_update a b c d e f) as [task' w2]
  end.
  cbv zeta in P. cbn [snd] in P.
  destruct P as (P1 & P2 & P3 & P4 & P5 & P6 & P7).
  cbn -[Touch.other_tasks Touch.other_mappings Touch.owner_key].
  repeat split; auto.
  - destruct (StatusRoute.task_id_param se); inversion H; subst; assumption.
  - destruct (StatusRoute.task_id_param se); inversion H; subst; assumption.
  - destruct P7 as [P7|P7]; [now left|right; eauto].
Qed.

Lemma status_check_is_confined_witness :
  Touch.other_tasks "task-1"
    (Db.story_generation_tasks
       (snd (StatusRoute.GET (Scenario.status_env (Scenario.reports "failed"))
                             (Scenario.world1 "processing" true))))
  = Touch.other_tasks "task-1"
      (Db.story_generation_tasks (Scenario.world1 "processing" true)).
Proof.
  destruct (status_check_is_confined
              (Scenario.status_env (Scenario.reports "failed"))
              (Scenario.world1 "processing" true)) as (_ & _ & H & _).
  destruct (H "task-1" eq_refl) as [H1 _]. exact H1.
Defined.

Section StatusBranches.
Import Db ProxyDatabase Http StatusRoute.

(** A status check that finds the task and its mapping. *)
Lemma status_GET_found (se : Env) (w : World) (taskId userId : string)
    (task : Task) (m : SunaTaskMapping) :
  taskId <> EmptyString ->
  task_id_param se = Some taskId ->
  auth_user se = Some userId ->
  fst (checkRateLimit (rate_limit_select (faults se)) (zone se) (now se)
                      userId ENDPOINT 200 w) = true ->
  select_task (task_select (faults se)) taskId userId w = Some task ->
  getSunaTaskMapping (mapping_select (faults se)) taskId w = Ok (Some m) ->
  GET se w
  = let w1 := snd (checkRateLimit (rate_limit_select (faults se))
                                  (zone se) (now se)
                                  userId ENDPOINT 200 w) in
    let '(task', w2) :=
      if String.eqb (status task) "processing"
         && truthy (m_suna_agent_run_id m)
      then poll_and_update se taskId userId
             (match m_suna_agent_run_id m with Some r => r | None => EmptyString end)
             task w1
      else (task, w1) in
    respond 200
      (TaskState taskId (status task') (completed_at task') (error_message task')
                 (m_suna_thread_id m) (m_suna_agent_run_id m))
      (logRequest {| pr_user_id := userId; pr_endpoint := ENDPOINT;
                     method := "GET"; status_code := 200 |} w2).
Proof.
  intros Hne Hp Ha Hr Htask Hmap.
  pose proof (checkRateLimit_frame (rate_limit_select (faults se))
                (zone se) (now se)
                userId ENDPOINT 200 w) as F.
  cbv zeta in F. destruct F as (F1 & F2 & _).
  unfold GET. enter_route Hne Hp Ha ENDPOINT w w1.
  rewrite (select_task_frame _ _ _ w w1 F1), Htask.
  rewrite (getSunaTaskMapping_frame _ _ w w1 F2), Hmap. reflexivity.
Qed.

End StatusBranches.

(** X14. A status check on a task that is not in processing (pending,
    completed, failed or anything else) asks the external service
    nothing and changes neither tasks nor mappings: it reports the local
    state. A terminal status is therefore final under status checks. *)
Theorem settled_task_is_not_polled :
  forall (se : StatusRoute.Env) (w : Db.World) (taskId userId : string)
         (task : Db.Task) (m : Db.SunaTaskMapping),
    taskId <> EmptyString ->
    StatusRoute.task_id_param se = Some taskId ->
    StatusRoute.auth_user se = Some userId ->
    fst (ProxyDatabase.checkRateLimit
           (Db.rate_limit_select (StatusRoute.faults se))
               (StatusRoute.zone se) (StatusRoute.now se)
           userId StatusRoute.ENDPOINT 200 w) = true ->
    Http.select_task (Db.task_select (StatusRoute.faults se)) taskId userId w
      = Some task ->
    ProxyDatabase.getSunaTaskMapping
      (Db.mapping_select (StatusRoute.faults se)) taskId w = Db.Ok (Some m) ->
    Db.status task <> "processing" ->
    let w' := snd (StatusRoute.GET se w) in
    fst (StatusRoute.GET se w)
      = {| Http.http_status := 200;
           Http.body :=
             StatusRoute.TaskState taskId (Db.status task) (Db.completed_at task)
               (Db.error_message task)
               (Db.m_suna_thread_id m) (Db.m_suna_agent_run_id m) |}
    /\ Db.story_generation_tasks w' = Db.story_generation_tasks w
    /\ Db.suna_task_mapping w' = Db.suna_task_mapping w
    /\ Db.ext_calls w' = Db.ext_calls w.
Proof.
  intros se w taskId userId task m Hne Hp Ha Hr Htask Hmap Hst w'. subst w'.
  pose proof (checkRateLimit_frame (Db.rate_limit_select (StatusRoute.faults se)) (StatusRoute.zone se)
                (StatusRoute.now se) userId StatusRoute.ENDPOINT 200 w) as F.
  cbv zeta in F. destruct F as (F1 & F2 & _ & _ & _ & F6 & _).
  rewrite (status_GET_found se w taskId userId task m) by assumption.
  set (w1 := snd (ProxyDatabase.checkRateLimit _ _ _ _ _ _ w)) in *.
  apply String.eqb_neq in Hst. rewrite Hst. cbn. auto.
Qed.

Lemma settled_task_is_not_polled_witness :
  Db.ext_calls
    (snd (StatusRoute.GET (Scenario.status_env (Scenario.reports "failed"))
                          (Scenario.world1 "completed" true)))
  = [].
Proof.
  assert (Hne : "task-1" <> EmptyString) by discriminate.
  destruct (settled_task_is_not_polled
              (Scenario.status_env (Scenario.reports "failed"))
              (Scenario.world1 "completed" true) "task-1" "u1"
              (Scenario.task1 "completed") (Scenario.mapping1 "completed")
              Hne eq_refl eq_refl ltac:(vm_compute; reflexivity)
              ltac:(vm_compute; reflexivity) ltac:(vm_compute; reflexivity)
              ltac:(discriminate))
    as (_ & _ & _ & H).
  exact H.
Defined.

(** X15. When the write-through of a terminal status reaches the task
    but the update of the mapping is rejected, the error is absorbed:
    the task row carries the terminal status, the mapping table is as
    it was, and the response still reports processing, with code 200. *)
Theorem rejected_mapping_update_leaves_task_ahead :
  forall (se : StatusRoute.Env) (w : Db.World) (taskId userId runId : string)
         (task : Db.Task) (m : Db.SunaTaskMapping)
         (sunaData : Db.SunaData) (s message : string),
    taskId <> EmptyString ->
    StatusRoute.task_id_param se = Some taskId ->
    StatusRoute.auth_user se = Some userId ->
    fst (ProxyDatabase.checkRateLimit
           (Db.rate_limit_select (StatusRoute.faults se))
               (StatusRoute.zone se) (StatusRoute.now se)
           userId StatusRoute.ENDPOINT 200 w) = true ->
    Http.select_task (Db.task_select (StatusRoute.faults se)) taskId userId w
      = Some task ->
    ProxyDatabase.getSunaTaskMapping
      (Db.mapping_select (StatusRoute.faults se)) taskId w = Db.Ok (Some m) ->
    Db.status task = "processing" ->
    Db.m_suna_agent_run_id m = Some runId ->
    runId <> EmptyString ->
    Http.truthy (StatusRoute.session_jwt se) = true ->
    StatusRoute.poll se = Http.Data sunaData ->
    Db.sd_status sunaData = Some s ->
    Scenario.terminal s ->
    Db.mapping_update (StatusRoute.faults se) = Some message ->
    let w' := snd (StatusRoute.GET se w) in
    fst (StatusRoute.GET se w)
      = {| Http.http_status := 200;
           Http.body :=
             StatusRoute.TaskState taskId "processing" (Db.completed_at task)
               (Db.error_message task)
               (Db.m_suna_thread_id m) (Db.m_suna_agent_run_id m) |}
    /\ Forall (fun t => Db.id t = taskId -> Db.status t = s)
              (Db.story_generation_tasks w')
    /\ (exists t, In t (Db.story_generation_tasks w') /\ Db.id t = taskId)
    /\ Db.suna_task_mapping w' = Db.suna_task_mapping w.
Proof.
  intros se w taskId userId runId task m sunaData s message
         Hne Hp Ha Hr Htask Hmap Hst Hrun Hrne Hjwt Hpoll Hs Hterm Hfault w'.
  subst w'.
  pose proof (checkRateLimit_frame (Db.rate_limit_select (StatusRoute.faults se)) (StatusRoute.zone se)
                (StatusRoute.now se) userId StatusRoute.ENDPOINT 200 w) as F.
  cbv zeta in F. destruct F as (F1 & F2 & _).
  destruct (select_task_found _ _ _ _ _ Htask) as (Hin & Hid & _).
  rewrite (status_GET_found se w taskId userId task m) by assumption.
  rewrite Hst, Hrun, (truthy_some _ Hrne), String.eqb_refl.
  set (w1 := snd (ProxyDatabase.checkRateLimit _ _ _ _ _ _ w)) in *. cbv zeta.
  unfold StatusRoute.poll_and_update. rewrite Hjwt, Hpoll, Hs, Hfault.
  assert (Hcond : (String.eqb s "completed" || String.eqb s "failed")%bool = true)
    by (destruct Hterm as [-> | ->]; reflexivity).
  assert (Hnew : (if String.eqb s "completed" then "completed" else "failed") = s)
    by (destruct Hterm as [-> | ->]; reflexivity).
  rewrite Hcond, Hnew. cbn -[String.eqb]. rewrite F1, F2, Hst.
  split; [reflexivity|]. split; [|split; [|reflexivity]].
  - apply (map_selected Db.id taskId); auto.
  - apply (map_selected_in Db.id taskId) with (x := task); auto.
Qed.

Lemma rejected_mapping_update_leaves_task_ahead_witness :
  let se := {| StatusRoute.task_id_param := Some "task-1";
               StatusRoute.auth_user := Some "u1";
               StatusRoute.now := 1000;
               StatusRoute.zone := ProxyDatabase.UTC;
               StatusRoute.faults := Samples.update_fault;
               StatusRoute.session_jwt := Some "jwt-1";
               StatusRoute.poll := Scenario.reports "completed" |} in
  fst (StatusRoute.GET se (Scenario.world1 "processing" true))
  = {| Http.http_status := 200;
       Http.body := StatusRoute.TaskState "task-1" "processing" None None
                      (Some "thread-1") (Some "run-1") |}.
Proof.
  intros se.
  assert (Hne : "task-1" <> EmptyString) by discriminate.
  assert (Hrun : "run-1" <> EmptyString) by discriminate.
  destruct (rejected_mapping_update_leaves_task_ahead se
              (Scenario.world1 "processing" true) "task-1" "u1" "run-1"
              (Scenario.task1 "processing") (Scenario.mapping1 "processing")
              {| Db.sd_thread_id := Db.Absent; Db.sd_agent_run_id := Db.Absent;
                 Db.sd_status := Some "completed"; Db.sd_error := Db.Absent |}
              "completed" "connection reset"
              Hne eq_refl eq_refl ltac:(vm_compute; reflexivity)
              ltac:(vm_compute; reflexivity) ltac:(vm_compute; reflexivity)
              eq_refl eq_refl Hrun eq_refl eq_refl eq_refl
              (or_introl eq_refl) eq_refl)
    as (H & _).
  exact H.
Defined.

(** ** Ownership *)

Section OwnershipFacts.
Import Db Http Touch.

Lemma not_owned_not_selected (error : option string) (taskId userId : string)
    (w : World) :
  not_owned taskId userId w -> select_task error taskId userId w = None.
Proof.
  intros H. unfold select_task. destruct error; [reflexivity|].
  rewrite filter_none; [reflexivity|].
  eapply Forall_impl; [|exact H]. intros t Ht. cbn beta in *.
  destruct (String.eqb (id t) taskId) eqn:E1; [|reflexivity].
  apply String.eqb_eq in E1. apply Ht in E1. apply String.eqb_neq in E1.
  now rewrite E1.
Qed.

End OwnershipFacts.

(** X16. A task that belongs to another user is answered like a task
    that does not exist: when no task of the requested id is owned by
    the caller, whoever else may own one, the status route and the
    result route both answer 404 with the body "Task not found", send
    nothing to the external service and leave tasks, mappings and
    storybooks as they were. *)
Theorem foreign_task_is_not_found :
  forall (JSON_parse : jsstring -> option Json.value)
         (se : StatusRoute.Env) (re : ResultRoute.Env) (w : Db.World)
         (taskId userId : string),
    taskId <> EmptyString ->
    StatusRoute.task_id_param se = Some taskId ->
    ResultRoute.task_id_param re = Some taskId ->
    StatusRoute.auth_user se = Some userId ->
    ResultRoute.auth_user re = Some userId ->
    fst (ProxyDatabase.checkRateLimit
           (Db.rate_limit_select (StatusRoute.faults se))
               (StatusRoute.zone se) (StatusRoute.now se)
           userId StatusRoute.ENDPOINT 200 w) = true ->
    fst (ProxyDatabase.checkRateLimit
           (Db.rate_limit_select (ResultRoute.faults re))
               (ResultRoute.zone re) (ResultRoute.now re)
           userId ResultRoute.ENDPOINT 100 w) = true ->
    Touch.not_owned taskId userId w ->
    let ws := snd (StatusRoute.GET se w) in
    let wr := snd (ResultRoute.GET JSON_parse re w) in
    fst (StatusRoute.GET se w)
      = {| Http.http_status := 404;
           Http.body := StatusRoute.Error "Task not found" |}
    /\ fst (ResultRoute.GET JSON_parse re w)
       = {| Http.http_status := 404;
            Http.body := ResultRoute.Error "Task not found" |}
    /\ Db.story_generation_tasks ws = Db.story_generation_tasks w
    /\ Db.story_generation_tasks wr = Db.story_generation_tasks w
    /\ Db.suna_task_mapping ws = Db.suna_task_mapping w
    /\ Db.suna_task_mapping wr = Db.suna_task_mapping w
    /\ Db.storybooks wr = Db.storybooks w
    /\ Db.ext_calls ws = Db.ext_calls w
    /\ Db.ext_calls wr = Db.ext_calls w.
Proof.
  intros JSON_parse se re w taskId userId Hne Hps Hpr Has Har Hrs Hrr Hown ws wr.
  subst ws wr.
  pose proof (checkRateLimit_frame (Db.rate_limit_select (StatusRoute.faults se)) (StatusRoute.zone se)
                (StatusRoute.now se) userId StatusRoute.ENDPOINT 200 w) as Fs.
  pose proof (checkRateLimit_frame (Db.rate_limit_select (ResultRoute.faults re)) (ResultRoute.zone re)
                (ResultRoute.now re) userId ResultRoute.ENDPOINT 100 w) as Fr.
  cbv zeta in Fs, Fr.
  destruct Fs as (Fs1 & Fs2 & _ & _ & _ & Fs6 & _).
  destruct Fr as (Fr1 & Fr2 & Fr3 & _ & _ & Fr6 & _).
  assert (Es : StatusRoute.GET se w
               = StatusRoute.respond 404 (StatusRoute.Error "Task not found")
                   (ProxyDatabase.logError
                      {| Db.el_user_id := Some userId;
                         Db.el_endpoint := StatusRoute.ENDPOINT;
                         Db.error_type := "TASK_NOT_FOUND";
                         Db.el_error_message :=
                           String.append "Task not found: " taskId;
                         Db.severity := "warning" |}
                      (snd (ProxyDatabase.checkRateLimit
                              (Db.rate_limit_select (StatusRoute.faults se)) (StatusRoute.zone se)
                              (StatusRoute.now se) userId StatusRoute.ENDPOINT
                              200 w)))).
  { unfold StatusRoute.GET.
    enter_route Hne Hps Has StatusRoute.ENDPOINT w w1.
    rewrite (select_task_frame _ _ _ w w1 Fs1).
    now rewrite (not_owned_not_selected _ taskId userId w Hown). }
  assert (Er : ResultRoute.GET JSON_parse re w
               = ResultRoute.respond 404 (ResultRoute.Error "Task not found")
                   (ProxyDatabase.logError
                      {| Db.el_user_id := Some userId;
                         Db.el_endpoint := ResultRoute.ENDPOINT;
                         Db.error_type := "TASK_NOT_FOUND";
                         Db.el_error_message :=
                           String.append "Task not found: " taskId;
                         Db.severity := "warning" |}
                      (snd (ProxyDatabase.checkRateLimit
                              (Db.rate_limit_select (ResultRoute.faults re)) (ResultRoute.zone re)
                              (ResultRoute.now re) userId ResultRoute.ENDPOINT
                              100 w)))).
  { unfold ResultRoute.GET.
    enter_route Hne Hpr Har ResultRoute.ENDPOINT w w1.
    rewrite (select_task_frame _ _ _ w w1 Fr1).
    now rewrite (not_owned_not_selected _ taskId userId w Hown). }
  rewrite Es, Er. cbn -[ProxyDatabase.checkRateLimit].
  repeat split; assumption.
Qed.

Lemma foreign_task_is_not_found_witness :
  fst (ResultRoute.GET Json.parse_flat_object
         (Scenario.result_env Db.no_faults
            (ResultRoute.StreamBody (Some [Scenario.story_frame]) None))
         Samples.foreign_world)
  = {| Http.http_status := 404;
       Http.body := ResultRoute.Error "Task not found" |}.
Proof.
  assert (Hne : "task-1" <> EmptyString) by discriminate.
  destruct (foreign_task_is_not_found Json.parse_flat_object
              (Scenario.status_env (Scenario.reports "completed"))
              (Scenario.result_env Db.no_faults
                 (ResultRoute.StreamBody (Some [Scenario.story_frame]) None))
              Samples.foreign_world "task-1" "u1"
              Hne eq_refl eq_refl eq_refl eq_refl
              ltac:(vm_compute; reflexivity) ltac:(vm_compute; reflexivity))
    as (_ & H & _).
  - repeat constructor. intros _. discriminate.
  - exact H.
Defined.

(** ** Storybooks across requests *)

Section BooksFacts.
Import Db ProxyDatabase Http Inv.

Ltac books_step := solve [unfold same_books; cbn; repeat split; auto].

Lemma same_books_refl (w : World) : same_books w w.
Proof. books_step. Qed.

Lemma same_books_trans (a b c : World) :
  same_books a b -> same_books b c -> same_books a c.
Proof.
  unfold same_books. intros (A1 & A2 & A3) (B1 & B2 & B3).
  rewrite B1, B2, A1, A2. repeat split; auto. lia.
Qed.

Lemma same_books_check (fetchError : option string) (zone : Zone) (now : Z)
    (userId endpoint : string) (maxRequests : Z) (w : World) :
  same_books w (snd (checkRateLimit fetchError zone now userId endpoint maxRequests w)).
Proof.
  destruct (checkRateLimit_frame fetchError zone now userId endpoint maxRequests w)
    as (_ & _ & A & B & _ & _ & C).
  unfold same_books. auto.
Qed.

Lemma same_books_update (error : option string) (now : Z) (taskId : string)
    (u : Updates) (w w' : World) :
  updateSunaTaskStatus error now taskId u w = Ok w' -> same_books w w'.
Proof.
  unfold updateSunaTaskStatus. destruct error; [discriminate|].
  intros H. inversion H. books_step.
Qed.

Lemma same_books_ok (w w' : World) : same_books w w' -> books_ok w -> books_ok w'.
Proof.
  unfold same_books, books_ok. intros (A & B & C) (H1 & H2 & H3 & H4).
  rewrite A, B. repeat split; auto.
  - eapply Forall_impl; [|exact H2]. cbn. intros; lia.
  - eapply Forall_impl; [|exact H3]. cbn. intros; lia.
Qed.

Lemma same_books_poll (se : StatusRoute.Env) (taskId userId runId : string)
    (task : Task) (w : World) :
  same_books w (snd (StatusRoute.poll_and_update se taskId userId runId task w)).
Proof.
  unfold StatusRoute.poll_and_update.
  destruct (truthy (StatusRoute.session_jwt se)); [|books_step].
  destruct (StatusRoute.poll se) as [msg|code txt|msg|sunaData];
    try books_step.
  destruct (sd_status sunaData) as [s|]; [|books_step].
  destruct (String.eqb s "completed" || String.eqb s "failed")%bool;
    [|books_step].
  match goal with
  | |- context [updateSunaTaskStatus ?e ?n ?t ?u ?w0] =>
    destruct (updateSunaTaskStatus e n t u w0) as [w2|msg] eqn:E
  end.
  - apply same_books_update in E. cbn [snd].
    eapply same_books_trans; [|exact E]. books_step.
  - books_step.
Qed.

Lemma same_books_status (se : StatusRoute.Env) (w : World) :
  same_books w (snd (StatusRoute.GET se w)).
Proof.
  unfold StatusRoute.GET.
  destruct (negb (truthy (StatusRoute.task_id_param se))); [books_step|].
  destruct (StatusRoute.auth_user se) as [userId|]; [|books_step].
  pose proof (same_books_check (rate_limit_select (StatusRoute.faults se)) (StatusRoute.zone se)
                (StatusRoute.now se) userId StatusRoute.ENDPOINT 200 w) as F.
  destruct (checkRateLimit _ _ _ _ StatusRoute.ENDPOINT _ w) as [ok w1].
  cbn [snd] in F. eapply same_books_trans; [exact F|].
  destruct (negb ok); [books_step|].
  destruct (select_task _ _ _ w1) as [task|]; [|books_step].
  destruct (getSunaTaskMapping _ _ w1) as [[m|]|msg];
    [| books_step
     | unfold StatusRoute.internal_error;
       destruct (truthy (Some userId)); books_step].
  destruct (String.eqb (status task) "processing"
            && truthy (m_suna_agent_run_id m))%bool; [|books_step].
  match goal with
  | |- context [StatusRoute.poll_and_update ?a ?b ?c ?d ?e ?f] =>
    pose proof (same_books_poll a b c d e f) as P;
    destruct (StatusRoute.poll_and_update a b c d e f) as [task' w2]
  end.
  cbn [snd] in *. eapply same_books_trans; [exact P|]. books_step.
Qed.

Lemma same_books_initiate_failed (ge : GenerateRoute.Env)
    (userId taskId message : string) (w : World) :
  same_books w (snd (GenerateRoute.initiate_failed ge userId taskId message w)).
Proof.
  unfold GenerateRoute.initiate_failed.
  match goal with
  | |- context [updateSunaTaskStatus ?e ?n ?t ?u ?w0] =>
    destruct (updateSunaTaskStatus e n t u w0) as [w2|msg] eqn:E
  end.
  - apply same_books_update in E. cbn [snd].
    eapply same_books_trans; [|exact E]. books_step.
  - unfold GenerateRoute.internal_error.
    destruct (truthy (Some userId)); books_step.
Qed.

Lemma same_books_generate (ge : GenerateRoute.Env) (w : World) :
  same_books w (snd (GenerateRoute.POST ge w)).
Proof.
  unfold GenerateRoute.POST.
  destruct (GenerateRoute.request_body ge) as [requestData|];
    [|books_step].
  destruct (GenerateRoute.auth_user ge) as [userId|]; [|books_step].
  pose proof (same_books_check (rate_limit_select (GenerateRoute.faults ge)) (GenerateRoute.zone ge)
                (GenerateRoute.now ge) userId GenerateRoute.ENDPOINT 50 w) as F.
  destruct (checkRateLimit _ _ _ _ GenerateRoute.ENDPOINT _ w) as [ok w1].
  cbn [snd] in F. eapply same_books_trans; [exact F|].
  destruct (negb ok); [books_step|].
  destruct (GenerateRoute.session_jwt ge) as [jwt|]; [|books_step].
  destruct (truthy (Some jwt)); [|books_step].
  destruct (task_insert (GenerateRoute.faults ge)); [books_step|].
  unfold createSunaTaskMapping.
  destruct (mapping_insert (GenerateRoute.faults ge)).
  { unfold GenerateRoute.internal_error.
    destruct (truthy (Some userId)); books_step. }
  unfold GenerateRoute.start_job.
  destruct (GenerateRoute.initiate ge) as [msg|code txt|msg|sunaData].
  - eapply same_books_trans; [|apply same_books_initiate_failed].
    books_step.
  - eapply same_books_trans; [|apply same_books_initiate_failed].
    books_step.
  - eapply same_books_trans; [|apply same_books_initiate_failed].
    books_step.
  - match goal with
    | |- context [updateSunaTaskStatus ?e ?n ?t ?u ?w0] =>
      destruct (updateSunaTaskStatus e n t u w0) as [w2|msg] eqn:E
    end.
    + apply same_books_update in E. cbn [snd].
      eapply same_books_trans; [|exact E]. books_step.
    + eapply same_books_trans; [|apply same_books_initiate_failed].
      books_step.
Qed.

(** The last step of the result route keeps storybooks in order. *)
Lemma store_or_return_ok (re : ResultRoute.Env) (taskId userId : string)
    (task : Task) (result : jsstring) (w : World) :
  storybook_select (ResultRoute.faults re) = None ->
  books_ok w ->
  books_ok (snd (ResultRoute.store_or_return re taskId userId task result w)).
Proof.
  intros Hf (H1 & H2 & H3 & H4).
  unfold ResultRoute.store_or_return, ResultRoute.lookup_storybook. rewrite Hf.
  destruct (ResultRoute.select_storybook taskId w) as [existing|] eqn:Hsel.
  { apply (same_books_ok w); [books_step|]. repeat split; auto. }
  destruct (Js.truthy _ && _)%bool;
    [|apply (same_books_ok w); [books_step|repeat split; auto]].
  destruct (storybook_insert (ResultRoute.faults re));
    [apply (same_books_ok w); [books_step|repeat split; auto]|].
  assert (Hnone : filter (fun b => String.eqb (generation_task_id b) taskId)
                         (storybooks w) = []).
  { unfold ResultRoute.select_storybook in Hsel.
    destruct (single (filter _ (storybooks w))) eqn:Hs; [discriminate|].
    apply single_none_short in Hs; [exact Hs|apply H1]. }
  assert (Hbooks : forall tid,
    List.length
      (filter (fun b => String.eqb (generation_task_id b) tid)
              (storybooks w ++
               [{| sb_id := next_id w;
                   sb_title := Parser.title (Parser.parseStoryContent result);
                   sb_description := story_description task;
                   generation_task_id := taskId;
                   sb_created_at := ResultRoute.now re |}])) <= 1).
  { intros tid. rewrite filter_app, length_app. cbn [filter generation_task_id].
    destruct (String.eqb taskId tid) eqn:E.
    - apply String.eqb_eq in E. subst tid. rewrite Hnone. cbn. lia.
    - cbn. specialize (H1 tid). lia. }
  assert (Hids : Forall (fun b => sb_id b < S (next_id w))
                        (storybooks w ++
                         [{| sb_id := next_id w;
                             sb_title := Parser.title (Parser.parseStoryContent result);
                             sb_description := story_description task;
                             generation_task_id := taskId;
                             sb_created_at := ResultRoute.now re |}])).
  { apply Forall_app. split.
    - eapply Forall_impl; [|exact H2]. cbn. intros; lia.
    - constructor; [cbn; lia|constructor]. }
  assert (Hpids : Forall (fun p => storybook_id p < S (next_id w)) (storybook_pages w))
    by (eapply Forall_impl; [|exact H3]; cbn; intros; lia).
  assert (Hrefs : Forall (fun p => In (storybook_id p)
                                      (map sb_id (storybooks w) ++ [next_id w]))
                         (storybook_pages w)).
  { eapply Forall_impl; [|exact H4]. intros p Hp. apply in_or_app. now left. }
  destruct (pages_insert (ResultRoute.faults re)).
  - cbn. unfold books_ok. cbn. rewrite map_app. cbn. repeat split; auto.
  - cbn. unfold books_ok. cbn. rewrite map_app. cbn. repeat split; auto.
    + apply Forall_app. split; [assumption|].
      eapply Forall_impl; [|apply page_rows_from_id].
      intros p Hp. cbn beta. rewrite Hp. lia.
    + apply Forall_app. split; [assumption|].
      eapply Forall_impl; [|apply page_rows_from_id].
      intros p Hp. cbn beta. rewrite Hp. apply in_or_app. right. now left.
Qed.

Lemma result_GET_ok (JSON_parse : jsstring -> option Json.value)
    (re : ResultRoute.Env) (w : World) :
  storybook_select (ResultRoute.faults re) = None ->
  books_ok w -> books_ok (snd (ResultRoute.GET JSON_parse re w)).
Proof.
  intros Hf H. unfold ResultRoute.GET.
  destruct (negb (truthy (ResultRoute.task_id_param re))); [exact H|].
  destruct (ResultRoute.auth_user re) as [userId|];
    [|apply (same_books_ok w); [books_step|exact H]].
  pose proof (same_books_check (rate_limit_select (ResultRoute.faults re)) (ResultRoute.zone re)
                (ResultRoute.now re) userId ResultRoute.ENDPOINT 100 w) as F.
  destruct (checkRateLimit _ _ _ _ ResultRoute.ENDPOINT _ w) as [ok w1].
  cbn [snd] in F. apply (same_books_ok w w1 F) in H. clear F.
  destruct (negb ok); [exact H|].
  destruct (select_task _ _ _ w1) as [task|];
    [|apply (same_books_ok w1); [books_step|exact H]].
  destruct (negb (String.eqb (status task) "completed")); [exact H|].
  destruct (getSunaTaskMapping _ _ w1) as [[m|]|msg];
    [| apply (same_books_ok w1); [books_step|exact H]
     | unfold ResultRoute.internal_error; destruct (truthy (Some userId));
       apply (same_books_ok w1); try books_step; exact H].
  destruct (truthy (m_suna_agent_run_id m));
    [|apply (same_books_ok w1); [books_step|exact H]].
  unfold ResultRoute.fetch_result.
  destruct (negb (truthy (ResultRoute.session_jwt re))); [exact H|].
  assert (Hc : books_ok (with_call (CallStream
                 match m_suna_agent_run_id m with Some r => r | None => EmptyString end) w1))
    by (apply (same_books_ok w1); [books_step|exact H]).
  destruct (ResultRoute.stream re) as [msg|code|reads [msg|]];
    try (apply (same_books_ok w1); [books_step|exact H]).
  now apply store_or_return_ok.
Qed.

End BooksFacts.

(** X17. Storybooks stay in order along every history of requests in
    which the storage answers the storybook lookup of each result fetch:
    if each task has at most one storybook, ids come from the id
    generator and every page belongs to a storybook on record, then the
    same holds after any such sequence of submit, status and result
    requests, whatever the external service and the other storage
    operations answer. The route does not read the error of that lookup
    and no uniqueness constraint guards the table: a lookup that fails
    reads as no storybook, and a second storybook is stored for the
    task. *)
Theorem storybooks_stay_unique :
  forall (JSON_parse : jsstring -> option Json.value)
         (requests : list History.Request) (w : Db.World),
    Forall History.answered requests ->
    Inv.books_ok w ->
    Inv.books_ok (History.run JSON_parse requests w).
Proof.
  intros JSON_parse requests. unfold History.run.
  induction requests as [|r rs IH]; intros w Ha H; [exact H|].
  inversion Ha as [|? ? Hr Hrs]; subst.
  cbn [fold_left]. apply IH; [exact Hrs|].
  destruct r as [ge|se|re]; cbn [History.serve].
  - apply (same_books_ok w); [apply same_books_generate|exact H].
  - apply (same_books_ok w); [apply same_books_status|exact H].
  - now apply result_GET_ok.
Qed.

Lemma storybooks_stay_unique_witness :
  List.length
    (Db.storybooks
       (History.run Json.parse_flat_object Lifecycle.requests Db.empty)) = 1
  /\ Inv.books_ok
       (History.run Json.parse_flat_object Lifecycle.requests Db.empty).
Proof.
  split; [vm_compute; reflexivity|].
  apply (storybooks_stay_unique Json.parse_flat_object Lifecycle.requests Db.empty).
  { repeat constructor. }
  unfold Inv.books_ok. cbn.
  split; [intros _; lia|]. split; [constructor|]. split; constructor.
Defined.

(** A result fetch whose storybook lookup the storage does not answer
    stores a second storybook for a task that has one. *)
Example unanswered_lookup_stores_second_storybook :
  let w := History.run Json.parse_flat_object Lifecycle.requests_unanswered
             Db.empty in
  map Db.generation_task_id (Db.storybooks w) = ["task-1"; "task-1"]
  /\ ~ Inv.books_ok w.
Proof.
  cbv zeta. split; [vm_compute; reflexivity|].
  intros [H _]. specialize (H "task-1"). vm_compute in H. lia.
Qed.

(** ** What the result route writes *)

Section ResultWrites.
Import Db ProxyDatabase Http ResultRoute Touch.

Variable JSON_parse : jsstring -> option Json.value.

Ltac nothing_added :=
  solve [ unfold appends; cbn;
          split; [reflexivity|]; split; [reflexivity|];
          split;
          [ exists [], []; rewrite !app_nil_r; cbn; auto 10
          | exists []; rewrite !app_nil_r; cbn; auto 10 ] ].

Lemma appends_after_check (fetchError : option string) (zone : Zone) (now : Z)
    (userId endpoint taskId : string) (maxRequests : Z) (w w' : World) :
  appends taskId (snd (checkRateLimit fetchError zone now userId endpoint maxRequests w)) w' ->
  appends taskId w w'.
Proof.
  destruct (checkRateLimit_frame fetchError zone now userId endpoint maxRequests w)
    as (A & B & C & D & _ & E & _).
  unfold appends. rewrite A, B, C, D, E. auto.
Qed.

Lemma appends_after_call (taskId runId : string) (w w' : World) :
  story_generation_tasks w' = story_generation_tasks w ->
  suna_task_mapping w' = suna_task_mapping w ->
  (exists books rows,
      storybooks w' = storybooks w ++ books
      /\ storybook_pages w' = storybook_pages w ++ rows
      /\ List.length books <= 1
      /\ Forall (fun b => generation_task_id b = taskId) books
      /\ Forall (fun p => In (storybook_id p) (map sb_id books)) rows) ->
  ext_calls w' = ext_calls w ++ [CallStream runId] ->
  appends taskId w w'.
Proof.
  intros A B C D. unfold appends. repeat split; auto.
  exists [CallStream runId]. repeat split; auto.
  constructor; [now exists runId|constructor].
Qed.

Lemma store_or_return_appends (re : Env) (taskId userId runId : string)
    (task : Task) (result : jsstring) (w : World) :
  appends taskId w
    (snd (store_or_return re taskId userId task result
            (with_call (CallStream runId) w))).
Proof.
  unfold store_or_return.
  destruct (lookup_storybook _ taskId _).
  { apply (appends_after_call taskId runId); cbn; auto.
    exists [], []. rewrite !app_nil_r. cbn. auto 10. }
  destruct (Js.truthy _ && _)%bool.
  2:{ apply (appends_after_call taskId runId); cbn; auto.
      exists [], []. rewrite !app_nil_r. cbn. auto 10. }
  destruct (storybook_insert (faults re)).
  { apply (appends_after_call taskId runId); cbn; auto.
    exists [], []. rewrite !app_nil_r. cbn. auto 10. }
  destruct (pages_insert (faults re)).
  - apply (appends_after_call taskId runId); cbn; auto.
    eexists [_], []. rewrite !app_nil_r. cbn. repeat split; auto.
  - apply (appends_after_call taskId runId); cbn; auto.
    eexists [_], _. cbn. repeat split; auto.
    eapply Forall_impl; [|apply page_rows_from_id].
    intros p Hp. cbn beta. rewrite Hp. now left.
Qed.

Lemma fetch_result_appends (re : Env) (taskId userId runId : string)
    (task : Task) (w : World) :
  appends taskId w (snd (fetch_result JSON_parse re taskId userId runId task w)).
Proof.
  unfold fetch_result.
  destruct (negb (truthy (session_jwt re))); [nothing_added|].
  destruct (stream re) as [msg|code|reads [msg|]];
    try (apply (appends_after_call taskId runId); cbn; auto;
         exists [], []; rewrite !app_nil_r; cbn; auto 10).
  apply store_or_return_appends.
Qed.

Lemma GET_appends (re : Env) (w : World) :
  appends (match task_id_param re with Some s => s | None => EmptyString end)
          w (snd (GET JSON_parse re w)).
Proof.
  unfold GET.
  destruct (negb (truthy (task_id_param re))); [nothing_added|].
  destruct (auth_user re) as [userId|]; [|nothing_added].
  apply (appends_after_check (rate_limit_select (faults re))
           (zone re) (now re) userId
           ENDPOINT _ 100).
  destruct (checkRateLimit _ _ _ _ ENDPOINT _ w) as [ok w1]. cbn [snd].
  destruct (negb ok); [nothing_added|].
  destruct (select_task _ _ _ w1) as [task|]; [|nothing_added].
  destruct (negb (String.eqb (status task) "completed")); [nothing_added|].
  destruct (getSunaTaskMapping _ _ w1) as [[m|]|msg];
    [| nothing_added
     | unfold internal_error; destruct (truthy (Some userId)); nothing_added].
  destruct (truthy (m_suna_agent_run_id m)); [|nothing_added].
  apply fetch_result_appends.
Qed.

(** The rate limiter writes no log. *)
Lemma checkRateLimit_logs (fetchError : option string) (zone : Zone) (now : Z)
    (userId endpoint : string) (maxRequests : Z) (w : World) :
  let w' := snd (checkRateLimit fetchError zone now userId endpoint maxRequests w) in
  error_logs w' = error_logs w /\ proxy_requests w' = proxy_requests w.
Proof.
  unfold checkRateLimit.
  destruct fetchError as [code|].
  - destruct (negb (String.eqb code "PGRST116")); simpl; auto.
  - destruct (single _) as [e|]; simpl.
    + destruct (maxRequests <=? request_count e)%Z; simpl; auto.
    + auto.
Qed.

End ResultWrites.

(** X18. Whatever the request, the stored data and the answers of the
    outside world, the result route changes no task and no mapping,
    removes or alters no storybook and no page, adds at most one
    storybook, which is for the requested task, adds pages of that
    storybook only, and sends at most one request to the external
    service, to the stream of a run. *)
Theorem result_route_only_appends :
  forall (JSON_parse : jsstring -> option Json.value)
         (re : ResultRoute.Env) (w : Db.World),
    let w' := snd (ResultRoute.GET JSON_parse re w) in
    let taskId := match ResultRoute.task_id_param re with
                  | Some s => s | None => EmptyString end in
    Db.story_generation_tasks w' = Db.story_generation_tasks w
    /\ Db.suna_task_mapping w' = Db.suna_task_mapping w
    /\ (exists books rows,
          Db.storybooks w' = Db.storybooks w ++ books
          /\ Db.storybook_pages w' = Db.storybook_pages w ++ rows
          /\ List.length books <= 1
          /\ Forall (fun b => Db.generation_task_id b = taskId) books
          /\ Forall (fun p => In (Db.storybook_id p) (map Db.sb_id books)) rows)
    /\ (exists calls,
          Db.ext_calls w' = Db.ext_calls w ++ calls
          /\ List.length calls <= 1
          /\ Forall (fun c => exists runId, c = Db.CallStream runId) calls).
Proof.
  intros JSON_parse re w. exact (GET_appends JSON_parse re w).
Qed.



(** X20. When the stream of a completed task cannot be opened, answers
    with a non-success code, or breaks while it is read, the result
    route answers with code 500 and the fetch-failure body, records the
    error text in the error log, and stores no storybook and no page:
    text received before the break is discarded, even when it holds a
    whole story. *)
Theorem broken_stream_stores_nothing :
  forall (JSON_parse : jsstring -> option Json.value)
         (re : ResultRoute.Env) (w : Db.World) (taskId userId runId : string)
         (task : Db.Task) (m : Db.SunaTaskMapping) (message : string),
    taskId <> EmptyString ->
    ResultRoute.task_id_param re = Some taskId ->
    ResultRoute.auth_user re = Some userId ->
    fst (ProxyDatabase.checkRateLimit
           (Db.rate_limit_select (ResultRoute.faults re))
               (ResultRoute.zone re) (ResultRoute.now re)
           userId ResultRoute.ENDPOINT 100 w) = true ->
    Http.select_task (Db.task_select (ResultRoute.faults re)) taskId userId w
      = Some task ->
    Db.status task = "completed" ->
    ProxyDatabase.getSunaTaskMapping
      (Db.mapping_select (ResultRoute.faults re)) taskId w = Db.Ok (Some m) ->
    Db.m_suna_agent_run_id m = Some runId ->
    runId <> EmptyString ->
    Http.truthy (ResultRoute.session_jwt re) = true ->
    Lifecycle.stream_failure (ResultRoute.stream re) = Some message ->
    let w' := snd (ResultRoute.GET JSON_parse re w) in
    fst (ResultRoute.GET JSON_parse re w)
      = {| Http.http_status := 500;
           Http.body := ResultRoute.FetchFailed taskId |}
    /\ Db.storybooks w' = Db.storybooks w
    /\ Db.storybook_pages w' = Db.storybook_pages w
    /\ Db.user_storybooks w' = Db.user_storybooks w
    /\ Db.ext_calls w' = Db.ext_calls w ++ [Db.CallStream runId]
    /\ Db.error_logs w'
       = Db.error_logs w
         ++ [{| Db.el_user_id := Some userId;
                Db.el_endpoint := ResultRoute.ENDPOINT;
                Db.error_type := "SUNA_RESULT_FETCH_FAILED";
                Db.el_error_message := message;
                Db.severity := "error" |}].
Proof.
  intros JSON_parse re w taskId userId runId task m message
         Hne Hp Ha Hr Htask Hst Hmap Hrun Hrne Hjwt Hfail w'. subst w'.
  pose proof (checkRateLimit_frame (Db.rate_limit_select (ResultRoute.faults re)) (ResultRoute.zone re)
                (ResultRoute.now re) userId ResultRoute.ENDPOINT 100 w) as F.
  pose proof (checkRateLimit_logs (Db.rate_limit_select (ResultRoute.faults re)) (ResultRoute.zone re)
                (ResultRoute.now re) userId ResultRoute.ENDPOINT 100 w) as L.
  cbv zeta in F, L. destruct F as (_ & _ & F3 & F4 & F5 & F6 & _).
  destruct L as (L1 & _).
  rewrite (GET_fetches JSON_parse re w taskId userId runId task m
             Hne Hp Ha Hr Htask Hst Hmap Hrun Hrne).
  set (w1 := snd (ProxyDatabase.checkRateLimit _ _ _ _ _ _ w)) in *.
  unfold ResultRoute.fetch_result. rewrite Hjwt. cbn [negb].
  destruct (ResultRoute.stream re) as [msg|code|reads [msg|]];
    cbn [Lifecycle.stream_failure] in Hfail; try discriminate;
    inversion Hfail; subst message;
    cbn; rewrite F3, F4, F5, F6, L1; auto 10.
Qed.

Lemma broken_stream_stores_nothing_witness :
  let re := Scenario.result_env Db.no_faults
              (ResultRoute.StreamBody (Some [Scenario.story_frame])
                 (Some "terminated")) in
  fst (ResultRoute.GET Json.parse_flat_object re (Scenario.world2 false))
    = {| Http.http_status := 500;
         Http.body := ResultRoute.FetchFailed "task-1" |}
  /\ Db.storybooks
       (snd (ResultRoute.GET Json.parse_flat_object re (Scenario.world2 false)))
     = [].
Proof.
  intros re.
  assert (Hne : "task-1" <> EmptyString) by discriminate.
  assert (Hrun : "run-1" <> EmptyString) by discriminate.
  destruct (broken_stream_stores_nothing Json.parse_flat_object re
              (Scenario.world2 false) "task-1" "u1" "run-1"
              (Scenario.task1 "completed") (Scenario.mapping1 "completed")
              "terminated"
              Hne eq_refl eq_refl ltac:(vm_compute; reflexivity)
              ltac:(vm_compute; reflexivity) eq_refl
              ltac:(vm_compute; reflexivity) eq_refl Hrun eq_refl eq_refl)
    as (H1 & H2 & _).
  split; [exact H1|exact H2].
Defined.

Section DenialFacts.
Import Db ProxyDatabase.

(** A denied request is not counted. *)
Lemma checkRateLimit_denied (fetchError : option string) (zone : Zone) (now : Z)
    (userId endpoint : string) (maxRequests : Z) (w : World) :
  fst (checkRateLimit fetchError zone now userId endpoint maxRequests w) = false ->
  snd (checkRateLimit fetchError zone now userId endpoint maxRequests w) = w.
Proof.
  unfold checkRateLimit.
  destruct fetchError as [code|].
  - destruct (negb (String.eqb code "PGRST116")); cbn; [discriminate|discriminate].
  - destruct (single _) as [e|]; cbn; [|discriminate].
    destruct (maxRequests <=? request_count e)%Z; cbn; [reflexivity|discriminate].
Qed.

End DenialFacts.

(** X21. A request that the rate limit denies is answered with code 429
    and leaves no trace on the status and result routes: the stores are
    exactly as before, so the denied request is neither counted in the
    window nor logged, and nothing is sent to the external service. The
    submit route differs in one thing: it records the denial in the
    error log. *)
Theorem denied_requests_are_not_counted :
  forall (JSON_parse : jsstring -> option Json.value) (w : Db.World)
         (userId : string),
    (forall (se : StatusRoute.Env) (taskId : string),
        taskId <> EmptyString ->
        StatusRoute.task_id_param se = Some taskId ->
        StatusRoute.auth_user se = Some userId ->
        fst (ProxyDatabase.checkRateLimit
               (Db.rate_limit_select (StatusRoute.faults se))
                   (StatusRoute.zone se) (StatusRoute.now se)
               userId StatusRoute.ENDPOINT 200 w) = false ->
        StatusRoute.GET se w
        = ({| Http.http_status := 429;
              Http.body := StatusRoute.Error
                             "Rate limit exceeded. Please try again later." |}, w))
    /\ (forall (re : ResultRoute.Env) (taskId : string),
          taskId <> EmptyString ->
          ResultRoute.task_id_param re = Some taskId ->
          ResultRoute.auth_user re = Some userId ->
          fst (ProxyDatabase.checkRateLimit
                 (Db.rate_limit_select (ResultRoute.faults re))
                     (ResultRoute.zone re) (ResultRoute.now re)
                 userId ResultRoute.ENDPOINT 100 w) = false ->
          ResultRoute.GET JSON_parse re w
          = ({| Http.http_status := 429;
                Http.body := ResultRoute.Error
                               "Rate limit exceeded. Please try again later." |}, w))
    /\ (forall (ge : GenerateRoute.Env) (requestData : Db.RequestData),
          GenerateRoute.request_body ge = Some requestData ->
          GenerateRoute.auth_user ge = Some userId ->
          fst (ProxyDatabase.checkRateLimit
                 (Db.rate_limit_select (GenerateRoute.faults ge)) (GenerateRoute.zone ge)
                 (GenerateRoute.now ge)
                 userId GenerateRoute.ENDPOINT 50 w) = false ->
          GenerateRoute.POST ge w
          = ({| Http.http_status := 429;
                Http.body := GenerateRoute.Error
                               "Rate limit exceeded. Please try again later." |},
             ProxyDatabase.logError
               {| Db.el_user_id := Some userId;
                  Db.el_endpoint := GenerateRoute.ENDPOINT;
                  Db.error_type := "RATE_LIMIT_EXCEEDED";
                  Db.el_error_message := "User exceeded rate limit";
                  Db.severity := "warning" |} w)).
Proof.
  intros JSON_parse w userId. split; [|split].
  - intros se taskId Hne Hp Ha Hr.
    pose proof (checkRateLimit_denied _ _ _ _ _ _ _ Hr) as Hw.
    unfold StatusRoute.GET. rewrite Hp, (truthy_some _ Hne), Ha. cbn [negb].
    destruct (ProxyDatabase.checkRateLimit _ _ _ _ StatusRoute.ENDPOINT _ w)
      as [ok w1].
    cbn [fst snd] in *. subst ok w1. reflexivity.
  - intros re taskId Hne Hp Ha Hr.
    pose proof (checkRateLimit_denied _ _ _ _ _ _ _ Hr) as Hw.
    unfold ResultRoute.GET. rewrite Hp, (truthy_some _ Hne), Ha. cbn [negb].
    destruct (ProxyDatabase.checkRateLimit _ _ _ _ ResultRoute.ENDPOINT _ w)
      as [ok w1].
    cbn [fst snd] in *. subst ok w1. reflexivity.
  - intros ge requestData Hb Ha Hr.
    pose proof (checkRateLimit_denied _ _ _ _ _ _ _ Hr) as Hw.
    unfold GenerateRoute.POST. rewrite Hb, Ha.
    destruct (ProxyDatabase.checkRateLimit _ _ _ _ GenerateRoute.ENDPOINT _ w)
      as [ok w1].
    cbn [fst snd] in *. subst ok w1. reflexivity.
Qed.

Lemma denied_requests_are_not_counted_witness :
  StatusRoute.GET (Scenario.status_env (Scenario.reports "completed"))
                  Samples.exhausted_world
  = ({| Http.http_status := 429;
        Http.body := StatusRoute.Error
                       "Rate limit exceeded. Please try again later." |},
     Samples.exhausted_world).
Proof.
  assert (Hne : "task-1" <> EmptyString) by discriminate.
  destruct (denied_requests_are_not_counted Json.parse_flat_object
              Samples.exhausted_world "u1") as (H & _).
  apply (H (Scenario.status_env (Scenario.reports "completed")) "task-1"
           Hne eq_refl eq_refl).
  vm_compute. reflexivity.
Defined.

(** ** What the submit route writes *)

Section SubmitFacts.
Import Db ProxyDatabase Http GenerateRoute Submit.

(** The row of a fresh key, selected after an update of that key. *)
Lemma select_after_update {A} (key : A -> string) (k : string) (P : A -> bool)
    (f : A -> A) (l : list A) (x : A) :
  Forall (fun y => key y <> k) l ->
  (forall y, P y = true -> key y = k) ->
  key x = k -> P (f x) = true ->
  filter P (map (fun y => if String.eqb (key y) k then f y else y) (l ++ [x]))
  = [f x].
Proof.
  intros Hl HP Hx Hfx. rewrite map_app, filter_app.
  rewrite filter_none.
  - cbn. apply String.eqb_eq in Hx. now rewrite Hx, Hfx.
  - apply Forall_map. eapply Forall_impl; [|exact Hl]. intros y Hy. cbn beta.
    apply String.eqb_neq in Hy as Hy'. rewrite Hy'.
    destruct (P y) eqn:E; [|reflexivity]. apply HP in E. contradiction.
Qed.

Lemma assign_none {A} (key : member A) : assign key None = value_of key.
Proof. now destruct key. Qed.

(** A submission that passes the checks and whose two rows are accepted
    goes on to start the job. *)
Lemma POST_starts (ge : Env) (w : World) (userId jwt : string)
    (requestData : RequestData) :
  request_body ge = Some requestData ->
  auth_user ge = Some userId ->
  fst (checkRateLimit (rate_limit_select (faults ge)) (zone ge) (now ge)
                      userId ENDPOINT 50 w) = true ->
  session_jwt ge = Some jwt ->
  jwt <> EmptyString ->
  task_insert (faults ge) = None ->
  mapping_insert (faults ge) = None ->
  POST ge w
  = let w1 := snd (checkRateLimit (rate_limit_select (faults ge))
                                  (zone ge) (now ge)
                                  userId ENDPOINT 50 w) in
    start_job ge userId (uuid ge) jwt
      (with_mappings (suna_task_mapping w1 ++ [pending_mapping ge userId requestData])
         (with_tasks (story_generation_tasks w1
                      ++ [pending_task ge userId requestData]) w1)).
Proof.
  intros Hbody Ha Hr Hjwt Hne Hf1 Hf2. unfold POST.
  rewrite Hbody, Ha.
  destruct (checkRateLimit _ _ _ _ ENDPOINT _ w) as [ok w1].
  cbn [fst snd] in *. subst ok. cbn [negb].
  rewrite Hjwt, (truthy_some _ Hne), Hf1.
  unfold createSunaTaskMapping. rewrite Hf2. reflexivity.
Qed.

(** The stores after the external service has accepted the job. *)
Lemma POST_accepted (ge : Env) (w : World) (userId jwt : string)
    (requestData : RequestData) (sunaData : SunaData) :
  request_body ge = Some requestData ->
  auth_user ge = Some userId ->
  fst (checkRateLimit (rate_limit_select (faults ge)) (zone ge) (now ge)
                      userId ENDPOINT 50 w) = true ->
  session_jwt ge = Some jwt ->
  jwt <> EmptyString ->
  task_insert (faults ge) = None ->
  mapping_insert (faults ge) = None ->
  mapping_update (faults ge) = None ->
  initiate ge = Data sunaData ->
  Forall (fun t => id t <> uuid ge) (story_generation_tasks w) ->
  Forall (fun m => local_task_id m <> uuid ge) (suna_task_mapping w) ->
  let w' := snd (POST ge w) in
  fst (POST ge w)
    = {| http_status := 200;
         body := Started (uuid ge) (value_of (sd_thread_id sunaData))
                         (value_of (sd_agent_run_id sunaData)) |}
  /\ (forall error,
        select_task error (uuid ge) userId w'
        = match error with
          | Some _ => None
          | None => Some (processing_task ge userId requestData sunaData)
          end)
  /\ (forall error,
        getSunaTaskMapping error (uuid ge) w'
        = match error with
          | Some message => Throw message
          | None => Ok (Some (processing_mapping ge userId requestData sunaData))
          end)
  /\ ext_calls w' = ext_calls w ++ [CallInitiate jwt]
  /\ error_logs w' = error_logs w
  /\ storybooks w' = storybooks w
  /\ storybook_pages w' = storybook_pages w.
Proof.
  intros Hbody Ha Hr Hjwt Hne Hf1 Hf2 Hf3 Hinit Ht Hm w'. subst w'.
  pose proof (checkRateLimit_frame (rate_limit_select (faults ge))
                (zone ge) (now ge)
                userId ENDPOINT 50 w) as F.
  pose proof (checkRateLimit_logs (rate_limit_select (faults ge))
                (zone ge) (now ge)
                userId ENDPOINT 50 w) as L.
  cbv zeta in F, L. destruct F as (F1 & F2 & F3 & F4 & _ & F6 & _).
  destruct L as (L1 & _).
  rewrite (POST_starts ge w userId jwt requestData Hbody Ha Hr Hjwt Hne Hf1 Hf2).
  cbv zeta.
  set (w1 := snd (checkRateLimit _ _ _ _ _ _ w)) in *.
  unfold start_job. rewrite Hinit. unfold updateSunaTaskStatus. rewrite Hf3.
  cbn -[String.eqb].
  rewrite F1, F2, F3, F4, F6, L1.
  split; [reflexivity|]. split; [|split; [|auto 10]].
  - intros [e|]; [reflexivity|]. unfold select_task. cbn -[String.eqb].
    rewrite (select_after_update id (uuid ge)); try assumption.
    + cbn. rewrite !assign_none. reflexivity.
    + intros y Hy. apply andb_true_iff in Hy as [Hy _]. now apply String.eqb_eq.
    + reflexivity.
    + cbn -[String.eqb]. now rewrite !String.eqb_refl.
  - intros [e|]; [reflexivity|]. unfold getSunaTaskMapping. cbn -[String.eqb].
    rewrite (select_after_update local_task_id (uuid ge)); try assumption.
    + cbn. unfold apply_updates. cbn. rewrite !assign_none. reflexivity.
    + intros y Hy. now apply String.eqb_eq.
    + reflexivity.
    + cbn -[String.eqb]. now rewrite String.eqb_refl.
Qed.

End SubmitFacts.

(** X22. A submission that passes the checks, whose rows the storage
    accepts and whose job the external service accepts, for a task id
    not yet in use: the answer is code 200 with the task id and the
    thread and run ids of the external job; the task is then found for
    its owner in status processing with those ids, its mapping is found
    in status processing with the request and the answer of the service
    recorded; one request was sent to the external service, with the
    token of the session, and no error was logged. *)
Theorem accepted_submission_is_recorded :
  forall (ge : GenerateRoute.Env) (w : Db.World) (userId jwt : string)
         (requestData : Db.RequestData) (sunaData : Db.SunaData),
    GenerateRoute.request_body ge = Some requestData ->
    GenerateRoute.auth_user ge = Some userId ->
    fst (ProxyDatabase.checkRateLimit
           (Db.rate_limit_select (GenerateRoute.faults ge))
               (GenerateRoute.zone ge) (GenerateRoute.now ge)
           userId GenerateRoute.ENDPOINT 50 w) = true ->
    GenerateRoute.session_jwt ge = Some jwt ->
    jwt <> EmptyString ->
    Db.task_insert (GenerateRoute.faults ge) = None ->
    Db.mapping_insert (GenerateRoute.faults ge) = None ->
    Db.mapping_update (GenerateRoute.faults ge) = None ->
    GenerateRoute.initiate ge = Http.Data sunaData ->
    Forall (fun t => Db.id t <> GenerateRoute.uuid ge)
           (Db.story_generation_tasks w) ->
    Forall (fun m => Db.local_task_id m <> GenerateRoute.uuid ge)
           (Db.suna_task_mapping w) ->
    let w' := snd (GenerateRoute.POST ge w) in
    fst (GenerateRoute.POST ge w)
      = {| Http.http_status := 200;
           Http.body :=
             GenerateRoute.Started (GenerateRoute.uuid ge)
               (Db.value_of (Db.sd_thread_id sunaData))
               (Db.value_of (Db.sd_agent_run_id sunaData)) |}
    /\ Http.select_task None (GenerateRoute.uuid ge) userId w'
       = Some (Submit.processing_task ge userId requestData sunaData)
    /\ ProxyDatabase.getSunaTaskMapping None (GenerateRoute.uuid ge) w'
       = Db.Ok (Some (Submit.processing_mapping ge userId requestData sunaData))
    /\ Db.ext_calls w' = Db.ext_calls w ++ [Db.CallInitiate jwt]
    /\ Db.error_logs w' = Db.error_logs w.
Proof.
  intros ge w userId jwt requestData sunaData
         Hbody Ha Hr Hjwt Hne Hf1 Hf2 Hf3 Hinit Ht Hm w'. subst w'.
  destruct (POST_accepted ge w userId jwt requestData sunaData
              Hbody Ha Hr Hjwt Hne Hf1 Hf2 Hf3 Hinit Ht Hm)
    as (H1 & H2 & H3 & H4 & H5 & _).
  split; [exact H1|]. split; [exact (H2 None)|]. split; [exact (H3 None)|].
  split; assumption.
Qed.

Lemma accepted_submission_is_recorded_witness :
  fst (GenerateRoute.POST (Scenario.generate_env Lifecycle.started) Db.empty)
  = {| Http.http_status := 200;
       Http.body := GenerateRoute.Started "task-1" (Some "thread-1")
                                          (Some "run-1") |}.
Proof.
  assert (Hne : "jwt-1" <> EmptyString) by discriminate.
  destruct (accepted_submission_is_recorded
              (Scenario.generate_env Lifecycle.started) Db.empty "u1" "jwt-1"
              {| Db.rq_story_description := "a rabbit searches for rainbow candy";
                 Db.rq_tags := ["adventure"; "friendship"];
                 Db.rq_custom_tags := None |}
              {| Db.sd_thread_id := Db.Given "thread-1";
                 Db.sd_agent_run_id := Db.Given "run-1";
                 Db.sd_status := None; Db.sd_error := Db.Absent |}
              eq_refl eq_refl ltac:(vm_compute; reflexivity) eq_refl Hne
              eq_refl eq_refl eq_refl eq_refl
              ltac:(simpl; constructor) ltac:(simpl; constructor))
    as (H & _).
  exact H.
Defined.

Section SubmitLogs.
Import Db ProxyDatabase Http GenerateRoute Submit.

Lemma initiate_failed_logs (ge : Env) (userId taskId message : string)
    (w0 w : World) (logs : list ErrorLog) :
  error_logs w = error_logs w0 ++ logs ->
  logged_refusal w0 (initiate_failed ge userId taskId message w).
Proof.
  intros H. unfold initiate_failed, updateSunaTaskStatus.
  destruct (mapping_update (faults ge)).
  - unfold internal_error, logged_refusal.
    destruct (truthy (Some userId)); cbn; (split; [auto|]);
      rewrite H, <- app_assoc; destruct logs; cbn; eauto.
  - unfold logged_refusal; cbn; split; [auto|].
    rewrite H, <- app_assoc. destruct logs; cbn; eauto.
Qed.

Lemma POST_logs (ge : Env) (w : World) :
  (http_status (fst (POST ge w)) = 200
   /\ (exists thread run, body (fst (POST ge w)) = Started (uuid ge) thread run)
   /\ error_logs (snd (POST ge w)) = error_logs w)
  \/ logged_refusal w (POST ge w).
Proof.
  unfold POST.
  destruct (request_body ge) as [requestData|];
    [|right; unfold logged_refusal; cbn; eauto 10].
  destruct (auth_user ge) as [userId|];
    [|right; unfold logged_refusal; cbn; eauto 10].
  pose proof (checkRateLimit_logs (rate_limit_select (faults ge))
                (zone ge) (now ge)
                userId ENDPOINT 50 w) as L.
  cbv zeta in L. destruct L as (L & _).
  destruct (checkRateLimit _ _ _ _ ENDPOINT _ w) as [ok w1]. cbn [snd] in L.
  destruct (negb ok);
    [right; unfold logged_refusal; cbn; rewrite L; eauto 10|].
  destruct (session_jwt ge) as [jwt|];
    [|right; unfold logged_refusal; cbn; rewrite L; eauto 10].
  destruct (truthy (Some jwt));
    [|right; unfold logged_refusal; cbn; rewrite L; eauto 10].
  destruct (task_insert (faults ge));
    [right; unfold logged_refusal; cbn; rewrite L; eauto 10|].
  unfold createSunaTaskMapping.
  destruct (mapping_insert (faults ge)).
  { right. unfold internal_error, logged_refusal.
    destruct (truthy (Some userId)); cbn; rewrite L; eauto 10. }
  unfold start_job.
  destruct (initiate ge) as [msg|code txt|msg|sunaData].
  - right. apply (initiate_failed_logs _ _ _ _ _ _ []). cbn.
    now rewrite app_nil_r.
  - right. eapply (initiate_failed_logs _ _ _ _ _ _ [_]). cbn.
    now rewrite L.
  - right. apply (initiate_failed_logs _ _ _ _ _ _ []). cbn.
    now rewrite app_nil_r.
  - unfold updateSunaTaskStatus. destruct (mapping_update (faults ge)).
    + right. apply (initiate_failed_logs _ _ _ _ _ _ []). cbn.
      now rewrite app_nil_r.
    + left. cbn. eauto 10.
Qed.

End SubmitLogs.

(** X23. The submit route never refuses silently. Either it answers
    with code 200 and the id of the new task, and then it has written no
    error log; or it answers with code 401, 429 or 500, and then it has
    added at least one entry to the error log. This holds for every
    request, stored data and answer of the outside world; the log table
    is taken to accept its inserts, as [logError] reports no failure to
    its caller. *)
Theorem submit_refusals_are_logged :
  forall (ge : GenerateRoute.Env) (w : Db.World),
    let r := GenerateRoute.POST ge w in
    (Http.http_status (fst r) = 200
     /\ (exists thread run,
           Http.body (fst r)
           = GenerateRoute.Started (GenerateRoute.uuid ge) thread run)
     /\ Db.error_logs (snd r) = Db.error_logs w)
    \/ (In (Http.http_status (fst r)) [401; 429; 500]
        /\ exists log logs,
             Db.error_logs (snd r) = Db.error_logs w ++ log :: logs).
Proof.
  intros ge w. exact (POST_logs ge w).
Qed.

(** X24. When the storage accepts the task row of a submission and
    rejects its mapping row, the route answers with code 500 and the
    generic body "Internal server error", which does not carry the task
    id. The task row stays, in status pending; no mapping exists for it;
    the external service is not called; the rejection is recorded in the
    error log. *)
Theorem rejected_mapping_leaves_pending_task :
  forall (ge : GenerateRoute.Env) (w : Db.World) (userId jwt message : string)
         (requestData : Db.RequestData),
    GenerateRoute.request_body ge = Some requestData ->
    GenerateRoute.auth_user ge = Some userId ->
    fst (ProxyDatabase.checkRateLimit
           (Db.rate_limit_select (GenerateRoute.faults ge))
               (GenerateRoute.zone ge) (GenerateRoute.now ge)
           userId GenerateRoute.ENDPOINT 50 w) = true ->
    GenerateRoute.session_jwt ge = Some jwt ->
    jwt <> EmptyString ->
    Db.task_insert (GenerateRoute.faults ge) = None ->
    Db.mapping_insert (GenerateRoute.faults ge) = Some message ->
    let w' := snd (GenerateRoute.POST ge w) in
    fst (GenerateRoute.POST ge w)
      = {| Http.http_status := 500;
           Http.body := GenerateRoute.Error "Internal server error" |}
    /\ Db.story_generation_tasks w'
       = Db.story_generation_tasks w
         ++ [Submit.pending_task ge userId requestData]
    /\ Db.suna_task_mapping w' = Db.suna_task_mapping w
    /\ Db.ext_calls w' = Db.ext_calls w
    /\ Db.error_logs w'
       = Db.error_logs w
         ++ [{| Db.el_user_id := Some userId;
                Db.el_endpoint := GenerateRoute.ENDPOINT;
                Db.error_type := "INTERNAL_ERROR";
                Db.el_error_message := message;
                Db.severity := "error" |}].
Proof.
  intros ge w userId jwt message requestData Hbody Ha Hr Hjwt Hne Hf1 Hf2 w'.
  subst w'.
  pose proof (checkRateLimit_frame (Db.rate_limit_select (GenerateRoute.faults ge)) (GenerateRoute.zone ge)
                (GenerateRoute.now ge) userId GenerateRoute.ENDPOINT 50 w) as F.
  pose proof (checkRateLimit_logs (Db.rate_limit_select (GenerateRoute.faults ge)) (GenerateRoute.zone ge)
                (GenerateRoute.now ge) userId GenerateRoute.ENDPOINT 50 w) as L.
  cbv zeta in F, L. destruct F as (F1 & F2 & _ & _ & _ & F6 & _).
  destruct L as (L1 & _).
  unfold GenerateRoute.POST. rewrite Hbody, Ha.
  destruct (ProxyDatabase.checkRateLimit _ _ _ _ GenerateRoute.ENDPOINT _ w)
    as [ok w1].
  cbn [fst snd] in *. subst ok. cbn [negb].
  rewrite Hjwt, (truthy_some _ Hne), Hf1.
  unfold ProxyDatabase.createSunaTaskMapping. rewrite Hf2.
  unfold GenerateRoute.internal_error.
  destruct (Http.truthy (Some userId)); cbn; rewrite F1, F2, F6, L1; auto 10.
Qed.

Lemma rejected_mapping_leaves_pending_task_witness :
  let ge := {| GenerateRoute.request_body :=
                 Some {| Db.rq_story_description := "a fox learns to share";
                         Db.rq_tags := ["friendship"];
                         Db.rq_custom_tags := None |};
               GenerateRoute.auth_user := Some "u1";
               GenerateRoute.now := 500;
               GenerateRoute.zone := ProxyDatabase.UTC;
               GenerateRoute.faults := Samples.mapping_insert_fault;
               GenerateRoute.session_jwt := Some "jwt-1";
               GenerateRoute.uuid := "task-2";
               GenerateRoute.initiate := Lifecycle.started |} in
  map Db.status (Db.story_generation_tasks (snd (GenerateRoute.POST ge Db.empty)))
  = ["pending"]
  /\ Db.suna_task_mapping (snd (GenerateRoute.POST ge Db.empty)) = [].
Proof.
  intros ge.
  assert (Hne : "jwt-1" <> EmptyString) by discriminate.
  destruct (rejected_mapping_leaves_pending_task ge Db.empty "u1" "jwt-1"
              "duplicate key"
              {| Db.rq_story_description := "a fox learns to share";
                 Db.rq_tags := ["friendship"];
                 Db.rq_custom_tags := None |}
              eq_refl eq_refl ltac:(vm_compute; reflexivity) eq_refl Hne
              eq_refl eq_refl)
    as (_ & H2 & H3 & _).
  split; [rewrite H2; reflexivity|exact H3].
Defined.

Section SubmitWrites.
Import Db ProxyDatabase Http GenerateRoute Touch.

Lemma same_keys_trans (taskId : string) (a b c : World) :
  same_keys taskId a b -> same_keys taskId b c -> same_keys taskId a c.
Proof.
  unfold same_keys.
  intros (A1 & A2 & A3 & A4 & A5 & A6) (B1 & B2 & B3 & B4 & B5 & B6).
  rewrite B1, B2, B3, B4, B5, B6. auto 10.
Qed.

Lemma same_keys_update_tasks (taskId : string) (f : Task -> Task) (w : World) :
  (forall t, id (f t) = id t) ->
  same_keys taskId w (update_tasks taskId f w).
Proof.
  intros Hf. unfold same_keys, update_tasks.
  cbn -[String.eqb other_tasks other_mappings].
  rewrite map_task_others by assumption. repeat split; auto.
  rewrite map_map. apply map_ext. intros t.
  destruct (String.eqb (id t) taskId); auto.
Qed.

Lemma same_keys_update_mapping (error : option string) (now : Z)
    (taskId : string) (u : Updates) (w w' : World) :
  updateSunaTaskStatus error now taskId u w = Ok w' -> same_keys taskId w w'.
Proof.
  intros H. apply updateSunaTaskStatus_confined in H
    as (E1 & E2 & E3 & E4 & E5 & E6).
  unfold same_keys. rewrite E1. auto 10.
Qed.

Lemma initiate_failed_keys (ge : Env) (userId taskId message : string) (w : World) :
  let w' := snd (initiate_failed ge userId taskId message w) in
  same_keys taskId w w' /\ ext_calls w' = ext_calls w.
Proof.
  unfold initiate_failed.
  match goal with
  | |- context [updateSunaTaskStatus ?e ?n ?t ?u ?w0] =>
    pose proof (same_keys_update_tasks taskId
                  (fun t => {| id := id t; user_id := user_id t;
                               story_description := story_description t;
                               tags := tags t; custom_tags := custom_tags t;
                               status := "failed";
                               error_message := Some message;
                               completed_at := completed_at t;
                               suna_thread_id := suna_thread_id t;
                               suna_agent_run_id := suna_agent_run_id t |}) w
                  (fun t => eq_refl)) as K;
    destruct (updateSunaTaskStatus e n t u w0) as [w2|msg] eqn:E
  end.
  - pose proof (same_keys_update_mapping _ _ _ _ _ _ E) as K2.
    apply updateSunaTaskStatus_confined in E as (_ & _ & _ & _ & _ & E6).
    cbn [snd]. split.
    + eapply same_keys_trans; [exact K|].
      eapply same_keys_trans; [exact K2|]. unfold same_keys. cbn. auto 10.
    + cbn. rewrite E6. reflexivity.
  - unfold internal_error. destruct (truthy (Some userId)); cbn [snd]; split;
      try (eapply same_keys_trans; [exact K|]; unfold same_keys; cbn; auto 10);
      reflexivity.
Qed.

Lemma start_job_keys (ge : Env) (userId taskId jwt : string) (w : World) :
  let w' := snd (start_job ge userId taskId jwt w) in
  same_keys taskId w w' /\ ext_calls w' = ext_calls w ++ [CallInitiate jwt].
Proof.
  unfold start_job.
  destruct (initiate ge) as [msg|code txt|msg|sunaData].
  - match goal with
    | |- context [initiate_failed ?a ?b ?c ?d ?e] =>
      destruct (initiate_failed_keys a b c d e) as [K C]
    end.
    cbv zeta. split; [|rewrite C; reflexivity].
    eapply same_keys_trans; [|exact K]. unfold same_keys. cbn. auto 10.
  - match goal with
    | |- context [initiate_failed ?a ?b ?c ?d ?e] =>
      destruct (initiate_failed_keys a b c d e) as [K C]
    end.
    cbv zeta. split; [|rewrite C; reflexivity].
    eapply same_keys_trans; [|exact K]. unfold same_keys. cbn. auto 10.
  - match goal with
    | |- context [initiate_failed ?a ?b ?c ?d ?e] =>
      destruct (initiate_failed_keys a b c d e) as [K C]
    end.
    cbv zeta. split; [|rewrite C; reflexivity].
    eapply same_keys_trans; [|exact K]. unfold same_keys. cbn. auto 10.
  - match goal with
    | |- context [updateSunaTaskStatus ?e ?n ?t ?u (update_tasks ?k ?f ?w0)] =>
      pose proof (same_keys_update_tasks k f w0 (fun t => eq_refl)) as K;
      destruct (updateSunaTaskStatus e n t u (update_tasks k f w0))
        as [w2|msg] eqn:E
    end.
    + pose proof (same_keys_update_mapping _ _ _ _ _ _ E) as K2.
      apply updateSunaTaskStatus_confined in E as (_ & _ & _ & _ & _ & E6).
      cbv zeta. cbn [snd]. split.
      * eapply same_keys_trans; [|eapply same_keys_trans; [exact K|]].
        { unfold same_keys. cbn. auto 10. }
        eapply same_keys_trans; [exact K2|]. unfold same_keys. cbn. auto 10.
      * cbn. rewrite E6. reflexivity.
    + match goal with
      | |- context [initiate_failed ?a ?b ?c ?d ?e] =>
        destruct (initiate_failed_keys a b c d e) as [K2 C]
      end.
      cbv zeta. split; [|rewrite C; reflexivity].
      eapply same_keys_trans; [|eapply same_keys_trans; [exact K|exact K2]].
      unfold same_keys. cbn. auto 10.
Qed.

Lemma POST_confined (ge : Env) (w : World) :
  let w' := snd (POST ge w) in
  other_tasks (uuid ge) (story_generation_tasks w')
    = other_tasks (uuid ge) (story_generation_tasks w)
  /\ other_mappings (uuid ge) (suna_task_mapping w')
     = other_mappings (uuid ge) (suna_task_mapping w)
  /\ List.length (story_generation_tasks w')
     <= S (List.length (story_generation_tasks w))
  /\ List.length (suna_task_mapping w') <= S (List.length (suna_task_mapping w))
  /\ storybooks w' = storybooks w
  /\ storybook_pages w' = storybook_pages w
  /\ (ext_calls w' = ext_calls w
      \/ exists jwt,
           session_jwt ge = Some jwt
           /\ ext_calls w' = ext_calls w ++ [CallInitiate jwt]
           /\ In (uuid ge) (map id (story_generation_tasks w'))
           /\ In (uuid ge) (map local_task_id (suna_task_mapping w'))).
Proof.
  unfold POST.
  destruct (request_body ge) as [requestData|]; [|cbn; auto 10].
  destruct (auth_user ge) as [userId|]; [|cbn; auto 10].
  pose proof (checkRateLimit_frame (rate_limit_select (faults ge))
                (zone ge) (now ge)
                userId ENDPOINT 50 w) as F.
  cbv zeta in F.
  destruct (checkRateLimit _ _ _ _ ENDPOINT _ w) as [ok w1].
  cbn [snd] in F. destruct F as (F1 & F2 & F3 & F4 & _ & F6 & _).
  rewrite <- F1, <- F2, <- F3, <- F4, <- F6.
  destruct (negb ok); [cbn; auto 10|].
  destruct (session_jwt ge) as [jwt|]; [|cbn; auto 10].
  destruct (truthy (Some jwt)); [|cbn; auto 10].
  destruct (task_insert (faults ge)); [cbn; auto 10|].
  unfold createSunaTaskMapping.
  destruct (mapping_insert (faults ge)).
  { unfold internal_error. destruct (truthy (Some userId));
      cbn -[String.eqb]; unfold other_tasks;
      rewrite filter_app, length_app; cbn -[String.eqb];
      rewrite String.eqb_refl; cbn; rewrite app_nil_r;
      repeat split; auto; lia. }
  match goal with
  | |- context [start_job ?a ?b ?c ?d ?e] =>
    set (wj := e);
    destruct (start_job_keys a b c d wj) as [(K1 & K2 & K3 & K4 & K5 & K6) C];
    set (w2 := snd (start_job a b c d wj)) in *
  end.
  cbv zeta.
  assert (Lt : List.length (story_generation_tasks w2)
               = List.length (story_generation_tasks wj))
    by (rewrite <- (length_map id (story_generation_tasks w2)), K1;
        apply length_map).
  assert (Lm : List.length (suna_task_mapping w2)
               = List.length (suna_task_mapping wj))
    by (rewrite <- (length_map local_task_id (suna_task_mapping w2)), K2;
        apply length_map).
  rewrite K3, K4, K5, K6, C, Lt, Lm.
  assert (It : In (uuid ge) (map id (story_generation_tasks w2))).
  { rewrite K1. subst wj. cbn. rewrite map_app. apply in_or_app. right. now left. }
  assert (Im : In (uuid ge) (map local_task_id (suna_task_mapping w2))).
  { rewrite K2. subst wj. cbn. rewrite map_app. apply in_or_app. right. now left. }
  subst wj. cbn -[String.eqb].
  unfold other_tasks, other_mappings.
  rewrite !filter_app, !length_app. cbn -[String.eqb].
  rewrite String.eqb_refl. cbn. rewrite !app_nil_r.
  repeat split; auto; try lia.
  right. exists jwt. repeat split; auto.
Qed.

End SubmitWrites.

(** X25. Whatever the request, the stored data and the answers of the
    outside world, a submission is confined to the task id it draws: it
    changes no task and no mapping of another id, adds at most one task
    and one mapping, and touches no storybook and no page. It sends at
    most one request to the external service, with the token of the
    session, and only once a task row and a mapping row of the new id
    are on record. *)
Theorem submission_is_confined :
  forall (ge : GenerateRoute.Env) (w : Db.World),
    let w' := snd (GenerateRoute.POST ge w) in
    let taskId := GenerateRoute.uuid ge in
    Touch.other_tasks taskId (Db.story_generation_tasks w')
      = Touch.other_tasks taskId (Db.story_generation_tasks w)
    /\ Touch.other_mappings taskId (Db.suna_task_mapping w')
       = Touch.other_mappings taskId (Db.suna_task_mapping w)
    /\ List.length (Db.story_generation_tasks w')
       <= S (List.length (Db.story_generation_tasks w))
    /\ List.length (Db.suna_task_mapping w')
       <= S (List.length (Db.suna_task_mapping w))
    /\ Db.storybooks w' = Db.storybooks w
    /\ Db.storybook_pages w' = Db.storybook_pages w
    /\ (Db.ext_calls w' = Db.ext_calls w
        \/ exists jwt,
             GenerateRoute.session_jwt ge = Some jwt
             /\ Db.ext_calls w' = Db.ext_calls w ++ [Db.CallInitiate jwt]
             /\ In taskId (map Db.id (Db.story_generation_tasks w'))
             /\ In taskId (map Db.local_task_id (Db.suna_task_mapping w'))).
Proof.
  intros ge w. exact (POST_confined ge w).
Qed.

(** ** From submission to status *)

Section PipelineFacts.
Import Db ProxyDatabase Http.

Lemma filter_map_commute {A} (P : A -> bool) (g : A -> A) (l : list A) :
  (forall y, P (g y) = P y) -> filter P (map g l) = map g (filter P l).
Proof.
  intros H. induction l as [|x xs IH]; [reflexivity|].
  cbn [map filter]. rewrite H, IH. now destruct (P x).
Qed.

Lemma select_task_updated (taskId userId : string) (f : Task -> Task)
    (w : World) (t : Task) :
  (forall x, id (f x) = id x) -> (forall x, user_id (f x) = user_id x) ->
  select_task None taskId userId w = Some t ->
  select_task None taskId userId (update_tasks taskId f w) = Some (f t).
Proof.
  intros Hid Hu H. pose proof (select_task_found _ _ _ _ _ H) as (_ & Ht & _).
  unfold select_task in *. apply single_inv in H.
  unfold update_tasks. cbn -[String.eqb].
  rewrite filter_map_commute.
  - rewrite H. cbn -[String.eqb]. apply String.eqb_eq in Ht. now rewrite Ht.
  - intros y. cbn beta. destruct (String.eqb (id y) taskId) eqn:E;
      [rewrite Hid, Hu, E|rewrite E]; reflexivity.
Qed.

Lemma getSunaTaskMapping_updated (now : Z) (taskId : string) (u : Updates)
    (w w' : World) (m : SunaTaskMapping) :
  updateSunaTaskStatus None now taskId u w = Ok w' ->
  getSunaTaskMapping None taskId w = Ok (Some m) ->
  getSunaTaskMapping None taskId w' = Ok (Some (apply_updates now u m)).
Proof.
  intros Hu H. pose proof (getSunaTaskMapping_found _ _ _ _ H) as (_ & Hm).
  unfold getSunaTaskMapping in *. inversion H as [Hs]. apply single_inv in Hs.
  unfold updateSunaTaskStatus in Hu. inversion Hu; subst w'. cbn -[String.eqb].
  rewrite filter_map_commute.
  - rewrite Hs. cbn -[String.eqb]. apply String.eqb_eq in Hm. now rewrite Hm.
  - intros y. cbn beta. destruct (String.eqb (local_task_id y) taskId) eqn:E;
      [cbn [apply_updates local_task_id]; rewrite E|rewrite E]; reflexivity.
Qed.

End PipelineFacts.

(** X26. Submission and status check compose. After a submission that
    the external service accepted with a run id, for a fresh task id, a
    status check by the same user on the returned task id, made when the
    external job reports completed or failed, polls that run, answers
    with the reported status, the time of completion, the reported error
    and the ids of the external job, and leaves the task and its mapping
    in the reported status. The external service has then been called
    twice: to start the job and to poll it. *)
Theorem submitted_job_is_settled_by_status_check :
  forall (ge : GenerateRoute.Env) (se : StatusRoute.Env) (w : Db.World)
         (userId jwt runId s : string)
         (requestData : Db.RequestData) (sunaData polled : Db.SunaData),
    GenerateRoute.request_body ge = Some requestData ->
    GenerateRoute.auth_user ge = Some userId ->
    fst (ProxyDatabase.checkRateLimit
           (Db.rate_limit_select (GenerateRoute.faults ge))
               (GenerateRoute.zone ge) (GenerateRoute.now ge)
           userId GenerateRoute.ENDPOINT 50 w) = true ->
    GenerateRoute.session_jwt ge = Some jwt ->
    jwt <> EmptyString ->
    Db.task_insert (GenerateRoute.faults ge) = None ->
    Db.mapping_insert (GenerateRoute.faults ge) = None ->
    Db.mapping_update (GenerateRoute.faults ge) = None ->
    GenerateRoute.initiate ge = Http.Data sunaData ->
    Db.sd_agent_run_id sunaData = Db.Given runId ->
    runId <> EmptyString ->
    Forall (fun t => Db.id t <> GenerateRoute.uuid ge)
           (Db.story_generation_tasks w) ->
    Forall (fun m => Db.local_task_id m <> GenerateRoute.uuid ge)
           (Db.suna_task_mapping w) ->
    let taskId := GenerateRoute.uuid ge in
    let w1 := snd (GenerateRoute.POST ge w) in
    taskId <> EmptyString ->
    StatusRoute.task_id_param se = Some taskId ->
    StatusRoute.auth_user se = Some userId ->
    fst (ProxyDatabase.checkRateLimit
           (Db.rate_limit_select (StatusRoute.faults se))
               (StatusRoute.zone se) (StatusRoute.now se)
           userId StatusRoute.ENDPOINT 200 w1) = true ->
    Db.task_select (StatusRoute.faults se) = None ->
    Db.mapping_select (StatusRoute.faults se) = None ->
    Db.mapping_update (StatusRoute.faults se) = None ->
    Http.truthy (StatusRoute.session_jwt se) = true ->
    StatusRoute.poll se = Http.Data polled ->
    Db.sd_status polled = Some s ->
    Scenario.terminal s ->
    let w2 := snd (StatusRoute.GET se w1) in
    fst (StatusRoute.GET se w1)
      = {| Http.http_status := 200;
           Http.body :=
             StatusRoute.TaskState taskId s (Some (StatusRoute.now se))
               (Db.value_of (Db.sd_error polled))
               (Db.value_of (Db.sd_thread_id sunaData)) (Some runId) |}
    /\ (exists t, Http.select_task None taskId userId w2 = Some t
                  /\ Db.status t = s
                  /\ Db.completed_at t = Some (StatusRoute.now se))
    /\ (exists m, ProxyDatabase.getSunaTaskMapping None taskId w2 = Db.Ok (Some m)
                  /\ Db.m_status m = s
                  /\ Db.response_data m = Some polled)
    /\ Db.ext_calls w2
       = Db.ext_calls w ++ [Db.CallInitiate jwt; Db.CallPoll runId].
Proof.
  intros ge se w userId jwt runId s requestData sunaData polled
         Hbody Ha Hr Hjwt Hne Hf1 Hf2 Hf3 Hinit Hrun Hrne Ht Hm taskId w1
         Htne Hp Has Hrs Hts Hms Hmu Hsj Hpoll Hs Hterm w2.
  destruct (POST_accepted ge w userId jwt requestData sunaData
              Hbody Ha Hr Hjwt Hne Hf1 Hf2 Hf3 Hinit Ht Hm)
    as (_ & H2 & H3 & H4 & _).
  fold w1 in H2, H3, H4. fold taskId in H2, H3.
  pose proof (H2 None) as Htask. pose proof (H3 None) as Hmap.
  cbv beta iota in Htask, Hmap.
  pose proof (checkRateLimit_frame (Db.rate_limit_select (StatusRoute.faults se)) (StatusRoute.zone se)
                (StatusRoute.now se) userId StatusRoute.ENDPOINT 200 w1) as F.
  cbv zeta in F. destruct F as (F1 & F2 & _ & _ & _ & F6 & _).
  assert (Hnew : (if String.eqb s "completed" then "completed" else "failed") = s)
    by (destruct Hterm; subst s; reflexivity).
  assert (Hor : (String.eqb s "completed" || String.eqb s "failed")%bool = true)
    by (destruct Hterm; subst s; reflexivity).
  subst w2.
  rewrite (status_GET_found se w1 taskId userId
             (Submit.processing_task ge userId requestData sunaData)
             (Submit.processing_mapping ge userId requestData sunaData)
             Htne Hp Has Hrs).
  2:{ rewrite Hts. exact Htask. }
  2:{ rewrite Hms. exact Hmap. }
  cbv zeta.
  set (ws := snd (ProxyDatabase.checkRateLimit _ _ _ _ _ _ w1)) in *.
  cbn [Submit.processing_task Submit.processing_mapping Db.status
       Db.m_suna_agent_run_id Db.m_suna_thread_id].
  rewrite Hrun. cbn [Db.value_of].
  rewrite String.eqb_refl, (truthy_some _ Hrne). cbn [andb].
  unfold StatusRoute.poll_and_update.
  rewrite Hsj, Hpoll, Hs, Hor, Hnew, Hmu.
  unfold ProxyDatabase.updateSunaTaskStatus.
  cbn -[String.eqb Http.select_task ProxyDatabase.getSunaTaskMapping
        Http.update_tasks].
  split; [reflexivity|]. split; [|split].
  - eexists. split.
    + match goal with
      | |- Http.select_task None _ _ ?wx = _ =>
        change (Http.select_task None taskId userId wx)
          with (Http.select_task None taskId userId
                  (Http.update_tasks taskId
                     (fun t => {| Db.id := Db.id t; Db.user_id := Db.user_id t;
                                  Db.story_description := Db.story_description t;
                                  Db.tags := Db.tags t;
                                  Db.custom_tags := Db.custom_tags t;
                                  Db.status := s;
                                  Db.error_message :=
                                    Db.assign (Db.sd_error polled)
                                                          (Db.error_message t);
                                  Db.completed_at := Some (StatusRoute.now se);
                                  Db.suna_thread_id := Db.suna_thread_id t;
                                  Db.suna_agent_run_id := Db.suna_agent_run_id t |})
                     ws))
      end.
      apply select_task_updated; [reflexivity|reflexivity|].
      rewrite (select_task_frame _ _ _ w1 ws F1). exact Htask.
    + cbn. auto.
  - eexists. split.
    + match goal with
      | |- ProxyDatabase.getSunaTaskMapping None _ ?wx = _ =>
        rewrite (getSunaTaskMapping_frame None taskId
                   (Db.with_mappings
                      (map (fun m =>
                              if String.eqb (Db.local_task_id m) taskId
                              then ProxyDatabase.apply_updates (StatusRoute.now se)
                                     {| ProxyDatabase.u_suna_thread_id := Db.Absent;
                                        ProxyDatabase.u_suna_agent_run_id := Db.Absent;
                                        ProxyDatabase.u_status := Some s;
                                        ProxyDatabase.u_response_data := Some polled;
                                        ProxyDatabase.u_error_message :=
                                          Db.sd_error polled |} m
                              else m)
                           (Db.suna_task_mapping ws)) ws) wx)
          by reflexivity
      end.
      apply (getSunaTaskMapping_updated (StatusRoute.now se) taskId
               {| ProxyDatabase.u_suna_thread_id := Db.Absent;
                  ProxyDatabase.u_suna_agent_run_id := Db.Absent;
                  ProxyDatabase.u_status := Some s;
                  ProxyDatabase.u_response_data := Some polled;
                  ProxyDatabase.u_error_message := Db.sd_error polled |}
               ws _); [reflexivity|].
      rewrite (getSunaTaskMapping_frame _ _ w1 ws F2). exact Hmap.
    + cbn. auto.
  - cbn. rewrite F6, H4, <- app_assoc. reflexivity.
Qed.

Lemma submitted_job_is_settled_by_status_check_witness :
  fst (StatusRoute.GET (Scenario.status_env (Scenario.reports "completed"))
         (snd (GenerateRoute.POST (Scenario.generate_env Lifecycle.started)
                                  Db.empty)))
  = {| Http.http_status := 200;
       Http.body := StatusRoute.TaskState "task-1" "completed" (Some 1000%Z)
                      None (Some "thread-1") (Some "run-1") |}.
Proof.
  assert (Hjwt : "jwt-1" <> EmptyString) by discriminate.
  assert (Hrun : "run-1" <> EmptyString) by discriminate.
  assert (Htask : "task-1" <> EmptyString) by discriminate.
  destruct (submitted_job_is_settled_by_status_check
              (Scenario.generate_env Lifecycle.started)
              (Scenario.status_env (Scenario.reports "completed"))
              Db.empty "u1" "jwt-1" "run-1" "completed"
              {| Db.rq_story_description := "a rabbit searches for rainbow candy";
                 Db.rq_tags := ["adventure"; "friendship"];
                 Db.rq_custom_tags := None |}
              {| Db.sd_thread_id := Db.Given "thread-1";
                 Db.sd_agent_run_id := Db.Given "run-1";
                 Db.sd_status := None; Db.sd_error := Db.Absent |}
              {| Db.sd_thread_id := Db.Absent; Db.sd_agent_run_id := Db.Absent;
                 Db.sd_status := Some "completed"; Db.sd_error := Db.Absent |}
              eq_refl eq_refl ltac:(vm_compute; reflexivity) eq_refl Hjwt
              eq_refl eq_refl eq_refl eq_refl eq_refl Hrun
              ltac:(simpl; constructor) ltac:(simpl; constructor)
              Htask eq_refl eq_refl ltac:(vm_compute; reflexivity)
              eq_refl eq_refl eq_refl eq_refl eq_refl eq_refl
              (or_introl eq_refl))
    as (H & _).
  exact H.
Defined.

(** ** Save route *)

Section SaveFacts.
Import Http SaveRoute.

Lemma Bearer_units : js "Bearer " = [66; 101; 97; 114; 101; 114; 32]%N.
Proof. vm_compute. reflexivity. Qed.

Lemma POST_checked (env : Env) (payload : Json.value) :
  request_body env = Some payload ->
  payload <> Json.Null ->
  POST env
  = checked env (Json.get payload (js "taskId")) (Json.get payload (js "bookData")).
Proof.
  intros Hb Hnull. unfold POST. rewrite Hb.
  destruct payload; [congruence|..]; reflexivity.
Qed.

(** A complete request with a bearer header reaches the inner block. *)
Lemma POST_forwards (env : Env) (payload taskId bookData : Json.value)
    (token : jsstring) :
  request_body env = Some payload ->
  complete payload taskId bookData ->
  authorization env = Some (js "Bearer " ++ token) ->
  POST env = forward env token taskId bookData.
Proof.
  intros Hb (Hnull & Ht & Hd & Htt & Hdt) Ha.
  rewrite (POST_checked env payload Hb Hnull). unfold checked.
  rewrite Ht, Hd, Htt, Hdt, Ha, Bearer_units.
  cbn -[js forward]. rewrite startsWith_nil. reflexivity.
Qed.

Lemma guarded_silent (env : Env) (code : nat) (b : Body) :
  code <> 200 -> In code [200; 400; 401; 500; 503] ->
  guarded env (respond code b []).
Proof.
  intros Hcode Hin. unfold guarded. cbn. split; [now left|]. split; [|exact Hin].
  intros H. contradiction.
Qed.

Lemma checked_guarded (env : Env) (payload : Json.value) :
  request_body env = Some payload ->
  payload <> Json.Null ->
  guarded env (checked env (Json.get payload (js "taskId"))
                           (Json.get payload (js "bookData"))).
Proof.
  intros Hb Hnull. unfold checked.
  destruct (Json.get payload (js "taskId")) as [taskId|] eqn:Ht;
    [|apply guarded_silent; [discriminate|cbn; auto 10]].
  destruct (Json.get payload (js "bookData")) as [bookData|] eqn:Hd;
    [|apply guarded_silent; [discriminate|cbn; auto 10]].
  destruct (Json.truthy (Some taskId)) eqn:Htt;
    [|apply guarded_silent; [discriminate|cbn; auto 10]].
  destruct (Json.truthy (Some bookData)) eqn:Hdt;
    [|apply guarded_silent; [discriminate|cbn; auto 10]].
  cbn [negb orb].
  destruct (authorization env) as [header|] eqn:Ha;
    [|apply guarded_silent; [discriminate|cbn; auto 10]].
  destruct (Js.truthy header);
    [|apply guarded_silent; [discriminate|cbn; auto 10]].
  destruct (Js.startsWith header (js "Bearer ")) eqn:Hs;
    [|apply guarded_silent; [discriminate|cbn; auto 10]].
  cbn [negb orb]. unfold forward.
  destruct (getUser env (Js.slice 7 header)) as [|error [userId|]] eqn:Hu;
    [apply guarded_silent; [discriminate|cbn; auto 10]
    | |apply guarded_silent; [discriminate|cbn; auto 10]].
  destruct error; [apply guarded_silent; [discriminate|cbn; auto 10]|].
  assert (Hcall : forall (code : nat) (b : Body),
    exists payload0 taskId0 bookData0 header0 userId0,
      request_body env = Some payload0
      /\ complete payload0 taskId0 bookData0
      /\ authorization env = Some header0
      /\ Js.startsWith header0 (js "Bearer ") = true
      /\ getUser env (Js.slice 7 header0) = AuthResult false (Some userId0)
      /\ snd (respond code b
                [{| bearer := Js.slice 7 header; task_id := taskId;
                    user_id := userId; book_data := bookData |}])
         = [{| bearer := Js.slice 7 header0; task_id := taskId0;
               user_id := userId0; book_data := bookData0 |}]).
  { intros code b. exists payload, taskId, bookData, header, userId.
    unfold complete. repeat split; auto. }
  unfold guarded, auth_failed.
  destruct (save env) as [|[|]| |sunaData] eqn:Hsave;
    try (split; [right; apply Hcall|]; split; [cbn; discriminate|cbn; auto 10]).
  destruct sunaData;
    try (split; [right; apply Hcall|]; split; [cbn; discriminate|cbn; auto 10]);
    (split; [right; apply Hcall|]; split; [|cbn; auto 10];
     intros _; split; [cbn; discriminate|];
     eexists; split; [reflexivity|]; split; [discriminate|reflexivity]).
Qed.

Lemma POST_guarded (env : Env) : guarded env (POST env).
Proof.
  destruct (request_body env) as [payload|] eqn:Hb.
  - assert (Hcase : payload = Json.Null \/ payload <> Json.Null)
      by (destruct payload; auto; right; discriminate).
    destruct Hcase as [->|Hnull].
    + unfold POST. rewrite Hb. apply guarded_silent; [discriminate|cbn; auto 10].
    + rewrite (POST_checked env payload Hb Hnull).
      now apply checked_guarded.
  - unfold POST. rewrite Hb. apply guarded_silent; [discriminate|cbn; auto 10].
Qed.

End SaveFacts.

(** X27. A save request with a task id, book data and the bearer token
    of a verified user is forwarded to the external save operation with
    that token, the task id, the id of the user and the book data. When
    that operation cannot be reached, answers an error whose text cannot
    be read, answers a body that is not JSON, or answers the JSON value
    null, the route answers with code 401 and the message of a failed
    authentication check, although the user was verified. *)
Theorem save_failure_is_reported_as_authentication_failure :
  forall (env : SaveRoute.Env) (payload taskId bookData : Json.value)
         (token : jsstring) (userId : string),
    SaveRoute.request_body env = Some payload ->
    SaveRoute.complete payload taskId bookData ->
    SaveRoute.authorization env = Some (js "Bearer " ++ token) ->
    SaveRoute.getUser env token = SaveRoute.AuthResult false (Some userId) ->
    SaveRoute.throws (SaveRoute.save env) ->
    SaveRoute.POST env
    = ({| Http.http_status := 401;
          Http.body := SaveRoute.Error (js "认证验证失败") |},
       [{| SaveRoute.bearer := token; SaveRoute.task_id := taskId;
           SaveRoute.user_id := userId; SaveRoute.book_data := bookData |}]).
Proof.
  intros env payload taskId bookData token userId Hb Hc Ha Hu Ht.
  rewrite (POST_forwards env payload taskId bookData token Hb Hc Ha).
  unfold SaveRoute.forward. rewrite Hu.
  unfold SaveRoute.throws in Ht.
  destruct Ht as [H|[H|[H|H]]]; rewrite H; reflexivity.
Qed.

Lemma save_failure_is_reported_as_authentication_failure_witness :
  Http.http_status (fst (SaveRoute.POST (SaveRoute.sample SaveRoute.SaveBadJson)))
  = 401.
Proof.
  assert (Hc : SaveRoute.complete
                 (Json.Obj [(js "taskId", Json.Str (js "task-1"));
                            (js "bookData",
                             Json.Obj [(js "title", Json.Str (js "小兔找糖"))])])
                 (Json.Str (js "task-1"))
                 (Json.Obj [(js "title", Json.Str (js "小兔找糖"))])).
  { unfold SaveRoute.complete. split; [discriminate|].
    split; [vm_compute; reflexivity|]. split; [vm_compute; reflexivity|].
    split; vm_compute; reflexivity. }
  assert (Ha : SaveRoute.authorization (SaveRoute.sample SaveRoute.SaveBadJson)
               = Some (js "Bearer " ++ js "jwt-1"))
    by (vm_compute; reflexivity).
  assert (Hu : SaveRoute.getUser (SaveRoute.sample SaveRoute.SaveBadJson)
                 (js "jwt-1")
               = SaveRoute.AuthResult false (Some "u1"))
    by (vm_compute; reflexivity).
  rewrite (save_failure_is_reported_as_authentication_failure
             (SaveRoute.sample SaveRoute.SaveBadJson) _ _ _ (js "jwt-1") "u1"
             eq_refl Hc Ha Hu
             (or_intror (or_intror (or_introl eq_refl)))).
  reflexivity.
Defined.

(** X28. The save route sends at most one request to the external save
    operation, and only for a request body with a task id and book data
    whose authorization header starts with the bearer prefix and whose
    token, the header without its first seven characters, was verified
    without error for a user; the request carries exactly that token,
    task id, user id and book data. It answers with code 200 only after
    such a request was answered with a JSON value other than null, and
    then returns the book id read from that value; every other answer
    has code 400, 401, 500 or 503. *)
Theorem save_requests_are_guarded :
  forall (env : SaveRoute.Env),
    let r := SaveRoute.POST env in
    (snd r = []
     \/ exists payload taskId bookData header userId,
          SaveRoute.request_body env = Some payload
          /\ SaveRoute.complete payload taskId bookData
          /\ SaveRoute.authorization env = Some header
          /\ Js.startsWith header (js "Bearer ") = true
          /\ SaveRoute.getUser env (Js.slice 7 header)
             = SaveRoute.AuthResult false (Some userId)
          /\ snd r
             = [{| SaveRoute.bearer := Js.slice 7 header;
                   SaveRoute.task_id := taskId;
                   SaveRoute.user_id := userId;
                   SaveRoute.book_data := bookData |}])
    /\ (Http.http_status (fst r) = 200 ->
        snd r <> []
        /\ exists sunaData,
             SaveRoute.save env = SaveRoute.SaveData sunaData
             /\ sunaData <> Json.Null
             /\ Http.body (fst r) = SaveRoute.Saved (SaveRoute.book_id_of sunaData))
    /\ In (Http.http_status (fst r)) [200; 400; 401; 500; 503].
Proof.
  intros env. exact (POST_guarded env).
Qed.

(** ** Create page *)

Section TagFacts.
Import CreatePage.

Lemma js_eqb_eq (a b : jsstring) : Js.eqb a b = true <-> a = b.
Proof. unfold Js.eqb. destruct (list_eq_dec N.eq_dec a b); split; congruence. Qed.

Lemma includes_In (tag : jsstring) (l : list jsstring) :
  includes tag l = true <-> In tag l.
Proof.
  unfold includes. rewrite existsb_exists. split.
  - intros (x & Hx & E). apply js_eqb_eq in E. now subst.
  - intros H. exists tag. split; [assumption|]. now apply js_eqb_eq.
Qed.

Lemma addTag_tidy (tag : jsstring) (st : State) : tidy st -> tidy (addTag tag st).
Proof.
  intros [Hd Hn]. unfold tidy, addTag. cbn [tags].
  destruct (Js.truthy tag) eqn:Ht; [|now split].
  destruct (includes tag (tags st)) eqn:Hi; [now split|]. cbn [negb andb].
  split.
  - apply NoDup_snoc; [assumption|]. intros Hin.
    apply includes_In in Hin. congruence.
  - apply Forall_app. split; [assumption|].
    constructor; [|constructor]. now apply truthy_nonempty.
Qed.

Lemma removeTag_tidy (tag : jsstring) (st : State) :
  tidy st -> tidy (removeTag tag st).
Proof.
  intros [Hd Hn]. unfold tidy, removeTag. cbn [tags]. split.
  - now apply NoDup_filter.
  - apply Forall_forall. intros t Ht. apply filter_In in Ht as [Ht _].
    rewrite Forall_forall in Hn. now apply Hn.
Qed.

Lemma handle_tidy (st : State) (e : Event) : tidy st -> tidy (handle st e).
Proof.
  intros H. destruct e; cbn [handle].
  - exact H.
  - now apply addTag_tidy.
  - now apply addTag_tidy.
  - now apply removeTag_tidy.
Qed.

Lemma fold_handle_tidy (events : list Event) :
  forall st, tidy st -> tidy (fold_left handle events st).
Proof.
  induction events as [|e es IH]; intros st H; [exact H|].
  cbn [fold_left]. apply IH. now apply handle_tidy.
Qed.

End TagFacts.

(** X29. Whatever the user does with the tag controls of the create
    page (typing, adding what was typed, picking a suggested tag,
    removing a tag), in any order and any number of times, the list of
    tags holds no tag twice and no empty tag; and a tag is no longer in
    the list once it is removed. *)
Theorem tags_stay_distinct_and_nonempty :
  forall (events : list CreatePage.Event),
    NoDup (CreatePage.tags (CreatePage.after events))
    /\ Forall (fun t => t <> []) (CreatePage.tags (CreatePage.after events))
    /\ forall tag,
         ~ In tag (CreatePage.tags
                     (CreatePage.after (events ++ [CreatePage.Remove tag]))).
Proof.
  intros events.
  destruct (fold_handle_tidy events CreatePage.initial) as [Hd Hn].
  { split; constructor. }
  split; [exact Hd|]. split; [exact Hn|].
  intros tag. unfold CreatePage.after. rewrite fold_left_app. cbn.
  intros Hin. apply filter_In in Hin as [_ Hb].
  assert (E : Js.eqb tag tag = true) by now apply js_eqb_eq.
  rewrite E in Hb. discriminate.
Qed.

(** ** The progress page against the routes *)

Section ClientFacts.
Import Client.

Lemma split_on_plain (s : string) :
  plain s = true -> split_on "&"%char s = [s].
Proof.
  induction s as [|c r IH]; [reflexivity|]. cbn [plain split_on].
  intros H. repeat (apply andb_true_iff in H as [H ?]).
  apply negb_true_iff in H. rewrite H, IH by assumption. reflexivity.
Qed.

Lemma poll_query_params (taskId : string) :
  plain taskId = true ->
  searchParams (poll_query taskId) = [("taskId", taskId)].
Proof.
  intros H. unfold searchParams, poll_query.
  assert (Hs : split_on "&"%char (String.append "taskId=" taskId)
               = [String.append "taskId=" taskId]).
  { cbn -[Ascii.eqb]. cbn [Ascii.eqb Bool.eqb]. cbn.
    rewrite (split_on_plain taskId H). reflexivity. }
  rewrite Hs. cbn. destruct (name_value taskId) eqn:E. reflexivity.
Qed.

End ClientFacts.

(** X30. The progress page asks for the status and the result of a task
    with the query parameter [taskId], while both routes read the
    parameter [task_id]. For every task id that is written into the
    query as it is, both requests are therefore answered with code 400
    and "Task ID is required", whoever is signed in and whatever is
    stored; nothing is written, logged or sent to the external
    service. *)
Theorem progress_page_requests_are_rejected :
  forall (JSON_parse : jsstring -> option Json.value)
         (se : StatusRoute.Env) (re : ResultRoute.Env) (w : Db.World)
         (taskId : string),
    Client.plain taskId = true ->
    StatusRoute.task_id_param se = Client.task_id_of (Client.poll_query taskId) ->
    ResultRoute.task_id_param re = Client.task_id_of (Client.poll_query taskId) ->
    StatusRoute.GET se w
      = ({| Http.http_status := 400;
            Http.body := StatusRoute.Error "Task ID is required" |}, w)
    /\ ResultRoute.GET JSON_parse re w
       = ({| Http.http_status := 400;
             Http.body := ResultRoute.Error "Task ID is required" |}, w).
Proof.
  intros JSON_parse se re w taskId Hplain Hs Hr.
  unfold Client.task_id_of in Hs, Hr.
  rewrite (poll_query_params taskId Hplain) in Hs, Hr. cbn in Hs, Hr.
  unfold StatusRoute.GET, ResultRoute.GET. rewrite Hs, Hr. split; reflexivity.
Qed.

Lemma progress_page_requests_are_rejected_witness :
  let se := {| StatusRoute.task_id_param :=
                 Client.task_id_of (Client.poll_query "task-1");
               StatusRoute.auth_user := Some "u1";
               StatusRoute.now := 1000;
               StatusRoute.zone := ProxyDatabase.UTC;
               StatusRoute.faults := Db.no_faults;
               StatusRoute.session_jwt := Some "jwt-1";
               StatusRoute.poll := Scenario.reports "completed" |} in
  Http.http_status (fst (StatusRoute.GET se (Scenario.world1 "processing" true)))
  = 400.
Proof.
  intros se.
  destruct (progress_page_requests_are_rejected Json.parse_flat_object se
              {| ResultRoute.task_id_param :=
                   Client.task_id_of (Client.poll_query "task-1");
                 ResultRoute.auth_user := Some "u1";
                 ResultRoute.now := 2000;
                 ResultRoute.zone := ProxyDatabase.UTC;
                 ResultRoute.faults := Db.no_faults;
                 ResultRoute.session_jwt := Some "jwt-1";
                 ResultRoute.stream := Lifecycle.story_stream |}
              (Scenario.world1 "processing" true) "task-1"
              eq_refl eq_refl eq_refl) as [H _].
  rewrite H. reflexivity.
Defined.
